(** * Grocy client: barcode normalisation, unit conversion and the
      failure policy of the HTTP operations

    A shallow embedding of [app/grocy/client.py] (class [GrocyClient]).

    - A Python [str] is a [str]: a sequence of Unicode code points, each a
      [char].  [str.isdigit] and [int] read the digit tables of Unicode
      (14.0, the version of CPython 3.11): [int] accepts the characters
      with a decimal digit value, ['0'..'9'] and the digits of the other
      scripts; [str.isdigit] accepts these and the characters that are
      digits without a decimal value, such as the superscript two.
    - Python exceptions are the constructors of [exn]; a call that can raise
      returns a [result].
    - What the remote system sends is a [value], a decoded JSON document
      with Python's dynamic operations on it; what the caller passes
      ([product_data], [purchase_data], [assignments]) is a record with the
      fields and types of the docstrings.
    - The HTTP operations run in a state-and-exception monad over the
      requests sent so far and the log written so far; the remote system is
      a function from the history and the request to an outcome.
    - Python's arithmetic and renderings, the calendar and the clock are
      taken as a [runtime]; the theorems hold for every runtime, the
      examples run on [example_runtime]. *)

From Stdlib Require Import ZArith NArith List Bool Lia.
From Stdlib.Strings Require Import Byte.
From Stdlib Require Import PrimFloat SpecFloat FloatOps.
Import ListNotations.

(** ** Strings of the Python runtime *)

(** A character is its code point; the numbers above U+10FFFF stand for no
    character and are digits for no function below. *)
Abbreviation char := N (only parsing).

Inductive str : Type :=
| EmptyString
| String (c : char) (s : str).

(** String literals denote ASCII text, one code point per byte. *)
Fixpoint str_of_bytes (l : list byte) : option str :=
  match l with
  | [] => Some EmptyString
  | b :: l' =>
      if N.ltb (Byte.to_N b) 128
      then option_map (String (Byte.to_N b)) (str_of_bytes l')
      else None
  end.

Fixpoint bytes_of_str (s : str) : option (list byte) :=
  match s with
  | EmptyString => Some []
  | String c s' =>
      match (if N.ltb c 128 then Byte.of_N c else None), bytes_of_str s' with
      | Some b, Some l => Some (b :: l)
      | _, _ => None
      end
  end.

Declare Scope str_scope.
Delimit Scope str_scope with str.
Bind Scope str_scope with str.
String Notation str str_of_bytes bytes_of_str : str_scope.

Module Str.

Fixpoint append (s1 s2 : str) : str :=
  match s1 with
  | EmptyString => s2
  | String c s1' => String c (append s1' s2)
  end.

Fixpoint length (s : str) : nat :=
  match s with
  | EmptyString => O
  | String _ s' => S (length s')
  end.

Fixpoint eqb (s1 s2 : str) : bool :=
  match s1, s2 with
  | EmptyString, EmptyString => true
  | String c1 s1', String c2 s2' => N.eqb c1 c2 && eqb s1' s2'
  | _, _ => false
  end.

(** [s2.startswith(s1)] *)
Fixpoint prefix (s1 s2 : str) : bool :=
  match s1 with
  | EmptyString => true
  | String c1 s1' =>
      match s2 with
      | EmptyString => false
      | String c2 s2' => N.eqb c1 c2 && prefix s1' s2'
      end
  end.

(** [s[n : n + m]] *)
Fixpoint substring (n m : nat) (s : str) : str :=
  match n, m, s with
  | O, O, _ => EmptyString
  | O, S m', EmptyString => s
  | O, S m', String c s' => String c (substring O m' s')
  | S n', _, EmptyString => s
  | S n', _, String c s' => substring n' m s'
  end.

End Str.

Import Str.

Infix "++" := Str.append (right associativity, at level 60) : str_scope.

Local Open Scope str_scope.
Local Open Scope Z_scope.

(** ** Exceptions and results *)

Inductive exn : Type :=
| ValueError (msg : str)
| TypeError (msg : str)
| KeyError (key : str)
| AttributeError (msg : str)
| ZeroDivisionError
| OverflowError
| RequestException (msg : str)
| HTTPError (status : Z)
| JSONDecodeError.

Inductive result (A : Type) : Type :=
| Ok (a : A)
| Raise (e : exn).

Arguments Ok {A} a.
Arguments Raise {A} e.

Definition rbind {A B : Type} (r : result A) (k : A -> result B) : result B :=
  match r with
  | Ok a => k a
  | Raise e => Raise e
  end.

Declare Scope result_scope.
Delimit Scope result_scope with result.
Notation "x <- r ;; k" := (rbind r (fun x => k))
  (at level 100, r at next level, right associativity) : result_scope.

(** ** Digits *)

(** [ord(c)] *)
Definition ord (c : char) : Z := Z.of_N c.

(** One of ['0'..'9']. *)
Definition is_ascii_digit (c : char) : bool :=
  (48 <=? ord c) && (ord c <=? 57).

(** The characters with a decimal digit value (general category Nd), as
    ranges of code points, both ends included.  Every range starts at a
    digit zero and the digits follow in order, so the value of [c] in the
    range that starts at [first] is [(c - first) mod 10]. *)
Definition decimal_ranges : list (N * N) :=
  [(48, 57); (1632, 1641); (1776, 1785); (1984, 1993); (2406, 2415);
   (2534, 2543); (2662, 2671); (2790, 2799); (2918, 2927); (3046, 3055);
   (3174, 3183); (3302, 3311); (3430, 3439); (3558, 3567); (3664, 3673);
   (3792, 3801); (3872, 3881); (4160, 4169); (4240, 4249); (6112, 6121);
   (6160, 6169); (6470, 6479); (6608, 6617); (6784, 6793); (6800, 6809);
   (6992, 7001); (7088, 7097); (7232, 7241); (7248, 7257); (42528, 42537);
   (43216, 43225); (43264, 43273); (43472, 43481); (43504, 43513);
   (43600, 43609); (44016, 44025); (65296, 65305); (66720, 66729);
   (68912, 68921); (69734, 69743); (69872, 69881); (69942, 69951);
   (70096, 70105); (70384, 70393); (70736, 70745); (70864, 70873);
   (71248, 71257); (71360, 71369); (71472, 71481); (71904, 71913);
   (72016, 72025); (72784, 72793); (73040, 73049); (73120, 73129);
   (92768, 92777); (92864, 92873); (93008, 93017); (120782, 120831);
   (123200, 123209); (123632, 123641); (125264, 125273);
   (130032, 130041)]%N.

(** The characters that are digits without a decimal value (numeric type
    Digit): superscripts and subscripts, circled and parenthesised digits
    and the like. *)
Definition other_digit_ranges : list (N * N) :=
  [(178, 179); (185, 185); (4969, 4977); (6618, 6618); (8304, 8304);
   (8308, 8313); (8320, 8329); (9312, 9320); (9332, 9340); (9352, 9360);
   (9450, 9450); (9461, 9469); (9471, 9471); (10102, 10110);
   (10112, 10120); (10122, 10130); (68160, 68163); (69216, 69224);
   (69714, 69722); (127232, 127242)]%N.

Definition in_range (c : char) (r : N * N) : bool :=
  N.leb (fst r) c && N.leb c (snd r).

(** The decimal digit value of [c], if it has one. *)
Definition decimal (c : char) : option Z :=
  match find (in_range c) decimal_ranges with
  | Some r => Some (Z.of_N ((c - fst r) mod 10))
  | None => None
  end.

(** [c] is a decimal digit, one that [int] reads. *)
Definition is_decimal_digit (c : char) : bool :=
  match decimal c with
  | Some _ => true
  | None => false
  end.

(** [str.isdigit] on one character. *)
Definition char_isdigit (c : char) : bool :=
  is_decimal_digit c || existsb (in_range c) other_digit_ranges.

Fixpoint string_forallb (p : char -> bool) (s : str) : bool :=
  match s with
  | EmptyString => true
  | String c s' => p c && string_forallb p s'
  end.

(** [s.isdigit()]: false on the empty string. *)
Definition isdigit (s : str) : bool :=
  match s with
  | EmptyString => false
  | String _ _ => string_forallb char_isdigit s
  end.

(** [len(s)] *)
Definition len (s : str) : Z := Z.of_nat (Str.length s).

(** [int(digit)] on a one-character string.  The message quotes the
    character as it is, which is how Python renders the digits that reach
    [int] here. *)
Definition int_of_char (c : char) : result Z :=
  match decimal c with
  | Some d => Ok d
  | None =>
      Raise (ValueError ("invalid literal for int() with base 10: '"
                           ++ String c "'"))
  end.

(** [str(n)] on an integer. *)
Fixpoint str_of_uint (d : Decimal.uint) : str :=
  match d with
  | Decimal.Nil => EmptyString
  | Decimal.D0 d' => String 48%N (str_of_uint d')
  | Decimal.D1 d' => String 49%N (str_of_uint d')
  | Decimal.D2 d' => String 50%N (str_of_uint d')
  | Decimal.D3 d' => String 51%N (str_of_uint d')
  | Decimal.D4 d' => String 52%N (str_of_uint d')
  | Decimal.D5 d' => String 53%N (str_of_uint d')
  | Decimal.D6 d' => String 54%N (str_of_uint d')
  | Decimal.D7 d' => String 55%N (str_of_uint d')
  | Decimal.D8 d' => String 56%N (str_of_uint d')
  | Decimal.D9 d' => String 57%N (str_of_uint d')
  end.

Definition str_of_int (n : Z) : str :=
  match Z.to_int n with
  | Decimal.Pos d => str_of_uint d
  | Decimal.Neg d => "-" ++ str_of_uint d
  end.

(** ** JSON values as Python objects *)

#[local] Set Warnings "-register-all".

Inductive value : Type :=
| VNone
| VBool (b : bool)
| VInt (n : Z)
| VFloat (f : float)
| VStr (s : str)
| VList (items : list value)
| VDict (entries : list (str * value)).

#[local] Set Warnings "register-all".

Fixpoint lookup (k : str) (d : list (str * value)) : option value :=
  match d with
  | [] => None
  | (k', v) :: d' => if Str.eqb k k' then Some v else lookup k d'
  end.

Definition type_name (v : value) : str :=
  match v with
  | VNone => "NoneType"
  | VBool _ => "bool"
  | VInt _ => "int"
  | VFloat _ => "float"
  | VStr _ => "str"
  | VList _ => "list"
  | VDict _ => "dict"
  end.

(** Truth value of an object, as [if v], [v and ...], [v or ...] test it. *)
Definition truthy (v : value) : bool :=
  match v with
  | VNone => false
  | VBool b => b
  | VInt n => negb (n =? 0)
  | VFloat f => negb (PrimFloat.eqb f 0)
  | VStr s => negb (Str.eqb s EmptyString)
  | VList items => match items with [] => false | _ => true end
  | VDict entries => match entries with [] => false | _ => true end
  end.

(** [a or b] *)
Definition py_or (a b : value) : value := if truthy a then a else b.

(** [v[k]] with a string key. *)
Definition getitem (v : value) (k : str) : result value :=
  match v with
  | VDict d =>
      match lookup k d with
      | Some x => Ok x
      | None => Raise (KeyError k)
      end
  | VList _ => Raise (TypeError "list indices must be integers or slices, not str")
  | VStr _ => Raise (TypeError "string indices must be integers, not 'str'")
  | _ => Raise (TypeError ("'" ++ type_name v ++ "' object is not subscriptable"))
  end.

(** [v.get(k, default)] *)
Definition dict_get (v : value) (k : str) (default : value) : result value :=
  match v with
  | VDict d =>
      match lookup k d with
      | Some x => Ok x
      | None => Ok default
      end
  | _ => Raise (AttributeError ("'" ++ type_name v ++ "' object has no attribute 'get'"))
  end.

Fixpoint chars (s : str) : list value :=
  match s with
  | EmptyString => []
  | String c s' => VStr (String c EmptyString) :: chars s'
  end.

(** The items a [for] loop or a generator draws from [v]. *)
Definition iterate (v : value) : result (list value) :=
  match v with
  | VList items => Ok items
  | VDict d => Ok (map (fun kv => VStr (fst kv)) d)
  | VStr s => Ok (chars s)
  | _ => Raise (TypeError ("'" ++ type_name v ++ "' object is not iterable"))
  end.

Fixpoint substring_of (p s : str) : bool :=
  Str.prefix p s ||
  match s with
  | EmptyString => false
  | String _ s' => substring_of p s'
  end.

(** [v == s] for a string [s]. *)
Definition py_eq_str (v : value) (s : str) : bool :=
  match v with
  | VStr t => Str.eqb t s
  | _ => false
  end.

(** [f == n] for a float and an integer: Python compares the exact values. *)
Definition float_eq_int (f : float) (n : Z) : bool :=
  match Prim2SF f with
  | S754_zero _ => n =? 0
  | S754_finite sg m e =>
      let mz := if sg then Z.neg m else Z.pos m in
      if 0 <=? e then n =? mz * 2 ^ e else n * 2 ^ (- e) =? mz
  | _ => false
  end.

(** [v == n] for an integer [n]. *)
Definition py_eq_int (v : value) (n : Z) : bool :=
  match v with
  | VInt m => m =? n
  | VBool b => (if b then 1 else 0) =? n
  | VFloat f => float_eq_int f n
  | _ => false
  end.

(** [k in v] for a string [k]. *)
Definition contains (k : str) (v : value) : result bool :=
  match v with
  | VDict d => Ok (match lookup k d with Some _ => true | None => false end)
  | VList items => Ok (existsb (fun x => py_eq_str x k) items)
  | VStr s => Ok (substring_of k s)
  | _ => Raise (TypeError ("argument of type '" ++ type_name v ++ "' is not iterable"))
  end.

(** ** What the model takes from outside the repository

    The Python runtime's rendering of objects and exceptions, its arithmetic
    on objects, the calendar, and the day on which the call is made. *)

Record runtime : Type := {
  py_repr : value -> str;
  exn_str : exn -> str;
  py_mul : value -> value -> result value;
  py_truediv : value -> value -> result value;
  today : Z;
  isoformat : Z -> str
}.

(** [f"{v}"] *)
Definition format (R : runtime) (v : value) : str :=
  match v with
  | VStr s => s
  | VInt n => str_of_int n
  | VNone => "None"
  | VBool true => "True"
  | VBool false => "False"
  | _ => py_repr R v
  end.

(** [(date.today() + timedelta(days=days_out)).isoformat()]; dates are
    proleptic Gregorian ordinals, [date.max] is 3652059. *)
Definition expiration (R : runtime) (days_out : Z) : result str :=
  if 999999999 <? Z.abs days_out then Raise OverflowError
  else
    let o := today R + days_out in
    if (1 <=? o) && (o <=? 3652059) then Ok (isoformat R o)
    else Raise OverflowError.

(** ** The HTTP transport and the logger *)

Inductive http_method : Type := GET | POST.

Record request : Type := {
  meth : http_method;
  url : str;
  headers : list (str * str);
  data : option value
}.

(** A response: its status and what [response.json()] gives. *)
Record response : Type := {
  status_code : Z;
  json : result value
}.

(** The remote system: the outcome of a request given the requests before. *)
Definition remote : Type := list request -> request -> result response.

Inductive log_level : Type := INFO | ERROR.

Record log_entry : Type := {
  level : log_level;
  message : str
}.

Record state : Type := {
  history : list request;
  log : list log_entry
}.

Definition initial : state := {| history := []; log := [] |}.

(** Computations that send requests, write log entries and may raise. *)
Definition M (A : Type) : Type := state -> result A * state.

Definition ret {A : Type} (a : A) : M A := fun st => (Ok a, st).

Definition bind {A B : Type} (m : M A) (k : A -> M B) : M B :=
  fun st =>
    match m st with
    | (Ok a, st') => k a st'
    | (Raise e, st') => (Raise e, st')
    end.

Definition lift {A : Type} (r : result A) : M A := fun st => (r, st).

(** [try: body  except Exception as e: handler] *)
Definition try_except {A : Type} (body : M A) (handler : exn -> M A) : M A :=
  fun st =>
    match body st with
    | (Ok a, st') => (Ok a, st')
    | (Raise e, st') => handler e st'
    end.

Definition logger (lvl : log_level) (msg : str) : M unit :=
  fun st =>
    (Ok tt, {| history := history st;
               log := log st ++ [{| level := lvl; message := msg |}] |}).

Declare Scope monad_scope.
Delimit Scope monad_scope with monad.
Notation "x <- m ;; k" := (bind m (fun x => k))
  (at level 100, m at next level, right associativity) : monad_scope.
Notation "m ;;; k" := (bind m (fun _ => k))
  (at level 100, right associativity) : monad_scope.

(** ** The client *)

Record client : Type := {
  api_url : str;
  api_key : str
}.

(** [product_data] of [create_product], with the fields and types its
    docstring lists; an optional field is [None] when the key is absent. *)
Record product_data : Type := {
  pd_name : str;
  pd_description : option str;
  pd_product_group_id : option Z;
  pd_location_id : option Z;
  pd_qu_id_purchase : option Z;
  pd_qu_id_stock : option Z;
  pd_barcode : option str;
  pd_out_of_stock_default : option bool
}.

(** [assignments] of [add_barcode_to_product]. *)
Record assignments : Type := {
  as_shopping_location_id : option Z;
  as_note : option str;
  as_display_amount : option value
}.

(** [purchase_data] of [add_purchase]. *)
Record purchase_data : Type := {
  pu_product_id : Z;
  pu_amount : value;
  pu_days_out : Z;
  pu_shopping_location_id : Z;
  pu_price : option value
}.

Definition opt_int (o : option Z) : value :=
  match o with
  | Some n => VInt n
  | None => VNone
  end.

Definition product_data_dict (p : product_data) : value :=
  VDict
    ([("name", VStr (pd_name p))]
     ++ match pd_description p with Some d => [("description", VStr d)] | None => [] end
     ++ match pd_product_group_id p with Some n => [("product_group_id", VInt n)] | None => [] end
     ++ match pd_location_id p with Some n => [("location_id", VInt n)] | None => [] end
     ++ match pd_qu_id_purchase p with Some n => [("qu_id_purchase", VInt n)] | None => [] end
     ++ match pd_qu_id_stock p with Some n => [("qu_id_stock", VInt n)] | None => [] end
     ++ match pd_barcode p with Some b => [("barcode", VStr b)] | None => [] end
     ++ match pd_out_of_stock_default p with
        | Some b => [("out_of_stock_default", VBool b)]
        | None => []
        end).

Definition purchase_data_dict (p : purchase_data) : value :=
  VDict
    ([("product_id", VInt (pu_product_id p));
      ("amount", pu_amount p);
      ("days_out", VInt (pu_days_out p));
      ("shopping_location_id", VInt (pu_shopping_location_id p))]
     ++ match pu_price p with Some x => [("price", x)] | None => [] end).

(** What a [return] inside a [try] body does to the statements after the
    [try]: [Return v] leaves the function, [Continue x] goes on with [x]. *)
Inductive flow (A : Type) : Type :=
| Return (v : value)
| Continue (x : A).

Arguments Return {A} v.
Arguments Continue {A} x.

Module GrocyClient.

(** *** Construction *)

Section Construction.

(** [os.environ.get] *)
Variable environ : str -> option str.

Local Open Scope monad_scope.

(** [arg or os.environ.get(var)], for an argument that is a string or
    [None]. *)
Definition or_environ (arg : option str) (var : str) : option str :=
  match arg with
  | Some s => if Str.eqb s EmptyString then environ var else Some s
  | None => environ var
  end.

(** [not v], for a string or [None]. *)
Definition not_set (v : option str) : bool :=
  match v with
  | Some s => Str.eqb s EmptyString
  | None => true
  end.

(** [__init__]: the client it leaves in [self], or what it raises. *)
Definition init (api_url api_key : option str) : M client :=
  let self_api_url := or_environ api_url "GROCY_API_URL" in
  let self_api_key := or_environ api_key "GROCY_API_KEY" in
  if not_set self_api_url || not_set self_api_key then
    logger ERROR "Grocy API URL and API key must be provided" ;;;
    lift (Raise (ValueError "Grocy API URL and API key must be provided"))
  else
    let u := match self_api_url with Some u => u | None => EmptyString end in
    let k := match self_api_key with Some k => k | None => EmptyString end in
    logger INFO ("Initializing Grocy client with API URL: " ++ u) ;;;
    ret (Build_client u k).

End Construction.

(** *** UPC-A derivation *)

Section Barcodes.

Local Open Scope result_scope.

(** [sum(int(digit) * (3 if i % 2 == 0 else 1) for i, digit in enumerate(s))],
    entered with the running total [acc] and the next index [i]. *)
Fixpoint sum_weighted (acc i : Z) (s : str) : result Z :=
  match s with
  | EmptyString => Ok acc
  | String digit s' =>
      d <- int_of_char digit ;;
      sum_weighted (acc + d * (if i mod 2 =? 0 then 3 else 1)) (i + 1) s'
  end.

Definition calculate_upc_check_digit (code11 : str) : result str :=
  if negb (len code11 =? 11) || negb (isdigit code11) then
    Raise (ValueError "Input must be an 11-digit string")
  else
    total <- sum_weighted 0 0 code11 ;;
    Ok (str_of_int ((10 - (total mod 10)) mod 10)).

Definition build_upc_from_receipt (receipt_code : str) : result str :=
  if negb (len receipt_code =? 10) || negb (isdigit receipt_code) then
    Raise (ValueError "Expected a 10-digit numeric receipt code")
  else
    let base_code := "0" ++ receipt_code in
    check <- calculate_upc_check_digit base_code ;;
    Ok (base_code ++ check).

Definition normalize_receipt_barcode (receipt_code : str) : result str :=
  if (len receipt_code =? 10) && isdigit receipt_code then
    build_upc_from_receipt receipt_code
  else
    Ok receipt_code.

End Barcodes.

(** *** The HTTP operations *)

Section Operations.

Variable R : runtime.
Variable server : remote.
Variable self : client.

Local Open Scope monad_scope.

Definition self_headers : list (str * str) :=
  [("GROCY-API-KEY", api_key self); ("Content-Type", "application/json")].

(** [requests.get(url, headers=self.headers)] *)
Definition requests_get (u : str) : M response :=
  fun st =>
    let rq := {| meth := GET; url := u; headers := self_headers; data := None |} in
    (server (history st) rq,
     {| history := history st ++ [rq]; log := log st |}).

(** [requests.post(url, headers=self.headers, data=json.dumps(body))] *)
Definition requests_post (u : str) (body : value) : M response :=
  fun st =>
    let rq := {| meth := POST; url := u; headers := self_headers;
                 data := Some body |} in
    (server (history st) rq,
     {| history := history st ++ [rq]; log := log st |}).

(** [response.raise_for_status()] *)
Definition raise_for_status (response : response) : M unit :=
  if (400 <=? status_code response) && (status_code response <? 600)
  then lift (Raise (HTTPError (status_code response)))
  else ret tt.

(** The body shared by the list and single-object reads:
    [requests.get], [raise_for_status], [response.json()]. *)
Definition get_json (u : str) : M value :=
  response <- requests_get u ;;
  raise_for_status response ;;;
  lift (json response).

Definition find_product_by_barcode (barcode : str) : M value :=
  logger INFO ("Finding product by barcode: " ++ barcode) ;;;
  let url := api_url self ++ "/stock/products/by-barcode/" ++ barcode in
  try_except
    (j <- get_json url ;; ret (py_or j VNone))
    (fun e =>
       logger ERROR ("Error finding product by barcode: " ++ exn_str R e) ;;;
       ret VNone).

Definition products_for_group (product_group_id : Z) : M value :=
  logger INFO ("Finding products by group: " ++ str_of_int product_group_id) ;;;
  let url := api_url self
             ++ "/objects/products?query%5B%5D=product_group_id%3D"
             ++ str_of_int product_group_id ++ "&order=name%3Aasc" in
  try_except
    (j <- get_json url ;; ret (py_or j (VList [])))
    (fun e =>
       logger ERROR ("Error finding products by group: " ++ exn_str R e) ;;;
       ret (VList [])).

Definition get_product_categories : M value :=
  let url := api_url self ++ "/objects/product_groups" in
  try_except
    (get_json url)
    (fun e =>
       logger ERROR ("Error getting product categories: " ++ exn_str R e) ;;;
       ret (VList [])).

Definition get_locations : M value :=
  let url := api_url self ++ "/objects/locations" in
  try_except
    (get_json url)
    (fun e =>
       logger ERROR ("Error getting locations: " ++ exn_str R e) ;;;
       ret (VList [])).

Definition get_quantity_units : M value :=
  let url := api_url self ++ "/objects/quantity_units" in
  try_except
    (get_json url)
    (fun e =>
       logger ERROR ("Error getting quantity units: " ++ exn_str R e) ;;;
       ret (VList [])).

Definition get_shopping_locations : M value :=
  let url := api_url self ++ "/objects/shopping_locations" in
  try_except
    (get_json url)
    (fun e =>
       logger ERROR ("Error getting shopping locations: " ++ exn_str R e) ;;;
       ret (VList [])).

Definition external_lookup (barcode : str) : M value :=
  let url := api_url self ++ "/stock/barcodes/external-lookup/" ++ barcode in
  try_except
    (get_json url)
    (fun e =>
       logger ERROR ("Error performing external barcode lookup: " ++ exn_str R e) ;;;
       ret (VDict [])).

Definition get_product (product_id : value) : M value :=
  let url := api_url self ++ "/objects/products/" ++ format R product_id in
  try_except
    (get_json url)
    (fun e =>
       logger ERROR ("Error getting product: " ++ exn_str R e) ;;;
       ret VNone).

Definition get_product_details (product_id : value) : M value :=
  let url := api_url self ++ "/stock/products/" ++ format R product_id in
  try_except
    (get_json url)
    (fun e =>
       logger ERROR ("Error getting product details: " ++ exn_str R e) ;;;
       ret VNone).

Definition get_all_products : M value :=
  let url := api_url self ++ "/objects/products" in
  try_except
    (get_json url)
    (fun e =>
       logger ERROR ("Error getting all products: " ++ exn_str R e) ;;;
       ret VNone).

(** [next((p for p in products if p.get('name') == product_name), None)] *)
Fixpoint first_named (product_name : str) (products : list value)
  : result value :=
  match products with
  | [] => Ok VNone
  | p :: rest =>
      rbind (dict_get p "name" VNone) (fun n =>
        if py_eq_str n product_name then Ok p
        else first_named product_name rest)
  end.

Definition get_product_by_name (product_name : str) : M value :=
  products <- get_all_products ;;
  items <- lift (iterate products) ;;
  lift (first_named product_name items).

Definition get_quantity_unit_conversions : M value :=
  let url := api_url self ++ "/objects/quantity_unit_conversions" in
  try_except
    (get_json url)
    (fun e =>
       logger ERROR ("Error getting quantity unit conversions: " ++ exn_str R e) ;;;
       ret (VList [])).

Definition add_barcode_to_product (product_id : value) (barcode : str)
    (assignments : assignments) : M value :=
  let url := api_url self ++ "/objects/product_barcodes" in
  standardized_barcode <- lift (normalize_receipt_barcode barcode) ;;
  let grocy_barcode :=
    VDict
      [("shopping_location_id",
        match as_shopping_location_id assignments with
        | Some n => VInt n
        | None => VStr EmptyString
        end);
       ("note",
        match as_note assignments with
        | Some n => VStr n
        | None => VStr EmptyString
        end);
       ("barcode", VStr standardized_barcode);
       ("product_id", product_id);
       ("amount",
        match as_display_amount assignments with
        | Some a => a
        | None => VInt 1
        end)] in
  logger INFO ("Adding barcode: " ++ format R grocy_barcode) ;;;
  try_except
    (response <- requests_post url grocy_barcode ;;
     raise_for_status response ;;;
     lift (json response))
    (fun e =>
       logger ERROR ("Error adding barcode to product: " ++ exn_str R e) ;;;
       ret (VDict [("error", VStr (exn_str R e))])).

(** The [try] statement of [create_product]. *)
Definition create_product_try (product_data : product_data) : M (flow value) :=
  let url := api_url self ++ "/objects/products" in
  let grocy_product :=
    VDict
      [("name", VStr (pd_name product_data));
       ("description",
        match pd_description product_data with
        | Some d => VStr d
        | None => VStr EmptyString
        end);
       ("product_group_id", opt_int (pd_product_group_id product_data));
       ("location_id", opt_int (pd_location_id product_data));
       ("qu_id_purchase", opt_int (pd_qu_id_purchase product_data));
       ("qu_id_stock", opt_int (pd_qu_id_stock product_data));
       ("treat_opened_as_out_of_stock",
        match pd_out_of_stock_default product_data with
        | Some b => VBool b
        | None => VBool false
        end)] in
  try_except
    (response <- requests_post url grocy_product ;;
     if status_code response =? 400 then
       body <- lift (json response) ;;
       error_msg <- lift (dict_get body "error" VNone) ;;
       logger ERROR ("Error creating product: " ++ format R error_msg) ;;;
       ret (Return (VDict [("error", error_msg)]))
     else
       body <- lift (json response) ;;
       product_id <- lift (dict_get body "created_object_id" VNone) ;;
       product <- get_product product_id ;;
       ret (Continue product))
    (fun e =>
       logger ERROR ("Error creating product, trying to find by name: "
                     ++ exn_str R e) ;;;
       product <- get_product_by_name (pd_name product_data) ;;
       ret (Continue product)).

(** The statements of [create_product] after its [try] statement. *)
Definition create_product_rest (product_data : product_data) (product : value)
  : M value :=
  match truthy product, pd_barcode product_data with
  | true, Some barcode =>
      id <- lift (getitem product "id") ;;
      barcode_response <-
        add_barcode_to_product id barcode
          {| as_shopping_location_id := None;
             as_note := Some (pd_name product_data);
             as_display_amount := None |} ;;
      has_error <- lift (contains "error" barcode_response) ;;
      if has_error then
        err <- lift (getitem barcode_response "error") ;;
        ret (VDict [("error", err)])
      else ret (py_or product VNone)
  | _, _ => ret (py_or product VNone)
  end.

Definition create_product (product_data : product_data) : M value :=
  logger INFO ("Creating product with data: "
               ++ format R (product_data_dict product_data)) ;;;
  outcome <- create_product_try product_data ;;
  match outcome with
  | Return v => ret v
  | Continue product => create_product_rest product_data product
  end.

Definition add_purchase (purchase_data : purchase_data) : M value :=
  product_data <- get_product_details (VInt (pu_product_id purchase_data)) ;;
  logger INFO ("Adding purchase for product " ++ format R product_data
               ++ " with data " ++ format R (purchase_data_dict purchase_data)) ;;;
  let url := api_url self ++ "/stock/products/"
             ++ str_of_int (pu_product_id purchase_data) ++ "/add" in
  expiration_date <- lift (expiration R (pu_days_out purchase_data)) ;;
  factor <- lift (getitem product_data "qu_conversion_factor_purchase_to_stock") ;;
  calc_amount <- lift (py_mul R (pu_amount purchase_data) factor) ;;
  factor' <- lift (getitem product_data "qu_conversion_factor_purchase_to_stock") ;;
  calc_price <-
    lift (py_truediv R
            (match pu_price purchase_data with Some x => x | None => VInt 0 end)
            factor') ;;
  let grocy_purchase :=
    VDict
      [("amount", calc_amount);
       ("transaction_type", VStr "purchase");
       ("best_before_date", VStr expiration_date);
       ("price", calc_price);
       ("shopping_location_id", VInt (pu_shopping_location_id purchase_data))] in
  try_except
    (response <- requests_post url grocy_purchase ;;
     raise_for_status response ;;;
     lift (json response))
    (fun e =>
       logger ERROR ("Error adding purchase: " ++ exn_str R e) ;;;
       ret (VDict [("error", VStr (exn_str R e))])).

(** The [for] loop of [convert_purchase_quantities_to_stock] with the
    [return amount] after it. *)
Fixpoint scan_conversions (purchase_id stock_id : Z) (amount : value)
    (conversions : list value) : result value :=
  match conversions with
  | [] => Ok amount
  | conversion :: rest =>
      rbind (getitem conversion "from_qu_id") (fun from_qu_id =>
        if py_eq_int from_qu_id purchase_id then
          rbind (getitem conversion "to_qu_id") (fun to_qu_id =>
            if py_eq_int to_qu_id stock_id then
              rbind (getitem conversion "factor") (fun factor =>
                py_mul R amount factor)
            else scan_conversions purchase_id stock_id amount rest)
        else scan_conversions purchase_id stock_id amount rest)
  end.

Definition convert_purchase_quantities_to_stock (purchase_id stock_id : Z)
    (amount : value) : M value :=
  conversions <- get_quantity_unit_conversions ;;
  try_except
    (items <- lift (iterate conversions) ;;
     lift (scan_conversions purchase_id stock_id amount items))
    (fun e =>
       logger ERROR ("Error converting quantities: " ++ exn_str R e) ;;;
       ret (VDict [("error", VStr (exn_str R e))])).

End Operations.

End GrocyClient.

(** ** The vocabulary of the specification *)

(** A string of numeric digits: every character is one of ['0'..'9']. *)
Definition numeric (s : str) : bool := string_forallb is_ascii_digit s.



(** A string of decimal digits of any script: every character has a decimal
    digit value. *)
Definition decimal_digits (s : str) : bool :=
  string_forallb is_decimal_digit s.

(** The digit values of a string of decimal digits. *)
Fixpoint values_of (s : str) : list Z :=
  match s with
  | EmptyString => []
  | String c s' =>
      match decimal c with
      | Some d => d :: values_of s'
      | None => values_of s'
      end
  end.

Fixpoint digits_of (s : str) : list Z :=
  match s with
  | EmptyString => []
  | String c s' => (ord c - 48) :: digits_of s'
  end.

(** The weighted sum of the specification: weight 3 at even 0-based
    indices, weight 1 at odd ones; [even] tells the parity of the index of
    the head. *)
Fixpoint spec_weighted_sum (even : bool) (ds : list Z) : Z :=
  match ds with
  | [] => 0
  | d :: ds' => (if even then 3 else 1) * d + spec_weighted_sum (negb even) ds'
  end.

(** No character of [s] is a digit for [str.isdigit] without being a
    decimal digit, one that [int] reads. *)
Definition plain (s : str) : bool :=
  string_forallb (fun c => implb (char_isdigit c) (is_decimal_digit c)) s.

(** The one-character string of the digit [d]. *)
Definition digit_string (d : Z) : str :=
  String (Z.to_N (48 + d)) EmptyString.

(** An error object: a dict with an ['error'] member. *)
Definition is_error_object (v : value) : bool :=
  match v with
  | VDict d => match lookup "error" d with Some _ => true | None => false end
  | _ => false
  end.

Definition error_object (R : runtime) (e : exn) : value :=
  VDict [("error", VStr (exn_str R e))].

(** The exception, if any, that the three transport steps of a read raise:
    the request itself, [raise_for_status], and [response.json()]. *)
Definition transport_failure (o : result response) : option exn :=
  match o with
  | Raise e => Some e
  | Ok r =>
      if (400 <=? status_code r) && (status_code r <? 600)
      then Some (HTTPError (status_code r))
      else match json r with
           | Raise e => Some e
           | Ok _ => None
           end
  end.

(** What the three transport steps give: the decoded body, or what they
    raise. *)
Definition transport_result (o : result response) : result value :=
  match o with
  | Raise e => Raise e
  | Ok r =>
      if (400 <=? status_code r) && (status_code r <? 600)
      then Raise (HTTPError (status_code r))
      else json r
  end.

Definition get_request (self : client) (u : str) : request :=
  {| meth := GET; url := u;
     headers := GrocyClient.self_headers self; data := None |}.

Definition post_request (self : client) (u : str) (body : value) : request :=
  {| meth := POST; url := u;
     headers := GrocyClient.self_headers self; data := Some body |}.

(** The read operations that issue one GET. *)
Inductive read_op : Type :=
| FindProductByBarcode (barcode : str)
| ProductsForGroup (product_group_id : Z)
| GetProductCategories
| GetLocations
| GetQuantityUnits
| GetShoppingLocations
| ExternalLookup (barcode : str)
| GetProduct (product_id : value)
| GetProductDetails (product_id : value)
| GetAllProducts
| GetQuantityUnitConversions.

Definition run_read (R : runtime) (server : remote) (self : client)
    (op : read_op) : M value :=
  match op with
  | FindProductByBarcode b => GrocyClient.find_product_by_barcode R server self b
  | ProductsForGroup g => GrocyClient.products_for_group R server self g
  | GetProductCategories => GrocyClient.get_product_categories R server self
  | GetLocations => GrocyClient.get_locations R server self
  | GetQuantityUnits => GrocyClient.get_quantity_units R server self
  | GetShoppingLocations => GrocyClient.get_shopping_locations R server self
  | ExternalLookup b => GrocyClient.external_lookup R server self b
  | GetProduct i => GrocyClient.get_product R server self i
  | GetProductDetails i => GrocyClient.get_product_details R server self i
  | GetAllProducts => GrocyClient.get_all_products R server self
  | GetQuantityUnitConversions =>
      GrocyClient.get_quantity_unit_conversions R server self
  end.

Definition read_url (R : runtime) (self : client) (op : read_op) : str :=
  match op with
  | FindProductByBarcode b => api_url self ++ "/stock/products/by-barcode/" ++ b
  | ProductsForGroup g =>
      api_url self ++ "/objects/products?query%5B%5D=product_group_id%3D"
      ++ str_of_int g ++ "&order=name%3Aasc"
  | GetProductCategories => api_url self ++ "/objects/product_groups"
  | GetLocations => api_url self ++ "/objects/locations"
  | GetQuantityUnits => api_url self ++ "/objects/quantity_units"
  | GetShoppingLocations => api_url self ++ "/objects/shopping_locations"
  | ExternalLookup b => api_url self ++ "/stock/barcodes/external-lookup/" ++ b
  | GetProduct i => api_url self ++ "/objects/products/" ++ format R i
  | GetProductDetails i => api_url self ++ "/stock/products/" ++ format R i
  | GetAllProducts => api_url self ++ "/objects/products"
  | GetQuantityUnitConversions => api_url self ++ "/objects/quantity_unit_conversions"
  end.

(** What each read's docstring declares for the failure case. *)
Definition documented_sentinel (op : read_op) : value :=
  match op with
  | FindProductByBarcode _ | GetProduct _ | GetProductDetails _
  | GetAllProducts => VNone
  | ExternalLookup _ => VDict []
  | _ => VList []
  end.

(** The entries a read logs before its request, and the prefix of its
    error entry. *)
Definition read_info (op : read_op) : list log_entry :=
  match op with
  | FindProductByBarcode b =>
      [{| level := INFO; message := "Finding product by barcode: " ++ b |}]
  | ProductsForGroup g =>
      [{| level := INFO;
          message := "Finding products by group: " ++ str_of_int g |}]
  | _ => []
  end.

Definition read_error_prefix (op : read_op) : str :=
  match op with
  | FindProductByBarcode _ => "Error finding product by barcode: "
  | ProductsForGroup _ => "Error finding products by group: "
  | GetProductCategories => "Error getting product categories: "
  | GetLocations => "Error getting locations: "
  | GetQuantityUnits => "Error getting quantity units: "
  | GetShoppingLocations => "Error getting shopping locations: "
  | ExternalLookup _ => "Error performing external barcode lookup: "
  | GetProduct _ => "Error getting product: "
  | GetProductDetails _ => "Error getting product details: "
  | GetAllProducts => "Error getting all products: "
  | GetQuantityUnitConversions => "Error getting quantity unit conversions: "
  end.

(** The result shapes of the specification and the sentinel it gives each:
    an absent-value marker for a single-item lookup, an empty ordered
    sequence for a list lookup. *)
Inductive result_shape : Type := SingleItem | ListLookup.

Definition spec_sentinel (sh : result_shape) : value :=
  match sh with
  | SingleItem => VNone
  | ListLookup => VList []
  end.

(** The failure policy of the specification, for one run of an operation:
    the sentinel of its shape is returned, nothing is raised. *)
Definition obeys_failure_policy (m : M value) (sh : result_shape)
    (st : state) : Prop :=
  fst (m st) = Ok (spec_sentinel sh).

(** The requests an operation sends when run from [st]. *)
Definition requests_of {A : Type} (m : M A) (st : state) : list request :=
  skipn (List.length (history st)) (history (snd (m st))).

(** The request of the name-based fallback of [create_product]: the GET of
    [get_all_products]. *)
Definition fallback_request (self : client) : request :=
  get_request self (api_url self ++ "/objects/products").

(** The request [create_product] opens with. *)
Definition create_request (self : client) (p : product_data) : request :=
  post_request self (api_url self ++ "/objects/products")
    (VDict
       [("name", VStr (pd_name p));
        ("description",
         match pd_description p with
         | Some d => VStr d
         | None => VStr EmptyString
         end);
        ("product_group_id", opt_int (pd_product_group_id p));
        ("location_id", opt_int (pd_location_id p));
        ("qu_id_purchase", opt_int (pd_qu_id_purchase p));
        ("qu_id_stock", opt_int (pd_qu_id_stock p));
        ("treat_opened_as_out_of_stock",
         match pd_out_of_stock_default p with
         | Some b => VBool b
         | None => VBool false
         end)]).

(** A JSON object. *)
Definition is_object (v : value) : bool :=
  match v with
  | VDict _ => true
  | _ => false
  end.

(** A JSON object whose ['name'] member equals [product_name]. *)
Definition named (product_name : str) (p : value) : bool :=
  match p with
  | VDict d =>
      match lookup "name" d with
      | Some v => py_eq_str v product_name
      | None => false
      end
  | _ => false
  end.

(** What a read returns for the decoded body [body]. *)
Definition read_success (op : read_op) (body : value) : value :=
  match op with
  | FindProductByBarcode _ => py_or body VNone
  | ProductsForGroup _ => py_or body (VList [])
  | _ => body
  end.

(** The POST of [add_barcode_to_product] for the normalised [barcode]. *)
Definition barcode_request (self : client) (product_id : value)
    (barcode : str) (a : assignments) : request :=
  post_request self (api_url self ++ "/objects/product_barcodes")
    (VDict
       [("shopping_location_id",
         match as_shopping_location_id a with
         | Some n => VInt n
         | None => VStr EmptyString
         end);
        ("note",
         match as_note a with
         | Some n => VStr n
         | None => VStr EmptyString
         end);
        ("barcode", VStr barcode);
        ("product_id", product_id);
        ("amount",
         match as_display_amount a with
         | Some x => x
         | None => VInt 1
         end)]).

(** A row of the conversion table, and the JSON objects that carry it. *)
Record conversion : Type := {
  from_qu_id : Z;
  to_qu_id : Z;
  factor : value
}.

Definition carries (entry : value) (c : conversion) : Prop :=
  getitem entry "from_qu_id" = Ok (VInt (from_qu_id c)) /\
  getitem entry "to_qu_id" = Ok (VInt (to_qu_id c)) /\
  getitem entry "factor" = Ok (factor c).

Definition matches (purchase_id stock_id : Z) (c : conversion) : bool :=
  (from_qu_id c =? purchase_id) && (to_qu_id c =? stock_id).

(** The exception, if any, that the [try] body of [create_product] raises
    before a product is known: the POST itself, decoding the body, or
    [.get] on a body that is no JSON object. *)
Definition create_failure (o : result response) : option exn :=
  match o with
  | Raise e => Some e
  | Ok r =>
      match json r with
      | Raise e => Some e
      | Ok (VDict _) => None
      | Ok v => Some (AttributeError
                        ("'" ++ type_name v ++ "' object has no attribute 'get'"))
      end
  end.

(** ** A runtime, a client and remote systems for the examples

    [example_runtime] gives Python's [*] and [/] on numbers (an [int] is
    converted to the nearest [float], the quotient of two [int]s is rounded
    once), [*] on a sequence and a count, the ISO rendering of a date, and the
    text of an exception.  It abbreviates the [repr] of floats, lists and
    dicts to the name of their type. *)

Inductive number : Type :=
| NInt (n : Z)
| NFloat (f : float).

Definition as_number (v : value) : option number :=
  match v with
  | VInt n => Some (NInt n)
  | VBool b => Some (NInt (if b then 1 else 0))
  | VFloat f => Some (NFloat f)
  | _ => None
  end.

Definition finite_or_overflow (sf : spec_float) : result float :=
  match sf with
  | S754_infinity _ => Raise OverflowError
  | _ => Ok (SF2Prim sf)
  end.

(** [float(n)] *)
Definition float_of_int (n : Z) : result float :=
  finite_or_overflow (binary_normalize prec emax n 0 false).

Definition to_float (x : number) : result float :=
  match x with
  | NInt n => float_of_int n
  | NFloat f => Ok f
  end.

Fixpoint repeat_string (s : str) (n : nat) : str :=
  match n with
  | O => EmptyString
  | S n' => s ++ repeat_string s n'
  end.

Definition count_of (v : value) : option Z :=
  match v with
  | VInt n => Some n
  | VBool b => Some (if b then 1 else 0)
  | _ => None
  end.

(** [sq * count] for a string or a list [sq]. *)
Definition seq_repeat (sq count : value) : result value :=
  match count_of count with
  | Some n =>
      match sq with
      | VStr s => Ok (VStr (repeat_string s (Z.to_nat n)))
      | VList l => Ok (VList (List.concat (repeat l (Z.to_nat n))))
      | _ => Ok sq
      end
  | None =>
      Raise (TypeError ("can't multiply sequence by non-int of type '"
                          ++ type_name count ++ "'"))
  end.

Definition num_mul (a b : value) : result value :=
  match as_number a, as_number b with
  | Some (NInt x), Some (NInt y) => Ok (VInt (x * y))
  | Some x, Some y =>
      rbind (to_float x) (fun fx =>
      rbind (to_float y) (fun fy => Ok (VFloat (fx * fy))))
  | _, _ =>
      match a, b with
      | VStr _, _ | VList _, _ => seq_repeat a b
      | _, VStr _ | _, VList _ => seq_repeat b a
      | _, _ =>
          Raise (TypeError ("unsupported operand type(s) for *: '"
                              ++ type_name a ++ "' and '" ++ type_name b ++ "'"))
      end
  end.

(** [a / b] on two [int]s: the exact quotient, rounded to nearest-even. *)
Definition int_truediv (a b : Z) : result float :=
  if b =? 0 then Raise ZeroDivisionError
  else
    let negative := xorb (a <? 0) (b <? 0) in
    let x := Z.abs a in
    let y := Z.abs b in
    let k := Z.max 0 (56 + Z.log2 y - Z.log2 x) in
    let q := (x * 2 ^ k) / y in
    let sticky := if (x * 2 ^ k) mod y =? 0 then 0 else 1 in
    let m := 2 * q + sticky in
    finite_or_overflow
      (binary_normalize prec emax (if negative then - m else m) (- k - 1)
         negative).

Definition num_truediv (a b : value) : result value :=
  match as_number a, as_number b with
  | Some (NInt x), Some (NInt y) =>
      rbind (int_truediv x y) (fun f => Ok (VFloat f))
  | Some x, Some y =>
      rbind (to_float x) (fun fx =>
      rbind (to_float y) (fun fy =>
        if PrimFloat.eqb fy 0 then Raise ZeroDivisionError
        else Ok (VFloat (fx / fy))))
  | _, _ =>
      Raise (TypeError ("unsupported operand type(s) for /: '"
                          ++ type_name a ++ "' and '" ++ type_name b ++ "'"))
  end.

Definition pad (width : nat) (n : Z) : str :=
  let s := str_of_int n in
  repeat_string "0" (width - Str.length s) ++ s.

(** [date.fromordinal(o).isoformat()] *)
Definition iso_of_ordinal (o : Z) : str :=
  let z := o + 305 in
  let era := z / 146097 in
  let doe := z - era * 146097 in
  let yoe := (doe - doe / 1460 + doe / 36524 - doe / 146096) / 365 in
  let doy := doe - (365 * yoe + yoe / 4 - yoe / 100) in
  let mp := (5 * doy + 2) / 153 in
  let d := doy - (153 * mp + 2) / 5 + 1 in
  let m := if mp <? 10 then mp + 3 else mp - 9 in
  let y := yoe + era * 400 + (if m <=? 2 then 1 else 0) in
  pad 4 y ++ "-" ++ pad 2 m ++ "-" ++ pad 2 d.

Definition exn_text (e : exn) : str :=
  match e with
  | ValueError msg | TypeError msg | AttributeError msg
  | RequestException msg => msg
  | KeyError key => "'" ++ key ++ "'"
  | ZeroDivisionError => "division by zero"
  | OverflowError => "int too large to convert to float"
  | HTTPError status => str_of_int status ++ " Error"
  | JSONDecodeError => "Expecting value: line 1 column 1 (char 0)"
  end.

Definition example_runtime : runtime :=
  {| py_repr := fun v => "<" ++ type_name v ++ ">";
     exn_str := exn_text;
     py_mul := num_mul;
     py_truediv := num_truediv;
     today := 739923;
     isoformat := iso_of_ordinal |}.

Definition example_client : client :=
  {| api_url := "http://grocy.local/api"; api_key := "secret" |}.

(** A remote system that cannot be reached. *)
Definition unreachable : remote :=
  fun _ _ => Raise (RequestException "Connection refused").

(** A remote system that serves [table] as the conversion table and has
    nothing else. *)
Definition conversions_only (table : value) : remote :=
  fun _ rq =>
    match meth rq with
    | GET =>
        if Str.eqb (url rq)
             "http://grocy.local/api/objects/quantity_unit_conversions"
        then Ok {| status_code := 200; json := Ok table |}
        else Ok {| status_code := 404; json := Raise JSONDecodeError |}
    | POST => Ok {| status_code := 404; json := Raise JSONDecodeError |}
    end.

Definition example_table : value :=
  VList [VDict [("id", VInt 1); ("from_qu_id", VInt 1); ("to_qu_id", VInt 2);
                ("factor", VFloat 2.5%float)]].

Definition milk : value := VDict [("id", VInt 7); ("name", VStr "Milk")].

(** A remote system in front of which a proxy answers every POST with
    status 400 and a body that is no JSON, while the product list holds
    [milk]. *)
Definition rejecting_proxy : remote :=
  fun _ rq =>
    match meth rq with
    | POST => Ok {| status_code := 400; json := Raise JSONDecodeError |}
    | GET =>
        if Str.eqb (url rq) "http://grocy.local/api/objects/products"
        then Ok {| status_code := 200; json := Ok (VList [milk]) |}
        else Ok {| status_code := 404; json := Raise JSONDecodeError |}
    end.

(** A remote system that answers every POST with status 400 and a JSON
    error message. *)
Definition validating : remote :=
  fun _ rq =>
    match meth rq with
    | POST =>
        Ok {| status_code := 400;
              json := Ok (VDict [("error", VStr "name is required")]) |}
    | GET => Ok {| status_code := 200; json := Ok (VList [milk]) |}
    end.

(** A remote system that knows product 7, bought by the pack of 6, and
    books purchases of it. *)
Definition stocked : remote :=
  fun _ rq =>
    match meth rq with
    | GET =>
        if Str.eqb (url rq) "http://grocy.local/api/stock/products/7"
        then Ok {| status_code := 200;
                   json := Ok (VDict [("qu_conversion_factor_purchase_to_stock",
                                       VInt 6)]) |}
        else Ok {| status_code := 404; json := Raise JSONDecodeError |}
    | POST =>
        if Str.eqb (url rq) "http://grocy.local/api/stock/products/7/add"
        then Ok {| status_code := 200;
                   json := Ok (VList [VDict [("id", VInt 31)]]) |}
        else Ok {| status_code := 404; json := Raise JSONDecodeError |}
    end.

Definition butter : value := VDict [("id", VInt 3); ("name", VStr "Butter")].

(** A remote system that creates products under id 7, holds [butter] and
    [milk], accepts barcodes and serves [example_table]. *)
Definition shop : remote :=
  fun _ rq =>
    match meth rq with
    | POST =>
        if Str.eqb (url rq) "http://grocy.local/api/objects/products"
        then Ok {| status_code := 200;
                   json := Ok (VDict [("created_object_id", VInt 7)]) |}
        else if Str.eqb (url rq)
                  "http://grocy.local/api/objects/product_barcodes"
        then Ok {| status_code := 200;
                   json := Ok (VDict [("created_object_id", VInt 12)]) |}
        else Ok {| status_code := 404; json := Raise JSONDecodeError |}
    | GET =>
        if Str.eqb (url rq) "http://grocy.local/api/objects/products/7"
        then Ok {| status_code := 200; json := Ok milk |}
        else if Str.eqb (url rq) "http://grocy.local/api/objects/products"
        then Ok {| status_code := 200; json := Ok (VList [butter; milk]) |}
        else if Str.eqb (url rq)
                  "http://grocy.local/api/objects/quantity_unit_conversions"
        then Ok {| status_code := 200; json := Ok example_table |}
        else Ok {| status_code := 404; json := Raise JSONDecodeError |}
    end.

(** A remote system whose POSTs time out while its GETs answer like
    [shop]. *)
Definition read_only : remote :=
  fun h rq =>
    match meth rq with
    | POST => Raise (RequestException "Read timed out")
    | GET => shop h rq
    end.

(** [os.environ] with the two variables of the client set. *)
Definition example_environ (var : str) : option str :=
  if Str.eqb var "GROCY_API_URL" then Some "http://grocy.local/api"
  else if Str.eqb var "GROCY_API_KEY" then Some "secret"
  else None.

Definition milk_with_barcode : product_data :=
  {| pd_name := "Milk"; pd_description := None;
     pd_product_group_id := Some 1; pd_location_id := Some 1;
     pd_qu_id_purchase := Some 1; pd_qu_id_stock := Some 2;
     pd_barcode := Some "1234567890"; pd_out_of_stock_default := None |}.

(** The ten Arabic-Indic digits one to nine and zero (U+0661..U+0669,
    U+0660). *)
Definition arabic_indic_code : str :=
  String 1633%N (String 1634%N (String 1635%N (String 1636%N (String 1637%N
    (String 1638%N (String 1639%N (String 1640%N (String 1641%N
      (String 1632%N EmptyString))))))))).

(** Nine decimal digits followed by the superscript two (U+00B2). *)
Definition superscript_code : str :=
  "123456789" ++ String 178%N EmptyString.

Definition milk_data : product_data :=
  {| pd_name := "Milk"; pd_description := None;
     pd_product_group_id := Some 1; pd_location_id := Some 1;
     pd_qu_id_purchase := Some 1; pd_qu_id_stock := Some 2;
     pd_barcode := None; pd_out_of_stock_default := None |}.

Definition milk_purchase : purchase_data :=
  {| pu_product_id := 7; pu_amount := VInt 2; pu_days_out := 7;
     pu_shopping_location_id := 1; pu_price := None |}.

(** ** The logger module ([app/utils/logger.py])

    The model follows the configuration of the logger object that
    [logging.getLogger(name)] returns: its level and its handlers, and the
    messages handed to [logger.error].  What the handlers write is not
    followed.  Paths are POSIX paths.  The file system and the [logging]
    library enter as what they answer: whether a directory exists or can be
    made, whether the log file can be opened, the absolute path of a file
    name, and the level that [setLevel] sets for a name. *)

(** The characters ['.'] and ['/']. *)
Definition dot : char := 46%N.
Definition slash : char := 47%N.

Module Logger.

Inductive stream : Type :=
| SysStdout
| OtherStream (id : nat).

Record formatter : Type := {
  fmt : str;
  datefmt : str
}.

(** A handler as [get_logger] tells them apart: a [StreamHandler] (or a
    subclass) with its stream, a [RotatingFileHandler] (or a subclass) with
    its file, any other handler. *)
Inductive handler : Type :=
| StreamHandler (stream : stream) (format : option formatter)
| RotatingFileHandler (baseFilename : str) (maxBytes backupCount : Z)
    (encoding : str) (format : option formatter)
| OtherHandler (id : nat).

Record logger_state : Type := {
  level : Z;
  handlers : list handler;
  errors : list str
}.

Definition log_format : formatter :=
  {| fmt := "%(asctime)s - %(name)s - %(levelname)s - %(message)s";
     datefmt := "%Y-%m-%d %H:%M:%S" |}.

(** [s.split('.')] *)
Fixpoint split_dot (s : str) : list str :=
  match s with
  | EmptyString => [EmptyString]
  | String c s' =>
      match split_dot s' with
      | part :: parts =>
          if N.eqb c dot then EmptyString :: part :: parts
          else String c part :: parts
      | [] => [String c EmptyString]
      end
  end.

(** [name.split('.')[-1]] *)
Definition last_component (name : str) : str :=
  List.last (split_dot name) EmptyString.

Fixpoint ends_with_slash (s : str) : bool :=
  match s with
  | EmptyString => false
  | String c EmptyString => N.eqb c slash
  | String _ s' => ends_with_slash s'
  end.

(** [os.path.join(a, b)] *)
Definition join (a b : str) : str :=
  if Str.prefix "/" b then b
  else if Str.eqb a EmptyString || ends_with_slash a then a ++ b
  else a ++ "/" ++ b.

(** The statements of the module that choose [logs_dir]. *)
Definition resolve_logs_dir (environ : str -> option str)
    (exists_ : str -> bool) (makedirs : str -> result unit) : str :=
  let logs_dir :=
    match environ "LOGS_DIR" with Some d => d | None => "/logs" end in
  if negb (exists_ logs_dir) then
    match makedirs logs_dir with
    | Ok _ => logs_dir
    | Raise _ => "/tmp"
    end
  else logs_dir.

Section GetLogger.

Variable R : runtime.
Variable environ : str -> option str.
Variable logs_dir : str.

(** [logger.setLevel(getattr(logging, s.upper(), logging.INFO))]: the level
    it sets, or what it raises. *)
Variable set_level : str -> result Z.

(** [os.path.abspath] *)
Variable abspath : str -> str.

(** Opening the log file for appending, as the constructor of
    [RotatingFileHandler] does. *)
Variable open_log : str -> result unit.

(** [isinstance(h, logging.StreamHandler) and h.stream == sys.stdout] *)
Definition is_console (h : handler) : bool :=
  match h with
  | StreamHandler SysStdout _ => true
  | _ => false
  end.

(** [isinstance(h, RotatingFileHandler) and h.baseFilename == log_file] *)
Definition logs_to (log_file : str) (h : handler) : bool :=
  match h with
  | RotatingFileHandler baseFilename _ _ _ _ => Str.eqb baseFilename log_file
  | _ => false
  end.

Definition addHandler (logger : logger_state) (h : handler) : logger_state :=
  {| level := level logger;
     handlers := handlers logger ++ [h];
     errors := errors logger |}.

Definition log_file_of (name : str) : str :=
  join logs_dir (last_component name ++ ".log").

(** [get_logger(name)], from the state [logger] of
    [logging.getLogger(name)] to its state at the [return]. *)
Definition get_logger (name : str) (logger : logger_state)
  : result logger_state :=
  let log_level_name :=
    match environ "LOG_LEVEL" with Some s => s | None => "INFO" end in
  rbind (set_level log_level_name) (fun log_level =>
    let logger := {| level := log_level;
                     handlers := handlers logger;
                     errors := errors logger |} in
    let logger :=
      if negb (existsb is_console (handlers logger)) then
        addHandler logger (StreamHandler SysStdout (Some log_format))
      else logger in
    let log_file := log_file_of name in
    if negb (existsb (logs_to log_file) (handlers logger)) then
      match open_log log_file with
      | Ok _ =>
          Ok (addHandler logger
                (RotatingFileHandler (abspath log_file) (10 * 1024 * 1024) 5
                   "utf-8" (Some log_format)))
      | Raise e =>
          Ok {| level := level logger;
                handlers := handlers logger;
                errors := errors logger
                          ++ ["Failed to create log file handler: "
                              ++ exn_str R e] |}
      end
    else Ok logger).

End GetLogger.

End Logger.

(** A logger nobody has configured. *)
Definition fresh_logger : Logger.logger_state :=
  {| Logger.level := 0; Logger.handlers := []; Logger.errors := [] |}.

(** The two handlers [get_logger] installs. *)
Definition console_handler : Logger.handler :=
  Logger.StreamHandler Logger.SysStdout (Some Logger.log_format).

Definition file_handler (baseFilename : str) : Logger.handler :=
  Logger.RotatingFileHandler baseFilename (10 * 1024 * 1024) 5 "utf-8"
    (Some Logger.log_format).

(** A string without a dot. *)
Definition dot_free (s : str) : bool :=
  string_forallb (fun c => negb (N.eqb c dot)) s.

(** [c.upper()] where it is ASCII text: on the ASCII letters and on the ten
    other characters whose upper case is made of ASCII letters (sharp s,
    dotless i, long s and the Latin ligatures).  The upper case of any
    other character holds a character that is not ASCII; it is left as it
    is, which no comparison with an ASCII name can tell apart. *)
Definition upper_char (c : char) : str :=
  if (97 <=? ord c) && (ord c <=? 122)
  then String (Z.to_N (ord c - 32)) EmptyString
  else if ord c =? 223 then "SS"
  else if ord c =? 305 then "I"
  else if ord c =? 383 then "S"
  else if ord c =? 64256 then "FF"
  else if ord c =? 64257 then "FI"
  else if ord c =? 64258 then "FL"
  else if ord c =? 64259 then "FFI"
  else if ord c =? 64260 then "FFL"
  else if (ord c =? 64261) || (ord c =? 64262) then "ST"
  else String c EmptyString.

(** [s.upper()], as far as the result can be an ASCII name. *)
Fixpoint upper (s : str) : str :=
  match s with
  | EmptyString => EmptyString
  | String c s' => upper_char c ++ upper s'
  end.

(** [setLevel] for the examples: the level constants of [logging] by
    name, the two other upper-case attributes of the module, which
    [setLevel] refuses, and the default [logging.INFO] for any other name. *)
Definition example_set_level (s : str) : result Z :=
  let name := upper s in
  if Str.eqb name "BASIC_FORMAT"
  then Raise (ValueError "Unknown level: '%(levelname)s:%(name)s:%(message)s'")
  else if Str.eqb name "_STYLES"
  then Raise (TypeError "Level not an integer or a valid string")
  else if Str.eqb name "NOTSET" then Ok 0
  else if Str.eqb name "DEBUG" then Ok 10
  else if Str.eqb name "INFO" then Ok 20
  else if Str.eqb name "WARNING" || Str.eqb name "WARN" then Ok 30
  else if Str.eqb name "ERROR" then Ok 40
  else if Str.eqb name "CRITICAL" || Str.eqb name "FATAL" then Ok 50
  else Ok 20.

(** [os.path.abspath] for the examples, with [/srv/app] as the working
    directory and on paths that need no normalising. *)
Definition example_abspath (path : str) : str :=
  if Str.prefix "/" path then path else "/srv/app/" ++ path.

(** ** Tactics *)

(** Run the next [lift] of the goal, whose value is given by [H]. *)
Ltac lift_step H :=
  unfold bind at 1, lift at 1; cbv beta iota; rewrite ?H; cbv beta iota.

(** * Properties *)

(** ** Strings *)

Lemma length_append (a b : str) :
  Str.length (a ++ b) = (Str.length a + Str.length b)%nat.
Proof.
  induction a as [|c a IH]; simpl; [reflexivity | now rewrite IH].
Qed.

Lemma substring_append_left (a b : str) :
  substring 0 (Str.length a) (a ++ b) = a.
Proof.
  induction a as [|c a IH]; simpl.
  - now destruct b.
  - now rewrite IH.
Qed.

Lemma substring_whole (b : str) : substring 0 (Str.length b) b = b.
Proof.
  induction b as [|c b IH]; simpl; [reflexivity | now rewrite IH].
Qed.

Lemma substring_append_right (a b : str) :
  substring (Str.length a) (Str.length b) (a ++ b) = b.
Proof.
  induction a as [|c a IH]; simpl; [apply substring_whole | exact IH].
Qed.

Lemma substring_head (a b : str) (n : nat) :
  Str.length a = n -> substring 0 n (a ++ b) = a.
Proof. intros <-. apply substring_append_left. Qed.

Lemma substring_tail (a b : str) (n m : nat) :
  Str.length a = n -> Str.length b = m -> substring n m (a ++ b) = b.
Proof. intros <- <-. apply substring_append_right. Qed.

Lemma append_inj_left (a b c : str) : a ++ b = a ++ c -> b = c.
Proof.
  induction a as [|x a IH]; simpl; intros H; [exact H | ].
  injection H as H. now apply IH.
Qed.

Lemma len_length (s : str) (n : nat) :
  (len s =? Z.of_nat n) = Nat.eqb (Str.length s) n.
Proof.
  unfold len.
  destruct (Nat.eqb_spec (Str.length s) n) as [E | E].
  - rewrite E. apply Z.eqb_refl.
  - apply Z.eqb_neq. lia.
Qed.

(** ** Digits *)

Lemma str_eqb_refl (s : str) : Str.eqb s s = true.
Proof.
  induction s as [|c s IH]; simpl; [reflexivity | ].
  now rewrite N.eqb_refl, IH.
Qed.

Lemma str_eqb_eq (s t : str) : Str.eqb s t = true <-> s = t.
Proof.
  split; [ | intros <-; apply str_eqb_refl ].
  revert t. induction s as [|c s IH]; intros [|d t]; simpl;
    try discriminate; [reflexivity | ].
  intros H. apply andb_true_iff in H as [Hc Hs].
  apply N.eqb_eq in Hc. subst d. now rewrite (IH t Hs).
Qed.

Lemma str_eqb_neq (s t : str) : Str.eqb s t = false <-> s <> t.
Proof.
  rewrite <- str_eqb_eq. destruct (Str.eqb s t); split; congruence.
Qed.

Lemma str_eqb_spec (s t : str) : reflect (s = t) (Str.eqb s t).
Proof.
  destruct (Str.eqb s t) eqn:E; constructor.
  - now apply str_eqb_eq.
  - now apply str_eqb_neq.
Qed.

Lemma decimal_isdigit (c : char) :
  is_decimal_digit c = true -> char_isdigit c = true.
Proof. unfold char_isdigit. now intros ->. Qed.

(** The characters ['0'..'9'] are decimal digits, with the value that their
    place after ['0'] gives. *)
Lemma ascii_digit_value (c : char) :
  is_ascii_digit c = true -> decimal c = Some (ord c - 48).
Proof.
  unfold is_ascii_digit, ord. intros H.
  apply andb_true_iff in H as [Hlo Hhi].
  apply Z.leb_le in Hlo, Hhi.
  unfold decimal, decimal_ranges. cbn [find].
  assert (in_range c (48%N, 57%N) = true) as ->.
  { unfold in_range. cbn [fst snd].
    apply andb_true_iff. split; apply N.leb_le; lia. }
  cbn [fst]. f_equal.
  rewrite N.mod_small by lia. lia.
Qed.

Lemma ascii_digit_decimal (c : char) :
  is_ascii_digit c = true -> is_decimal_digit c = true.
Proof.
  intros H. unfold is_decimal_digit. now rewrite (ascii_digit_value c H).
Qed.




Lemma decimal_value_range (c : char) (d : Z) :
  decimal c = Some d -> 0 <= d <= 9.
Proof.
  unfold decimal. destruct (find (in_range c) decimal_ranges) as [r | ];
    [ | discriminate ].
  intros [= <-].
  assert ((c - fst r) mod 10 < 10)%N as H by (apply N.mod_lt; discriminate).
  revert H. generalize ((c - fst r) mod 10)%N. intros m H. lia.
Qed.

Lemma numeric_decimal_digits (s : str) :
  numeric s = true -> decimal_digits s = true.
Proof.
  unfold numeric, decimal_digits.
  induction s as [|c s IH]; simpl; [reflexivity | ].
  intros H. apply andb_true_iff in H as [Hc Hs].
  now rewrite (ascii_digit_decimal c Hc), (IH Hs).
Qed.

Lemma numeric_values_of (s : str) :
  numeric s = true -> values_of s = digits_of s.
Proof.
  unfold numeric. induction s as [|c s IH]; simpl; [reflexivity | ].
  intros H. apply andb_true_iff in H as [Hc Hs].
  now rewrite (ascii_digit_value c Hc), (IH Hs).
Qed.

Lemma decimal_forall_isdigit (s : str) :
  decimal_digits s = true -> string_forallb char_isdigit s = true.
Proof.
  unfold decimal_digits. induction s as [|c s IH]; simpl; [reflexivity | ].
  intros H. apply andb_true_iff in H as [Hc Hs].
  now rewrite (decimal_isdigit c Hc), (IH Hs).
Qed.

Lemma decimal_digits_isdigit (s : str) :
  s <> EmptyString -> decimal_digits s = true -> isdigit s = true.
Proof.
  intros Hne H. destruct s as [|c s]; [congruence | ].
  now apply decimal_forall_isdigit.
Qed.

Lemma numeric_isdigit (s : str) :
  s <> EmptyString -> numeric s = true -> isdigit s = true.
Proof.
  intros Hne H. apply decimal_digits_isdigit; [exact Hne | ].
  now apply numeric_decimal_digits.
Qed.

Lemma isdigit_forall (s : str) :
  isdigit s = true -> string_forallb char_isdigit s = true.
Proof. destruct s; [discriminate | trivial]. Qed.

Lemma str_of_int_digit (d : Z) :
  0 <= d <= 9 -> str_of_int d = digit_string d.
Proof.
  intros H.
  assert (d = 0 \/ d = 1 \/ d = 2 \/ d = 3 \/ d = 4 \/ d = 5 \/ d = 6
          \/ d = 7 \/ d = 8 \/ d = 9) as E by lia.
  repeat (destruct E as [-> | E]; [reflexivity | ]).
  now subst d.
Qed.

Lemma check_digit_range (total : Z) : 0 <= (10 - total mod 10) mod 10 <= 9.
Proof.
  pose proof (Z.mod_pos_bound (10 - total mod 10) 10). lia.
Qed.

Lemma check_digit_closes (total : Z) :
  (total + (10 - total mod 10) mod 10) mod 10 = 0.
Proof.
  Z.div_mod_to_equations. lia.
Qed.

Lemma parity_next (i : Z) : ((i + 1) mod 2 =? 0) = negb (i mod 2 =? 0).
Proof.
  destruct (Z.eqb_spec ((i + 1) mod 2) 0) as [E | E];
    destruct (Z.eqb_spec (i mod 2) 0) as [F | F]; simpl; try reflexivity;
    exfalso; revert E F; Z.div_mod_to_equations; lia.
Qed.

(** ** The weighted sum of the code is the weighted sum of the
       specification *)

Lemma sum_weighted_decimal (s : str) :
  decimal_digits s = true ->
  forall acc i,
    GrocyClient.sum_weighted acc i s
    = Ok (acc + spec_weighted_sum (i mod 2 =? 0) (values_of s)).
Proof.
  unfold decimal_digits. induction s as [|c s IH]; simpl; intros H acc i.
  - now rewrite Z.add_0_r.
  - apply andb_true_iff in H as [Hc Hs].
    unfold int_of_char, is_decimal_digit in *.
    destruct (decimal c) as [d | ]; [ | discriminate ]. simpl.
    rewrite (IH Hs), parity_next. f_equal.
    destruct (i mod 2 =? 0); lia.
Qed.

Lemma sum_weighted_numeric (s : str) :
  numeric s = true ->
  forall acc i,
    GrocyClient.sum_weighted acc i s
    = Ok (acc + spec_weighted_sum (i mod 2 =? 0) (digits_of s)).
Proof.
  intros H acc i. rewrite <- (numeric_values_of s H).
  apply sum_weighted_decimal. now apply numeric_decimal_digits.
Qed.

Lemma sum_weighted_not_decimal (s : str) :
  decimal_digits s = false ->
  forall acc i, exists msg, GrocyClient.sum_weighted acc i s = Raise (ValueError msg).
Proof.
  unfold decimal_digits. induction s as [|c s IH]; simpl; intros H acc i.
  - discriminate.
  - unfold int_of_char, is_decimal_digit in *.
    destruct (decimal c) as [d | ]; simpl.
    + apply IH. exact H.
    + eexists. reflexivity.
Qed.

Lemma calculate_on_decimal (code11 : str) :
  Str.length code11 = 11%nat -> decimal_digits code11 = true ->
  GrocyClient.calculate_upc_check_digit code11
  = Ok (digit_string
          ((10 - spec_weighted_sum true (values_of code11) mod 10) mod 10)).
Proof.
  intros Hlen Hdec. unfold GrocyClient.calculate_upc_check_digit.
  rewrite (len_length code11 11 : (len code11 =? 11) = _), Hlen. simpl.
  rewrite decimal_digits_isdigit;
    [ | destruct code11; [discriminate | congruence] | exact Hdec ].
  simpl. rewrite (sum_weighted_decimal code11 Hdec). simpl.
  now rewrite str_of_int_digit by apply check_digit_range.
Qed.

Lemma calculate_on_numeric (code11 : str) :
  Str.length code11 = 11%nat -> numeric code11 = true ->
  GrocyClient.calculate_upc_check_digit code11
  = Ok (digit_string
          ((10 - spec_weighted_sum true (digits_of code11) mod 10) mod 10)).
Proof.
  intros Hlen Hnum. rewrite <- (numeric_values_of code11 Hnum).
  apply calculate_on_decimal; [exact Hlen | ].
  now apply numeric_decimal_digits.
Qed.

Lemma calculate_returns_one_character (code11 check : str) :
  GrocyClient.calculate_upc_check_digit code11 = Ok check ->
  Str.length check = 1%nat.
Proof.
  unfold GrocyClient.calculate_upc_check_digit.
  destruct (negb (len code11 =? 11) || negb (isdigit code11)); [discriminate | ].
  destruct (GrocyClient.sum_weighted 0 0 code11) as [total | e]; simpl; [ | discriminate ].
  intros [= <-].
  now rewrite str_of_int_digit by apply check_digit_range.
Qed.

Lemma calculate_raises_value_error (code11 : str) (e : exn) :
  GrocyClient.calculate_upc_check_digit code11 = Raise e ->
  exists msg, e = ValueError msg.
Proof.
  unfold GrocyClient.calculate_upc_check_digit.
  destruct (negb (len code11 =? 11) || negb (isdigit code11)).
  - intros [= <-]. eexists. reflexivity.
  - destruct (decimal_digits code11) eqn:Hdec.
    + now rewrite (sum_weighted_decimal code11 Hdec).
    + destruct (sum_weighted_not_decimal code11 Hdec 0 0) as [msg ->].
      simpl. intros [= <-]. eexists. reflexivity.
Qed.

Lemma calculate_ok_iff (code11 : str) :
  (exists check, GrocyClient.calculate_upc_check_digit code11 = Ok check)
  <-> Str.length code11 = 11%nat /\ decimal_digits code11 = true.
Proof.
  split.
  - intros [check H]. unfold GrocyClient.calculate_upc_check_digit in H.
    rewrite (len_length code11 11 : (len code11 =? 11) = _) in H.
    destruct (Nat.eqb_spec (Str.length code11) 11) as [Hlen | Hlen];
      simpl in H; [ | discriminate ].
    split; [exact Hlen | ].
    destruct (isdigit code11); simpl in H; [ | discriminate ].
    destruct (decimal_digits code11) eqn:Hdec; [reflexivity | ].
    destruct (sum_weighted_not_decimal code11 Hdec 0 0) as [msg E].
    rewrite E in H. discriminate.
  - intros [Hlen Hdec]. eexists. now apply calculate_on_decimal.
Qed.

Lemma build_on_decimal (r : str) :
  Str.length r = 10%nat -> decimal_digits r = true ->
  GrocyClient.build_upc_from_receipt r
  = Ok ("0" ++ r
        ++ digit_string
             ((10 - spec_weighted_sum true (values_of ("0" ++ r)) mod 10) mod 10)).
Proof.
  intros Hlen Hdec. unfold GrocyClient.build_upc_from_receipt.
  rewrite (len_length r 10 : (len r =? 10) = _), Hlen.
  rewrite decimal_digits_isdigit;
    [ | destruct r; [discriminate | congruence] | exact Hdec ].
  cbn [Nat.eqb negb orb].
  rewrite calculate_on_decimal.
  - reflexivity.
  - simpl. now rewrite Hlen.
  - unfold decimal_digits in *. exact Hdec.
Qed.

Lemma build_on_numeric (r : str) :
  Str.length r = 10%nat -> numeric r = true ->
  GrocyClient.build_upc_from_receipt r
  = Ok ("0" ++ r
        ++ digit_string
             ((10 - spec_weighted_sum true (digits_of ("0" ++ r)) mod 10) mod 10)).
Proof.
  intros Hlen Hnum.
  assert (numeric ("0" ++ r) = true) as Hnum' by exact Hnum.
  rewrite <- (numeric_values_of ("0" ++ r) Hnum').
  apply build_on_decimal; [exact Hlen | ].
  now apply numeric_decimal_digits.
Qed.

Lemma build_ok_iff (r : str) :
  (exists upc, GrocyClient.build_upc_from_receipt r = Ok upc)
  <-> Str.length r = 10%nat /\ decimal_digits r = true.
Proof.
  split.
  - intros [upc H]. unfold GrocyClient.build_upc_from_receipt in H.
    rewrite (len_length r 10 : (len r =? 10) = _) in H.
    destruct (Nat.eqb_spec (Str.length r) 10) as [Hlen | Hlen];
      simpl in H; [ | discriminate ].
    split; [exact Hlen | ].
    destruct (isdigit r); simpl in H; [ | discriminate ].
    destruct (GrocyClient.calculate_upc_check_digit (String 48%N r)) as [check | e] eqn:E;
      [ | discriminate ].
    assert (exists c, GrocyClient.calculate_upc_check_digit (String 48%N r) = Ok c) as Hc
      by (now exists check).
    apply calculate_ok_iff in Hc as [_ Hc]. exact Hc.
  - intros [Hlen Hdec]. eexists. now apply build_on_decimal.
Qed.

Lemma build_raises_value_error (r : str) (e : exn) :
  GrocyClient.build_upc_from_receipt r = Raise e -> exists msg, e = ValueError msg.
Proof.
  unfold GrocyClient.build_upc_from_receipt.
  destruct (negb (len r =? 10) || negb (isdigit r)).
  - intros [= <-]. eexists. reflexivity.
  - destruct (GrocyClient.calculate_upc_check_digit ("0" ++ r)) as [check | e'] eqn:E;
      simpl; [discriminate | ].
    intros [= <-]. now apply calculate_raises_value_error in E.
Qed.

Lemma result_cases {A : Type} (r : result A) :
  (exists a, r = Ok a) \/ (exists e, r = Raise e).
Proof. destruct r; [left | right]; eexists; reflexivity. Qed.

(** ** The claims on the UPC-A derivation *)

(** C1. On a string of exactly 11 numeric digits
    [calculate_upc_check_digit] returns one digit, the digit
    [(10 - (sum mod 10)) mod 10] for the sum of the digits weighted 3 at the
    even 0-based indices and 1 at the odd ones, so that the weighted sum plus
    the check digit is 0 modulo 10; on ["03600029145"] it returns ["2"]. *)
Theorem calculate_upc_check_digit_spec :
  (forall code11 : str,
      Str.length code11 = 11%nat -> numeric code11 = true ->
      exists d : Z,
        0 <= d <= 9 /\
        GrocyClient.calculate_upc_check_digit code11 = Ok (digit_string d) /\
        d = (10 - spec_weighted_sum true (digits_of code11) mod 10) mod 10 /\
        (spec_weighted_sum true (digits_of code11) + d) mod 10 = 0)
  /\ GrocyClient.calculate_upc_check_digit "03600029145" = Ok "2".
Proof.
  split; [ | reflexivity ].
  intros code11 Hlen Hnum.
  exists ((10 - spec_weighted_sum true (digits_of code11) mod 10) mod 10).
  repeat split.
  - apply check_digit_range.
  - apply check_digit_range.
  - now apply calculate_on_numeric.
  - apply check_digit_closes.
Qed.

Lemma calculate_upc_check_digit_spec_witness :
  exists d : Z,
    0 <= d <= 9 /\
    GrocyClient.calculate_upc_check_digit "03600029145" = Ok (digit_string d) /\
    d = (10 - spec_weighted_sum true (digits_of "03600029145") mod 10) mod 10 /\
    (spec_weighted_sum true (digits_of "03600029145") + d) mod 10 = 0.
Proof.
  apply (proj1 calculate_upc_check_digit_spec "03600029145"); reflexivity.
Defined.

(** C2. On a string [r] of exactly 10 numeric digits
    [build_upc_from_receipt] returns ["0"], then [r], then the check digit of
    ["0" + r]: a string of length 12 that starts with ["0"] and whose last
    character is [calculate_upc_check_digit] of its first 11. *)
Theorem build_upc_from_receipt_spec (r : str) :
  Str.length r = 10%nat -> numeric r = true ->
  exists upc check : str,
    GrocyClient.build_upc_from_receipt r = Ok upc /\
    GrocyClient.calculate_upc_check_digit ("0" ++ r) = Ok check /\
    upc = "0" ++ r ++ check /\
    Str.length upc = 12%nat /\
    substring 0 1 upc = "0" /\
    GrocyClient.calculate_upc_check_digit (substring 0 11 upc) = Ok (substring 11 1 upc).
Proof.
  intros Hlen Hnum.
  assert (Str.length ("0" ++ r) = 11%nat) as Hlen' by (simpl; now rewrite Hlen).
  assert (numeric ("0" ++ r) = true) as Hnum' by (unfold numeric in *; exact Hnum).
  pose proof (calculate_on_numeric ("0" ++ r) Hlen' Hnum') as Hc.
  set (check := digit_string
                  ((10 - spec_weighted_sum true (digits_of ("0" ++ r)) mod 10)
                   mod 10)) in *.
  exists (("0" ++ r) ++ check), check.
  assert (Str.length check = 1%nat) as Hone by reflexivity.
  refine (conj _ (conj Hc (conj _ (conj _ (conj _ _))))).
  - now rewrite build_on_numeric.
  - reflexivity.
  - rewrite length_append, Hlen', Hone. reflexivity.
  - simpl. now destruct (r ++ check).
  - rewrite (substring_head ("0" ++ r) check 11 Hlen').
    now rewrite (substring_tail ("0" ++ r) check 11 1 Hlen' Hone).
Qed.

Lemma build_upc_from_receipt_spec_witness :
  exists upc check : str,
    GrocyClient.build_upc_from_receipt "1234567890" = Ok upc /\
    GrocyClient.calculate_upc_check_digit ("0" ++ "1234567890") = Ok check /\
    upc = "0" ++ "1234567890" ++ check /\
    Str.length upc = 12%nat /\
    substring 0 1 upc = "0" /\
    GrocyClient.calculate_upc_check_digit (substring 0 11 upc) = Ok (substring 11 1 upc).
Proof.
  apply (build_upc_from_receipt_spec "1234567890"); reflexivity.
Defined.

Lemma build_length (r upc : str) :
  GrocyClient.build_upc_from_receipt r = Ok upc -> Str.length upc = 12%nat.
Proof.
  unfold GrocyClient.build_upc_from_receipt.
  rewrite (len_length r 10 : (len r =? 10) = _).
  destruct (Nat.eqb_spec (Str.length r) 10) as [Hlen | Hlen];
    simpl; [ | discriminate ].
  destruct (isdigit r); simpl; [ | discriminate ].
  destruct (GrocyClient.calculate_upc_check_digit (String 48%N r)) as [check | e] eqn:E;
    simpl; [ | discriminate ].
  intros [= <-]. simpl. rewrite length_append, Hlen.
  now rewrite (calculate_returns_one_character _ _ E).
Qed.

Lemma plain_isdigit (s : str) :
  plain s = true -> string_forallb char_isdigit s = decimal_digits s.
Proof.
  unfold plain, decimal_digits.
  induction s as [|c s IH]; simpl; [reflexivity | ].
  intros H. apply andb_true_iff in H as [Hc Hs]. rewrite (IH Hs).
  f_equal. destruct (char_isdigit c) eqn:D; simpl in Hc.
  - now rewrite Hc.
  - destruct (is_decimal_digit c) eqn:N; [ | reflexivity ].
    now rewrite (decimal_isdigit c N) in D.
Qed.

(** Away from the digits that [int] does not read
    [normalize_receipt_barcode] does what its docstring says: 10 decimal
    digits give the 12-character code, any other string is returned as it
    is. *)
Lemma normalize_on_plain (s : str) :
  plain s = true ->
  (Str.length s = 10%nat /\ decimal_digits s = true ->
   exists upc, GrocyClient.normalize_receipt_barcode s = Ok upc /\
               GrocyClient.build_upc_from_receipt s = Ok upc /\
               Str.length upc = 12%nat) /\
  (~ (Str.length s = 10%nat /\ decimal_digits s = true) ->
   GrocyClient.normalize_receipt_barcode s = Ok s).
Proof.
  intros Hp. unfold GrocyClient.normalize_receipt_barcode.
  rewrite (len_length s 10 : (len s =? 10) = _).
  split.
  - intros [Hlen Hdec]. rewrite Hlen.
    rewrite decimal_digits_isdigit;
      [ | destruct s; [discriminate | congruence] | exact Hdec ].
    simpl. rewrite (build_on_decimal s Hlen Hdec).
    eexists. split; [reflexivity | split; [reflexivity | ] ].
    apply (build_length s). now apply build_on_decimal.
  - intros Hn.
    destruct (Nat.eqb_spec (Str.length s) 10) as [Hlen | Hlen];
      simpl; [ | reflexivity ].
    destruct (isdigit s) eqn:D; [ | reflexivity ].
    exfalso. apply Hn. split; [exact Hlen | ].
    rewrite <- (plain_isdigit s Hp). now apply isdigit_forall.
Qed.

Example normalize_examples :
  GrocyClient.normalize_receipt_barcode "1234567890" = Ok "012345678905" /\
  GrocyClient.normalize_receipt_barcode "ABC123" = Ok "ABC123" /\
  GrocyClient.normalize_receipt_barcode "123456789012" = Ok "123456789012".
Proof. repeat split. Qed.

(** The decimal digits of another script are read like ['0'..'9']: the
    ten Arabic-Indic digits give the code of ["1234567890"] with their own
    characters in the middle. *)
Example arabic_indic_digits :
  numeric arabic_indic_code = false /\
  decimal_digits arabic_indic_code = true /\
  isdigit arabic_indic_code = true /\
  GrocyClient.build_upc_from_receipt arabic_indic_code
  = Ok ("0" ++ arabic_indic_code ++ "5") /\
  GrocyClient.normalize_receipt_barcode arabic_indic_code
  = Ok ("0" ++ arabic_indic_code ++ "5").
Proof. repeat split. Qed.

(** C3, at a string the claim sends back unchanged.  [superscript_code] has
    10 characters and is not a string of numeric digits (its last character
    is no decimal digit of any script), yet [str.isdigit] accepts it, so the
    10-digit branch is taken and [int] raises on the superscript:
    [normalize_receipt_barcode] returns nothing. *)
Theorem normalize_receipt_barcode_superscript :
  Str.length superscript_code = 10%nat /\
  numeric superscript_code = false /\
  decimal_digits superscript_code = false /\
  isdigit superscript_code = true /\
  GrocyClient.normalize_receipt_barcode superscript_code
  = Raise (ValueError ("invalid literal for int() with base 10: '"
                         ++ String 178%N "'")).
Proof. repeat split. Qed.


(** C10. [normalize_receipt_barcode] is idempotent: applying it to its own
    result changes nothing (a derived code has 12 characters and falls
    through; a call that raises, raises the same in the composition). *)
Theorem normalize_receipt_barcode_idempotent (s : str) :
  rbind (GrocyClient.normalize_receipt_barcode s)
    GrocyClient.normalize_receipt_barcode
  = GrocyClient.normalize_receipt_barcode s
  /\
  (forall t : str,
      GrocyClient.normalize_receipt_barcode s = Ok t ->
      GrocyClient.normalize_receipt_barcode t = Ok t).
Proof.
  assert (rbind (GrocyClient.normalize_receipt_barcode s)
            GrocyClient.normalize_receipt_barcode
          = GrocyClient.normalize_receipt_barcode s) as Hcomp.
  { unfold GrocyClient.normalize_receipt_barcode at 1 3.
    destruct ((len s =? 10) && isdigit s) eqn:G.
    - destruct (GrocyClient.build_upc_from_receipt s) as [upc | e] eqn:E; simpl;
        [ | reflexivity ].
      unfold GrocyClient.normalize_receipt_barcode.
      rewrite (len_length upc 10 : (len upc =? 10) = _).
      now rewrite (build_length s upc E).
    - simpl. unfold GrocyClient.normalize_receipt_barcode. now rewrite G. }
  split; [exact Hcomp | ].
  intros t Ht. rewrite Ht in Hcomp. exact Hcomp.
Qed.

(** ** Running the transport steps *)

Section Transport.

Variable R : runtime.
Variable server : remote.
Variable self : client.

Lemma get_json_fails (u : str) (st : state) (e : exn) :
  transport_failure (server (history st) (get_request self u)) = Some e ->
  GrocyClient.get_json server self u st
  = (Raise e, {| history := history st ++ [get_request self u]; log := log st |}).
Proof.
  unfold transport_failure, GrocyClient.get_json, GrocyClient.requests_get,
    GrocyClient.raise_for_status, get_request, bind, lift, ret.
  cbn [history log].
  destruct (server _ _) as [resp | e']; [ | now intros [= ->] ].
  destruct ((400 <=? status_code resp) && (status_code resp <? 600));
    [ now intros [= <-] | ].
  destruct (json resp); [discriminate | now intros [= ->] ].
Qed.

Lemma get_json_succeeds (u : str) (st : state) (resp : response) (v : value) :
  server (history st) (get_request self u) = Ok resp ->
  (400 <=? status_code resp) && (status_code resp <? 600) = false ->
  json resp = Ok v ->
  GrocyClient.get_json server self u st
  = (Ok v, {| history := history st ++ [get_request self u]; log := log st |}).
Proof.
  unfold GrocyClient.get_json, GrocyClient.requests_get,
    GrocyClient.raise_for_status, get_request, bind, lift, ret.
  cbn [history log].
  intros -> -> ->. reflexivity.
Qed.

Lemma get_json_history (u : str) (st : state) :
  snd (GrocyClient.get_json server self u st)
  = {| history := history st ++ [get_request self u]; log := log st |}.
Proof.
  unfold GrocyClient.get_json, GrocyClient.requests_get,
    GrocyClient.raise_for_status, get_request, bind, lift, ret.
  cbn [history log].
  destruct (server _ _) as [resp | e']; [ | reflexivity ].
  now destruct ((400 <=? status_code resp) && (status_code resp <? 600)).
Qed.

(** A read guarded by [try]/[except] sends its one request and returns:
    on a transport failure the default, with one ERROR entry. *)
Lemma guarded_read_fails (u prefix : str) (dflt : value)
    (post : value -> value) (st : state) (e : exn) :
  transport_failure (server (history st) (get_request self u)) = Some e ->
  try_except
    (bind (GrocyClient.get_json server self u) (fun j => ret (post j)))
    (fun e => bind (logger ERROR (prefix ++ exn_str R e)) (fun _ => ret dflt)) st
  = (Ok dflt,
     {| history := history st ++ [get_request self u];
        log := log st ++ [{| level := ERROR; message := prefix ++ exn_str R e |}] |}).
Proof.
  intros H. unfold try_except, bind at 1.
  rewrite (get_json_fails u st e H). reflexivity.
Qed.

Lemma guarded_read_fails' (u prefix : str) (dflt : value)
    (st : state) (e : exn) :
  transport_failure (server (history st) (get_request self u)) = Some e ->
  try_except
    (GrocyClient.get_json server self u)
    (fun e => bind (logger ERROR (prefix ++ exn_str R e)) (fun _ => ret dflt)) st
  = (Ok dflt,
     {| history := history st ++ [get_request self u];
        log := log st ++ [{| level := ERROR; message := prefix ++ exn_str R e |}] |}).
Proof.
  intros H. unfold try_except.
  rewrite (get_json_fails u st e H). reflexivity.
Qed.

(** A guarded read never raises and sends exactly its one request. *)
Lemma guarded_read_run (u prefix : str) (dflt : value) (st : state) :
  exists v lg,
    try_except
      (GrocyClient.get_json server self u)
      (fun e => bind (logger ERROR (prefix ++ exn_str R e)) (fun _ => ret dflt)) st
    = (Ok v, {| history := history st ++ [get_request self u]; log := lg |}).
Proof.
  unfold try_except.
  pose proof (get_json_history u st) as Hst.
  destruct (GrocyClient.get_json server self u st) as [[v | e] st'];
    cbn [snd] in Hst; subst st'.
  - now exists v, (log st).
  - unfold bind, logger, ret. cbn [history log]. eexists. eexists. reflexivity.
Qed.

End Transport.

(** ** The claims on the failure policy of the reads *)

(** C7, as the code has it.  When the transport steps of a read fail, the
    read returns normally the sentinel its docstring declares, having sent its
    one request and written one ERROR entry with the text of the exception:
    [None] for the lookups by barcode, by id, of the stock details and of all
    products, the empty list for the product group, the categories, the
    locations, the quantity units, the shopping locations and the conversion
    table, the empty dict for the external lookup. *)
Theorem read_returns_documented_sentinel (R : runtime) (server : remote)
    (self : client) (op : read_op) (st : state) (e : exn) :
  transport_failure
    (server (history st) (get_request self (read_url R self op))) = Some e ->
  run_read R server self op st
  = (Ok (documented_sentinel op),
     {| history := history st ++ [get_request self (read_url R self op)];
        log := log st ++ read_info op
               ++ [{| level := ERROR;
                      message := read_error_prefix op ++ exn_str R e |}] |}).
Proof.
  intros H.
  destruct op; cbn [run_read read_url documented_sentinel read_info
                      read_error_prefix] in *;
    try (exact (guarded_read_fails' R server self _ _ _ st e H)).
  - unfold GrocyClient.find_product_by_barcode, bind at 1, logger at 1.
    match goal with
    | |- try_except _ _ ?s = _ =>
        rewrite (guarded_read_fails _ _ _ _ _ _ _ s _ H)
    end.
    cbn [history log]. now rewrite <- app_assoc.
  - unfold GrocyClient.products_for_group, bind at 1, logger at 1.
    match goal with
    | |- try_except _ _ ?s = _ =>
        rewrite (guarded_read_fails _ _ _ _ _ _ _ s _ H)
    end.
    cbn [history log]. now rewrite <- app_assoc.
Qed.

Lemma read_returns_documented_sentinel_witness :
  run_read example_runtime unreachable example_client GetAllProducts initial
  = (Ok VNone,
     {| history :=
          [get_request example_client "http://grocy.local/api/objects/products"];
        log := [{| level := ERROR;
                   message := "Error getting all products: Connection refused" |}] |}).
Proof.
  exact (read_returns_documented_sentinel example_runtime unreachable
           example_client GetAllProducts initial
           (RequestException "Connection refused") eq_refl).
Defined.

(** C7 as stated fails: with the remote system out of reach
    [get_all_products], a list lookup, returns [None] and not the empty
    sequence, and [get_product_by_name] raises instead of returning the
    absent-value marker. *)
Lemma read_policy_counterexample :
  ~ obeys_failure_policy
      (GrocyClient.get_all_products example_runtime unreachable example_client)
      ListLookup initial
  /\
  ~ obeys_failure_policy
      (GrocyClient.get_product_by_name example_runtime unreachable
         example_client "Milk")
      SingleItem initial.
Proof.
  split; intros H; vm_compute in H; discriminate H.
Qed.

(** [get_product_by_name] iterates over what [get_all_products] returned;
    after a transport failure that is [None], and the iteration raises. *)
Lemma get_product_by_name_raises (R : runtime) (server : remote)
    (self : client) (product_name : str) (st : state) (e : exn) :
  transport_failure
    (server (history st) (get_request self (api_url self ++ "/objects/products")))
  = Some e ->
  fst (GrocyClient.get_product_by_name R server self product_name st)
  = Raise (TypeError "'NoneType' object is not iterable").
Proof.
  intros H. unfold GrocyClient.get_product_by_name, bind at 1.
  unfold GrocyClient.get_all_products.
  rewrite (guarded_read_fails' R server self _ _ _ st e H). reflexivity.
Qed.

(** ** The claims on the unit conversion *)

Lemma scan_conversions_carried (R : runtime) (purchase_id stock_id : Z)
    (amount : value) (entries : list value) (table : list conversion) :
  Forall2 carries entries table ->
  GrocyClient.scan_conversions R purchase_id stock_id amount entries
  = match find (matches purchase_id stock_id) table with
    | Some c => py_mul R amount (factor c)
    | None => Ok amount
    end.
Proof.
  induction 1 as [ | entry c entries table [Hfrom [Hto Hfactor]] _ IH ].
  - reflexivity.
  - cbn [GrocyClient.scan_conversions find]. unfold matches at 1.
    rewrite Hfrom. cbn [rbind py_eq_int].
    destruct (from_qu_id c =? purchase_id); cbn [andb]; [ | exact IH ].
    rewrite Hto. cbn [rbind py_eq_int].
    destruct (to_qu_id c =? stock_id); [ | exact IH ].
    now rewrite Hfactor.
Qed.

Lemma convert_runs_scan (R : runtime) (server : remote) (self : client)
    (purchase_id stock_id : Z) (amount : value) (st : state)
    (resp : response) (table : value) :
  server (history st)
    (get_request self (api_url self ++ "/objects/quantity_unit_conversions"))
  = Ok resp ->
  (400 <=? status_code resp) && (status_code resp <? 600) = false ->
  json resp = Ok table ->
  fst (GrocyClient.convert_purchase_quantities_to_stock R server self
         purchase_id stock_id amount st)
  = match rbind (iterate table)
            (GrocyClient.scan_conversions R purchase_id stock_id amount) with
    | Ok v => Ok v
    | Raise e => Ok (error_object R e)
    end.
Proof.
  intros Hserver Hstatus Hjson.
  unfold GrocyClient.convert_purchase_quantities_to_stock, bind at 1.
  unfold GrocyClient.get_quantity_unit_conversions, try_except at 1.
  rewrite (get_json_succeeds server self _ st resp table Hserver Hstatus Hjson).
  unfold try_except, bind, lift, logger, ret, error_object.
  destruct (iterate table) as [items | e]; cbn [rbind fst]; [ | reflexivity ].
  now destruct (GrocyClient.scan_conversions R purchase_id stock_id amount items).
Qed.

(** C5. Given the conversion table, [convert_purchase_quantities_to_stock]
    returns [amount * factor] for the first row, in the order of the table,
    whose source and destination unit ids are the requested pair, and
    [amount] itself when no row matches.  (Where Python's [*] raises on the
    two operands, the exception is returned as an error object.) *)
Theorem convert_purchase_quantities_to_stock_spec (R : runtime)
    (server : remote) (self : client) (purchase_id stock_id : Z)
    (amount : value) (st : state) (status : Z) (entries : list value)
    (table : list conversion) :
  server (history st)
    (get_request self (api_url self ++ "/objects/quantity_unit_conversions"))
  = Ok {| status_code := status; json := Ok (VList entries) |} ->
  (400 <=? status) && (status <? 600) = false ->
  Forall2 carries entries table ->
  fst (GrocyClient.convert_purchase_quantities_to_stock R server self
         purchase_id stock_id amount st)
  = match find (matches purchase_id stock_id) table with
    | Some c =>
        match py_mul R amount (factor c) with
        | Ok product => Ok product
        | Raise e => Ok (error_object R e)
        end
    | None => Ok amount
    end.
Proof.
  intros Hserver Hstatus Hcarries.
  rewrite (convert_runs_scan R server self purchase_id stock_id amount st
             _ (VList entries) Hserver Hstatus eq_refl).
  cbn [iterate rbind].
  rewrite (scan_conversions_carried R purchase_id stock_id amount entries
             table Hcarries).
  now destruct (find (matches purchase_id stock_id) table).
Qed.

Lemma example_table_carries :
  Forall2 carries
    [VDict [("id", VInt 1); ("from_qu_id", VInt 1); ("to_qu_id", VInt 2);
            ("factor", VFloat 2.5%float)]]
    [{| from_qu_id := 1; to_qu_id := 2; factor := VFloat 2.5%float |}].
Proof. repeat constructor. Qed.

Lemma convert_purchase_quantities_to_stock_spec_witness :
  fst (GrocyClient.convert_purchase_quantities_to_stock example_runtime
         (conversions_only example_table) example_client 1 2 (VInt 4) initial)
  = Ok (VFloat 10%float)
  /\
  fst (GrocyClient.convert_purchase_quantities_to_stock example_runtime
         (conversions_only example_table) example_client 1 3 (VInt 4) initial)
  = Ok (VInt 4).
Proof.
  split.
  - exact (convert_purchase_quantities_to_stock_spec example_runtime
             (conversions_only example_table) example_client 1 2 (VInt 4)
             initial 200 _ _ eq_refl eq_refl example_table_carries).
  - exact (convert_purchase_quantities_to_stock_spec example_runtime
             (conversions_only example_table) example_client 1 3 (VInt 4)
             initial 200 _ _ eq_refl eq_refl example_table_carries).
Defined.

(** C6, where the code departs from it.  When fetching the conversion table
    fails, [get_quantity_unit_conversions] logs the failure and returns the
    empty list; [convert_purchase_quantities_to_stock] scans the empty list
    and returns [amount] unchanged, as if no conversion were needed.  Its
    docstring promises an error dict if the conversion fails, and it does
    return one when the scan raises ([convert_error_object]): the failed
    fetch is the case it misses. *)
Theorem convert_after_failed_fetch (R : runtime) (server : remote)
    (self : client) (purchase_id stock_id : Z) (amount : value) (st : state)
    (e : exn) :
  transport_failure
    (server (history st)
       (get_request self (api_url self ++ "/objects/quantity_unit_conversions")))
  = Some e ->
  GrocyClient.convert_purchase_quantities_to_stock R server self
    purchase_id stock_id amount st
  = (Ok amount,
     {| history := history st
                   ++ [get_request self
                         (api_url self ++ "/objects/quantity_unit_conversions")];
        log := log st
               ++ [{| level := ERROR;
                      message := "Error getting quantity unit conversions: "
                                 ++ exn_str R e |}] |}).
Proof.
  intros H.
  unfold GrocyClient.convert_purchase_quantities_to_stock, bind at 1.
  unfold GrocyClient.get_quantity_unit_conversions.
  rewrite (guarded_read_fails' R server self _ _ _ st e H).
  reflexivity.
Qed.

Lemma convert_after_failed_fetch_witness :
  GrocyClient.convert_purchase_quantities_to_stock example_runtime unreachable
    example_client 1 2 (VInt 4) initial
  = (Ok (VInt 4),
     {| history :=
          [get_request example_client
             "http://grocy.local/api/objects/quantity_unit_conversions"];
        log := [{| level := ERROR;
                   message := "Error getting quantity unit conversions: "
                              ++ "Connection refused" |}] |}).
Proof.
  exact (convert_after_failed_fetch example_runtime unreachable example_client
           1 2 (VInt 4) initial (RequestException "Connection refused")
           eq_refl).
Defined.

(** With the remote system out of reach the fetch of the table fails, and
    the conversion of 4 returns 4, not an error object. *)
Lemma convert_failed_fetch_no_error_object :
  transport_failure
    (unreachable (history initial)
       (get_request example_client
          (api_url example_client ++ "/objects/quantity_unit_conversions")))
  = Some (RequestException "Connection refused")
  /\
  ~ (exists v,
        fst (GrocyClient.convert_purchase_quantities_to_stock example_runtime
               unreachable example_client 1 2 (VInt 4) initial) = Ok v
        /\ is_error_object v = true).
Proof.
  split; [reflexivity | ].
  intros [v [Hv Herr]]. vm_compute in Hv. injection Hv as <-. discriminate Herr.
Qed.

(** The error object of [convert_purchase_quantities_to_stock] comes from
    the scan: a table that cannot be iterated, or a row without its keys. *)
Example convert_error_object :
  fst (GrocyClient.convert_purchase_quantities_to_stock example_runtime
         (conversions_only VNone) example_client 1 2 (VInt 4) initial)
  = Ok (VDict [("error", VStr "'NoneType' object is not iterable")])
  /\
  fst (GrocyClient.convert_purchase_quantities_to_stock example_runtime
         (conversions_only (VList [VDict [("from_qu_id", VInt 1)]]))
         example_client 1 2 (VInt 4) initial)
  = Ok (VDict [("error", VStr "'to_qu_id'")]).
Proof. split; reflexivity. Qed.

(** ** The claims on the purchase *)

Section Purchase.

Variable R : runtime.
Variable server : remote.
Variable self : client.

Lemma post_json_run (u : str) (body : value) (st : state) :
  bind (GrocyClient.requests_post server self u body)
    (fun response =>
       bind (GrocyClient.raise_for_status response)
         (fun _ => lift (json response))) st
  = (transport_result (server (history st) (post_request self u body)),
     {| history := history st ++ [post_request self u body]; log := log st |}).
Proof.
  unfold bind, GrocyClient.requests_post, GrocyClient.raise_for_status,
    transport_result, post_request, lift, ret.
  cbn [history log].
  destruct (server _ _) as [resp | e]; [ | reflexivity ].
  now destruct ((400 <=? status_code resp) && (status_code resp <? 600)).
Qed.

Lemma get_product_details_fails (product_id : value) (st : state) (e : exn) :
  transport_failure
    (server (history st)
       (get_request self (api_url self ++ "/stock/products/"
                          ++ format R product_id)))
  = Some e ->
  GrocyClient.get_product_details R server self product_id st
  = (Ok VNone,
     {| history := history st
                   ++ [get_request self (api_url self ++ "/stock/products/"
                                         ++ format R product_id)];
        log := log st
               ++ [{| level := ERROR;
                      message := "Error getting product details: "
                                 ++ exn_str R e |}] |}).
Proof.
  exact (guarded_read_fails' R server self _ _ _ st e).
Qed.

(** When the lookup of the stock details fails, [add_purchase] subscripts
    the [None] it got and the [TypeError] leaves the operation. *)
Lemma add_purchase_raises_after_failed_lookup (purchase_data : purchase_data)
    (st : state) (e : exn) (day : str) :
  transport_failure
    (server (history st)
       (get_request self (api_url self ++ "/stock/products/"
                          ++ str_of_int (pu_product_id purchase_data))))
  = Some e ->
  expiration R (pu_days_out purchase_data) = Ok day ->
  fst (GrocyClient.add_purchase R server self purchase_data st)
  = Raise (TypeError "'NoneType' object is not subscriptable").
Proof.
  intros Hfail Hday.
  unfold GrocyClient.add_purchase, bind at 1.
  rewrite (get_product_details_fails (VInt (pu_product_id purchase_data)) st e Hfail).
  unfold bind at 1, logger at 1. cbv beta iota.
  lift_step Hday.
  reflexivity.
Qed.

(** With the stock details in hand and the arithmetic defined,
    [add_purchase] posts [amount * factor], [price / factor] (price 0 when
    absent), the date [days_out] days from today and the transaction type
    ["purchase"], and returns the decoded response, or the error object of
    what the POST raised. *)
Lemma add_purchase_submits (purchase_data : purchase_data) (st : state)
    (resp : response) (product : value) (conversion_factor : value)
    (day : str) (calc_amount calc_price : value) :
  let lookup_request :=
    get_request self (api_url self ++ "/stock/products/"
                      ++ str_of_int (pu_product_id purchase_data)) in
  let grocy_purchase :=
    VDict [("amount", calc_amount);
           ("transaction_type", VStr "purchase");
           ("best_before_date", VStr day);
           ("price", calc_price);
           ("shopping_location_id",
            VInt (pu_shopping_location_id purchase_data))] in
  let add_request :=
    post_request self
      (api_url self ++ "/stock/products/"
       ++ str_of_int (pu_product_id purchase_data) ++ "/add")
      grocy_purchase in
  server (history st) lookup_request = Ok resp ->
  (400 <=? status_code resp) && (status_code resp <? 600) = false ->
  json resp = Ok product ->
  getitem product "qu_conversion_factor_purchase_to_stock"
  = Ok conversion_factor ->
  expiration R (pu_days_out purchase_data) = Ok day ->
  py_mul R (pu_amount purchase_data) conversion_factor = Ok calc_amount ->
  py_truediv R
    (match pu_price purchase_data with Some x => x | None => VInt 0 end)
    conversion_factor = Ok calc_price ->
  let outcome :=
    transport_result
      (server (history st ++ [lookup_request])%list add_request) in
  GrocyClient.add_purchase R server self purchase_data st
  = (match outcome with
     | Ok v => Ok v
     | Raise e => Ok (error_object R e)
     end,
     {| history := history st ++ [lookup_request; add_request];
        log := log st
               ++ [{| level := INFO;
                      message := "Adding purchase for product "
                                 ++ format R product ++ " with data "
                                 ++ format R (purchase_data_dict purchase_data) |}]
               ++ match outcome with
                  | Ok _ => []
                  | Raise e =>
                      [{| level := ERROR;
                          message := "Error adding purchase: " ++ exn_str R e |}]
                  end |}).
Proof.
  intros lookup_request grocy_purchase add_request
    Hserver Hstatus Hjson Hfactor Hday Hmul Hdiv outcome.
  unfold GrocyClient.add_purchase, bind at 1.
  unfold GrocyClient.get_product_details, try_except at 1. cbn [format].
  rewrite (get_json_succeeds server self _ st resp product Hserver Hstatus Hjson).
  unfold bind at 1, logger at 1. cbv beta iota.
  lift_step Hday. lift_step Hfactor. lift_step Hmul. lift_step Hfactor.
  lift_step Hdiv.
  unfold try_except. rewrite post_json_run. cbn [history log].
  fold grocy_purchase. fold add_request. fold lookup_request. fold outcome.
  destruct outcome as [v | e]; unfold bind, logger, ret, error_object;
    cbn [history log]; rewrite <- ?app_assoc, ?app_nil_r; reflexivity.
Qed.

End Purchase.

Example add_purchase_stocked :
  fst (GrocyClient.add_purchase example_runtime stocked example_client
         milk_purchase initial)
  = Ok (VList [VDict [("id", VInt 31)]])
  /\
  history (snd (GrocyClient.add_purchase example_runtime stocked example_client
                  milk_purchase initial))
  = [get_request example_client "http://grocy.local/api/stock/products/7";
     post_request example_client "http://grocy.local/api/stock/products/7/add"
       (VDict [("amount", VInt 12);
               ("transaction_type", VStr "purchase");
               ("best_before_date", VStr "2026-11-10");
               ("price", VFloat 0%float);
               ("shopping_location_id", VInt 1)])].
Proof.
  rewrite (add_purchase_submits example_runtime stocked example_client
             milk_purchase initial _ _ (VInt 6) "2026-11-10" (VInt 12)
             (VFloat 0%float) eq_refl eq_refl eq_refl eq_refl eq_refl eq_refl
             eq_refl).
  split; reflexivity.
Qed.

(** C9, at a purchase for which the claim promises an error object.  With
    the remote system out of reach the lookup of the stock details fails,
    [get_product_details] returns [None], and [add_purchase] raises a
    [TypeError] instead of returning an error object. *)
Theorem add_purchase_raises_when_unreachable :
  fst (GrocyClient.add_purchase example_runtime unreachable example_client
         milk_purchase initial)
  = Raise (TypeError "'NoneType' object is not subscriptable").
Proof. reflexivity. Qed.

(** ** The claims on the creation of a product *)

Lemma requests_of_app {A : Type} (m : M A) (st : state) (new : list request) :
  history (snd (m st)) = (history st ++ new)%list -> requests_of m st = new.
Proof.
  unfold requests_of. intros ->.
  rewrite skipn_app, Nat.sub_diag, skipn_all. reflexivity.
Qed.

Lemma product_url_not_list (self : client) (suffix : str) :
  get_request self (api_url self ++ "/objects/products/" ++ suffix)
  <> fallback_request self.
Proof.
  unfold fallback_request, get_request. intros [= H].
  apply append_inj_left in H. discriminate H.
Qed.

Section Create.

Variable R : runtime.
Variable server : remote.
Variable self : client.

(** [get_product] sends one request and returns. *)
Lemma get_product_run (product_id : value) (st : state) :
  exists v lg,
    GrocyClient.get_product R server self product_id st
    = (Ok v,
       {| history := history st
                     ++ [get_request self (api_url self ++ "/objects/products/"
                                           ++ format R product_id)];
          log := lg |}).
Proof.
  exact (guarded_read_run R server self _ _ _ st).
Qed.

(** [get_product_by_name] sends the GET of the product list and nothing
    else. *)
Lemma get_product_by_name_run (product_name : str) (st : state) :
  exists r lg,
    GrocyClient.get_product_by_name R server self product_name st
    = (r, {| history := history st ++ [fallback_request self]; log := lg |}).
Proof.
  unfold GrocyClient.get_product_by_name, bind at 1,
    GrocyClient.get_all_products.
  destruct (guarded_read_run R server self (api_url self ++ "/objects/products")
              "Error getting all products: " VNone st) as [v [lg ->]].
  fold (fallback_request self).
  unfold bind, lift. destruct (iterate v); eexists; eexists; reflexivity.
Qed.

(** [add_barcode_to_product] sends at most one request, a POST. *)
Lemma add_barcode_to_product_run (product_id : value) (barcode : str)
    (a : assignments) (st : state) :
  exists r st',
    GrocyClient.add_barcode_to_product R server self product_id barcode a st
    = (r, st')
    /\ (history st' = history st
        \/ exists body,
             history st'
             = (history st
                ++ [post_request self (api_url self ++ "/objects/product_barcodes")
                      body])%list).
Proof.
  unfold GrocyClient.add_barcode_to_product, bind at 1, lift at 1.
  destruct (GrocyClient.normalize_receipt_barcode barcode) as [code | e].
  - unfold bind at 1, logger at 1. unfold try_except. rewrite post_json_run.
    cbn [history log].
    destruct (transport_result _) as [v | e];
      unfold bind, logger, ret; cbn [history log];
      eexists; eexists; (split; [reflexivity | right; eexists; reflexivity]).
  - eexists. eexists. split; [reflexivity | now left].
Qed.

(** On status 400 with a JSON object as body, [create_product] returns the
    error object of the body's ['error'] member after its one request. *)
Lemma create_product_validation_error (product_data : product_data)
    (st : state) (resp : response) (d : list (str * value)) :
  server (history st) (create_request self product_data) = Ok resp ->
  status_code resp = 400 ->
  json resp = Ok (VDict d) ->
  let error_msg := match lookup "error" d with Some x => x | None => VNone end in
  GrocyClient.create_product R server self product_data st
  = (Ok (VDict [("error", error_msg)]),
     {| history := history st ++ [create_request self product_data];
        log := log st
               ++ [{| level := INFO;
                      message := "Creating product with data: "
                                 ++ format R (product_data_dict product_data) |};
                   {| level := ERROR;
                      message := "Error creating product: "
                                 ++ format R error_msg |}] |}).
Proof.
  intros Hserver Hstatus Hjson error_msg.
  unfold GrocyClient.create_product, bind at 1, logger at 1. cbv beta iota.
  unfold bind at 1, GrocyClient.create_product_try, try_except at 1, bind at 1,
    GrocyClient.requests_post at 1.
  unfold create_request, post_request in Hserver.
  cbn [history log]. rewrite Hserver. cbv beta iota.
  rewrite Hstatus. cbn [Z.eqb Pos.eqb].
  lift_step Hjson. unfold bind at 1, lift at 1. cbn [dict_get].
  fold error_msg.
  destruct (lookup "error" d); unfold bind, logger, ret; cbn [history log];
    rewrite <- app_assoc; reflexivity.
Qed.

(** When the POST is answered with another status and a JSON object, the
    [try] statement fetches the created product and goes on with it. *)
Lemma create_product_try_fetches (product_data : product_data) (st : state)
    (resp : response) (d : list (str * value)) :
  server (history st) (create_request self product_data) = Ok resp ->
  (status_code resp =? 400) = false ->
  json resp = Ok (VDict d) ->
  let product_id :=
    match lookup "created_object_id" d with Some x => x | None => VNone end in
  exists product lg,
    GrocyClient.create_product_try R server self product_data st
    = (Ok (Continue product),
       {| history := history st
                     ++ [create_request self product_data;
                         get_request self (api_url self ++ "/objects/products/"
                                           ++ format R product_id)];
          log := lg |}).
Proof.
  intros Hserver Hstatus Hjson product_id.
  unfold GrocyClient.create_product_try, try_except at 1, bind at 1,
    GrocyClient.requests_post at 1.
  unfold create_request, post_request in Hserver.
  rewrite Hserver. cbv beta iota. rewrite Hstatus.
  lift_step Hjson. unfold bind at 1, lift at 1. cbn [dict_get].
  subst product_id.
  destruct (lookup "created_object_id" d) as [product_id | ];
    cbv beta iota; unfold bind at 1;
    match goal with
    | |- context [GrocyClient.get_product R server self ?i ?s] =>
        destruct (get_product_run i s) as [product [lg ->]]
    end;
    cbn [history log]; exists product, lg; unfold ret;
    now rewrite <- app_assoc.
Qed.

(** The statements after the [try] send at most the POST of the barcode. *)
Lemma create_product_rest_history (product_data : product_data)
    (product : value) (st : state) :
  exists new,
    history (snd (GrocyClient.create_product_rest R server self product_data
                    product st))
    = (history st ++ new)%list
    /\ (new = []
        \/ exists body,
             new = [post_request self (api_url self ++ "/objects/product_barcodes")
                      body]).
Proof.
  assert (forall s : state,
             exists new, history s = (history s ++ new)%list /\
               (new = [] \/ exists body,
                   new = [post_request self
                            (api_url self ++ "/objects/product_barcodes") body]))
    as Hnone.
  { intros s. exists []. split; [now rewrite app_nil_r | now left]. }
  unfold GrocyClient.create_product_rest.
  destruct (truthy product); [ | apply Hnone ].
  destruct (pd_barcode product_data) as [barcode | ]; [ | apply Hnone ].
  unfold bind at 1, lift at 1.
  destruct (getitem product "id") as [id | e]; [ | apply Hnone ].
  unfold bind at 1.
  destruct (add_barcode_to_product_run id barcode
              {| as_shopping_location_id := None;
                 as_note := Some (pd_name product_data);
                 as_display_amount := None |} st) as [r [st' [-> Hst']]].
  assert (exists new, history st' = (history st ++ new)%list /\
            (new = [] \/ exists body,
                new = [post_request self
                         (api_url self ++ "/objects/product_barcodes") body]))
    as Hsent.
  { destruct Hst' as [-> | [body ->]].
    - apply Hnone.
    - exists [post_request self (api_url self ++ "/objects/product_barcodes") body].
      split; [reflexivity | right; now exists body]. }
  destruct r as [barcode_response | e]; [ | exact Hsent ].
  unfold bind at 1, lift at 1.
  destruct (contains "error" barcode_response) as [[ | ] | e]; try exact Hsent.
  unfold bind, lift, ret.
  now destruct (getitem barcode_response "error").
Qed.

(** Unless the [try] statement raised, no request of [create_product] is
    the GET of the product list. *)
Lemma create_product_without_fallback (product_data : product_data)
    (st : state) :
  create_failure (server (history st) (create_request self product_data)) = None ->
  ~ In (fallback_request self)
      (requests_of (GrocyClient.create_product R server self product_data) st).
Proof.
  unfold create_failure.
  destruct (server (history st) (create_request self product_data))
    as [resp | e] eqn:Hserver; [ | discriminate ].
  destruct (json resp) as [[ | | | | | | d] | e] eqn:Hjson; try discriminate.
  intros _.
  destruct (status_code resp =? 400) eqn:Hstatus.
  - apply Z.eqb_eq in Hstatus.
    rewrite (requests_of_app _ st [create_request self product_data]).
    + intros [H | []]. discriminate H.
    + now rewrite (create_product_validation_error product_data st resp d
                     Hserver Hstatus Hjson).
  - pose (st1 := {| history := history st;
                    log := (log st
                            ++ [{| level := INFO;
                                   message := "Creating product with data: "
                                              ++ format R (product_data_dict product_data) |}])%list |}).
    destruct (create_product_try_fetches product_data st1 resp d
                Hserver Hstatus Hjson) as [product [lg Htry]].
    cbn [history st1] in Htry.
    match type of Htry with
    | _ = (_, ?st2) =>
        destruct (create_product_rest_history product_data product st2)
          as [new [Hhist Hnew]]
    end.
    cbn [history] in Hhist.
    match type of Hhist with
    | _ = ((_ ++ ?sent) ++ _)%list =>
        rewrite (requests_of_app _ st (sent ++ new))
    end.
    + intros Hin. apply in_app_or in Hin as [[H | [H | []]] | Hin].
      * discriminate H.
      * now apply product_url_not_list in H.
      * destruct Hnew as [-> | [body ->]]; [destruct Hin | ].
        destruct Hin as [H | []]. discriminate H.
    + unfold GrocyClient.create_product, bind at 1, logger at 1.
      cbv beta iota. fold st1. unfold bind at 1. rewrite Htry.
      cbv beta iota. rewrite Hhist. now rewrite <- app_assoc.
Qed.

(** When the [try] statement raises, the handler looks the product up by
    name: the second request of [create_product] is the GET of the product
    list. *)
Lemma create_product_falls_back (product_data : product_data) (st : state)
    (e : exn) :
  create_failure (server (history st) (create_request self product_data))
  = Some e ->
  exists rest,
    requests_of (GrocyClient.create_product R server self product_data) st
    = create_request self product_data :: fallback_request self :: rest.
Proof.
  intros Hfail.
  pose (st1 := {| history := history st;
                  log := (log st
                          ++ [{| level := INFO;
                                 message := "Creating product with data: "
                                            ++ format R (product_data_dict product_data) |}])%list |}).
  assert (exists r lg,
             GrocyClient.create_product_try R server self product_data st1
             = (r, {| history := history st
                                 ++ [create_request self product_data;
                                     fallback_request self];
                      log := lg |})) as [r [lg Htry]].
  { unfold GrocyClient.create_product_try, try_except at 1, bind at 1,
      GrocyClient.requests_post at 1.
    unfold create_failure, create_request, post_request in Hfail.
    cbn [history st1].
    assert (forall lg0 : list log_entry,
               exists r lg,
                 bind (logger ERROR
                         ("Error creating product, trying to find by name: "
                          ++ exn_str R e))
                   (fun _ =>
                      bind (GrocyClient.get_product_by_name R server self
                              (pd_name product_data))
                        (fun product => ret (Continue product)))
                   {| history := history st ++ [create_request self product_data];
                      log := lg0 |}
                 = (r, {| history := history st
                                     ++ [create_request self product_data;
                                         fallback_request self];
                          log := lg |})) as Hhandler.
    { intros lg0. unfold bind at 1, logger at 1. cbv beta iota. unfold bind at 1.
      match goal with
      | |- context [GrocyClient.get_product_by_name R server self ?n ?s] =>
          destruct (get_product_by_name_run n s) as [r [lg ->]]
      end.
      cbn [history log]. rewrite <- app_assoc.
      destruct r; unfold ret; eexists; eexists; reflexivity. }
    destruct (server _ _) as [resp | e0]; cbv beta iota.
    - destruct (status_code resp =? 400);
        unfold bind at 1, lift at 1; cbv beta iota;
        (destruct (json resp) as [body | e0]; cbv beta iota;
         [ unfold bind at 1, lift at 1;
           destruct body; try discriminate Hfail;
           cbn [dict_get type_name] in *; injection Hfail as <-;
           apply Hhandler
         | injection Hfail as <-; apply Hhandler ]).
    - injection Hfail as <-. apply Hhandler. }
  destruct r as [[v | product] | e'].
  - exists []. apply requests_of_app.
    unfold GrocyClient.create_product, bind at 1, logger at 1.
    cbv beta iota. fold st1. unfold bind at 1. rewrite Htry. reflexivity.
  - match type of Htry with
    | _ = (_, ?st2) =>
        destruct (create_product_rest_history product_data product st2)
          as [new [Hhist Hnew]]
    end.
    exists new. apply requests_of_app.
    unfold GrocyClient.create_product, bind at 1, logger at 1.
    cbv beta iota. fold st1. unfold bind at 1. rewrite Htry.
    cbv beta iota. rewrite Hhist. cbn [history]. now rewrite <- app_assoc.
  - exists []. apply requests_of_app.
    unfold GrocyClient.create_product, bind at 1, logger at 1.
    cbv beta iota. fold st1. unfold bind at 1. rewrite Htry. reflexivity.
Qed.

End Create.

(** C8, as the code has it.  When the create request is answered with
    status 400 and a JSON object, [create_product] returns the error object
    that carries the object's ['error'] member and sends no further request.
    The lookup by name happens only when the [try] statement raised: the
    POST itself, the decoding of the body, or a body that is no JSON
    object. *)
Theorem create_product_bad_request (R : runtime) (server : remote)
    (self : client) (product_data : product_data) (st : state) :
  (forall (resp : response) (d : list (str * value)),
      server (history st) (create_request self product_data) = Ok resp ->
      status_code resp = 400 ->
      json resp = Ok (VDict d) ->
      fst (GrocyClient.create_product R server self product_data st)
      = Ok (VDict [("error",
                    match lookup "error" d with Some x => x | None => VNone end)])
      /\ requests_of (GrocyClient.create_product R server self product_data) st
         = [create_request self product_data])
  /\
  (In (fallback_request self)
      (requests_of (GrocyClient.create_product R server self product_data) st) ->
   exists e,
     create_failure (server (history st) (create_request self product_data))
     = Some e).
Proof.
  split.
  - intros resp d Hserver Hstatus Hjson.
    pose proof (create_product_validation_error R server self product_data st
                  resp d Hserver Hstatus Hjson) as Hrun.
    cbv zeta in Hrun. split.
    + now rewrite Hrun.
    + apply requests_of_app. now rewrite Hrun.
  - intros Hin.
    destruct (create_failure
                (server (history st) (create_request self product_data)))
      as [e | ] eqn:Hfail; [now exists e | ].
    exfalso. revert Hin.
    now apply create_product_without_fallback.
Qed.

Lemma create_product_bad_request_witness :
  fst (GrocyClient.create_product example_runtime validating example_client
         milk_data initial)
  = Ok (VDict [("error", VStr "name is required")])
  /\ requests_of (GrocyClient.create_product example_runtime validating
                    example_client milk_data) initial
     = [create_request example_client milk_data].
Proof.
  exact (proj1 (create_product_bad_request example_runtime validating
                  example_client milk_data initial)
           {| status_code := 400;
              json := Ok (VDict [("error", VStr "name is required")]) |}
           [("error", VStr "name is required")] eq_refl eq_refl eq_refl).
Defined.

(** C8 as stated fails: the POST is answered with status 400, the body is
    no JSON, and [create_product] looks the product up by name and returns
    it; no error object is returned. *)
Lemma create_product_bad_request_counterexample :
  (exists resp,
      rejecting_proxy (history initial) (create_request example_client milk_data)
      = Ok resp /\ status_code resp = 400)
  /\
  In (fallback_request example_client)
     (requests_of (GrocyClient.create_product example_runtime rejecting_proxy
                     example_client milk_data) initial)
  /\
  ~ (exists v,
        fst (GrocyClient.create_product example_runtime rejecting_proxy
               example_client milk_data initial) = Ok v
        /\ is_error_object v = true).
Proof.
  split; [ | split ].
  - eexists. split; reflexivity.
  - vm_compute. right. left. reflexivity.
  - intros [v [Hv Herr]]. vm_compute in Hv. injection Hv as <-.
    discriminate Herr.
Qed.

(** * Further properties of the code *)

(** ** Construction of the client *)

(** X1. A client that [__init__] constructs has a non-empty URL and a
    non-empty key, each the argument when that is a non-empty string and the
    environment variable otherwise; constructing sends no request. *)
Theorem init_credentials_resolved (environ : str -> option str)
    (api_url_arg api_key_arg : option str) (st : state) (c : client) :
  fst (GrocyClient.init environ api_url_arg api_key_arg st) = Ok c ->
  api_url c <> EmptyString /\ api_key c <> EmptyString /\
  GrocyClient.or_environ environ api_url_arg "GROCY_API_URL" = Some (api_url c) /\
  GrocyClient.or_environ environ api_key_arg "GROCY_API_KEY" = Some (api_key c) /\
  history (snd (GrocyClient.init environ api_url_arg api_key_arg st)) = history st.
Proof.
  unfold GrocyClient.init.
  destruct (GrocyClient.or_environ environ api_url_arg "GROCY_API_URL")
    as [u | ]; cbn [GrocyClient.not_set orb]; [ | discriminate ].
  destruct (str_eqb_spec u EmptyString) as [-> | Hu];
    cbn [orb]; [discriminate | ].
  destruct (GrocyClient.or_environ environ api_key_arg "GROCY_API_KEY")
    as [k | ]; cbn [GrocyClient.not_set]; [ | discriminate ].
  destruct (str_eqb_spec k EmptyString) as [-> | Hk]; [discriminate | ].
  unfold bind, logger, ret. cbn [fst snd history].
  intros [= <-]. cbn [api_url api_key]. repeat split; assumption.
Qed.

Lemma init_credentials_resolved_witness :
  api_url {| api_url := "http://grocy.local/api"; api_key := "k" |}
  <> EmptyString
  /\ api_key {| api_url := "http://grocy.local/api"; api_key := "k" |}
     <> EmptyString
  /\ GrocyClient.or_environ example_environ None "GROCY_API_URL"
     = Some "http://grocy.local/api"
  /\ GrocyClient.or_environ example_environ (Some "k") "GROCY_API_KEY"
     = Some "k"
  /\ history (snd (GrocyClient.init example_environ None (Some "k") initial))
     = history initial.
Proof.
  exact (init_credentials_resolved example_environ None (Some "k") initial
           {| api_url := "http://grocy.local/api"; api_key := "k" |} eq_refl).
Defined.

(** X2. Arguments that are non-empty strings win over the environment: the
    client is built from them whatever the environment holds, with one INFO
    entry. *)
Theorem init_arguments_override_environment
    (environ : str -> option str) (u k : str) (st : state) :
  u <> EmptyString -> k <> EmptyString ->
  GrocyClient.init environ (Some u) (Some k) st
  = (Ok {| api_url := u; api_key := k |},
     {| history := history st;
        log := log st
               ++ [{| level := INFO;
                      message := "Initializing Grocy client with API URL: "
                                 ++ u |}] |}).
Proof.
  intros Hu Hk. unfold GrocyClient.init, GrocyClient.or_environ.
  apply str_eqb_neq in Hu, Hk. rewrite Hu, Hk.
  cbn [GrocyClient.not_set]. rewrite Hu, Hk. reflexivity.
Qed.

Lemma init_arguments_override_environment_witness :
  GrocyClient.init example_environ (Some "http://other/api") (Some "k") initial
  = (Ok {| api_url := "http://other/api"; api_key := "k" |},
     {| history := [];
        log := [{| level := INFO;
                   message := "Initializing Grocy client with API URL: "
                              ++ "http://other/api" |}] |}).
Proof.
  apply (init_arguments_override_environment example_environ
           "http://other/api" "k" initial); discriminate.
Defined.

(** X3. When a credential is given neither as a non-empty argument nor as a
    non-empty environment variable, [__init__] raises [ValueError] after
    one ERROR entry, whatever the other credential is. *)
Theorem init_raises_without_credentials (environ : str -> option str)
    (api_url_arg api_key_arg : option str) (st : state) :
  (GrocyClient.not_set api_url_arg = true
   /\ GrocyClient.not_set (environ "GROCY_API_URL") = true)
  \/ (GrocyClient.not_set api_key_arg = true
      /\ GrocyClient.not_set (environ "GROCY_API_KEY") = true) ->
  GrocyClient.init environ api_url_arg api_key_arg st
  = (Raise (ValueError "Grocy API URL and API key must be provided"),
     {| history := history st;
        log := log st
               ++ [{| level := ERROR;
                      message := "Grocy API URL and API key must be provided" |}] |}).
Proof.
  assert (forall arg var,
             GrocyClient.not_set arg = true ->
             GrocyClient.not_set (environ var) = true ->
             GrocyClient.not_set (GrocyClient.or_environ environ arg var) = true)
    as Hunset.
  { intros [s | ] var Harg Henv; cbn [GrocyClient.or_environ GrocyClient.not_set] in *;
      [now rewrite Harg | exact Henv]. }
  intros H. unfold GrocyClient.init.
  assert (GrocyClient.not_set
            (GrocyClient.or_environ environ api_url_arg "GROCY_API_URL")
          || GrocyClient.not_set
               (GrocyClient.or_environ environ api_key_arg "GROCY_API_KEY")
          = true) as ->.
  { apply orb_true_iff.
    destruct H as [[Ha He] | [Ha He]]; [left | right]; now apply Hunset. }
  reflexivity.
Qed.

Lemma init_raises_without_credentials_witness :
  GrocyClient.init (fun _ => None) (Some "http://grocy.local/api")
    (Some EmptyString) initial
  = (Raise (ValueError "Grocy API URL and API key must be provided"),
     {| history := [];
        log := [{| level := ERROR;
                   message := "Grocy API URL and API key must be provided" |}] |}).
Proof.
  apply (init_raises_without_credentials (fun _ => None)
           (Some "http://grocy.local/api") (Some EmptyString) initial).
  right. split; reflexivity.
Defined.

(** ** The UPC-A derivation *)

Lemma digits_of_append (a b : str) :
  digits_of (a ++ b) = (digits_of a ++ digits_of b)%list.
Proof.
  induction a as [|c a IH]; simpl; [reflexivity | now rewrite IH].
Qed.

Lemma digits_of_length (s : str) :
  List.length (digits_of s) = Str.length s.
Proof.
  induction s as [|c s IH]; simpl; [reflexivity | now rewrite IH].
Qed.

Lemma numeric_append (a b : str) :
  numeric (a ++ b) = numeric a && numeric b.
Proof.
  unfold numeric. induction a as [|c a IH]; simpl; [reflexivity | ].
  now rewrite IH, andb_assoc.
Qed.

Lemma digit_string_digit (d : Z) :
  0 <= d <= 9 ->
  digits_of (digit_string d) = [d] /\ numeric (digit_string d) = true.
Proof.
  intros H.
  assert (d = 0 \/ d = 1 \/ d = 2 \/ d = 3 \/ d = 4 \/ d = 5 \/ d = 6
          \/ d = 7 \/ d = 8 \/ d = 9) as E by lia.
  repeat (destruct E as [-> | E]; [split; reflexivity | ]).
  subst d. split; reflexivity.
Qed.

Lemma spec_weighted_sum_app (l1 l2 : list Z) :
  forall even : bool,
    spec_weighted_sum even (l1 ++ l2)
    = spec_weighted_sum even l1
      + spec_weighted_sum
          (if Nat.even (List.length l1) then even else negb even) l2.
Proof.
  induction l1 as [|d l1 IH]; intros even.
  - simpl. lia.
  - cbn [app spec_weighted_sum List.length]. rewrite IH.
    rewrite Nat.even_succ, <- Nat.negb_even.
    destruct (Nat.even (List.length l1)); cbn [negb];
      rewrite ?negb_involutive; lia.
Qed.

Lemma values_of_append (a b : str) :
  values_of (a ++ b) = (values_of a ++ values_of b)%list.
Proof.
  induction a as [|c a IH]; simpl; [reflexivity | ].
  destruct (decimal c); simpl; now rewrite IH.
Qed.

Lemma values_of_length (s : str) :
  decimal_digits s = true -> List.length (values_of s) = Str.length s.
Proof.
  unfold decimal_digits, is_decimal_digit.
  induction s as [|c s IH]; simpl; [reflexivity | ].
  destruct (decimal c); [ | discriminate ].
  simpl. intros H. now rewrite (IH H).
Qed.

Lemma decimal_digits_append (a b : str) :
  decimal_digits (a ++ b) = decimal_digits a && decimal_digits b.
Proof.
  unfold decimal_digits. induction a as [|c a IH]; simpl; [reflexivity | ].
  now rewrite IH, andb_assoc.
Qed.

Lemma ord_digit_range (c : char) :
  is_ascii_digit c = true -> 0 <= ord c - 48 <= 9.
Proof.
  unfold is_ascii_digit. intros H. apply andb_true_iff in H as [H1 H2].
  apply Z.leb_le in H1, H2. lia.
Qed.

Lemma ord_inj (c c' : char) : ord c = ord c' -> c = c'.
Proof.
  unfold ord. apply N2Z.inj.
Qed.

Lemma build_shape (r upc : str) :
  GrocyClient.build_upc_from_receipt r = Ok upc ->
  Str.length r = 10%nat /\ decimal_digits r = true /\
  upc = "0" ++ r
        ++ digit_string
             ((10 - spec_weighted_sum true (values_of ("0" ++ r)) mod 10) mod 10).
Proof.
  intros H.
  assert (exists u, GrocyClient.build_upc_from_receipt r = Ok u) as Hex
    by (now exists upc).
  apply build_ok_iff in Hex as [Hlen Hdec].
  rewrite (build_on_decimal r Hlen Hdec) in H. injection H as <-.
  now repeat split.
Qed.

(** X4. The code that [build_upc_from_receipt] returns satisfies the check
    equation of UPC-A: it has 12 characters, all of them decimal digits, and
    the sum of their digit values, weighted 3 and 1 alternately from the
    first, is a multiple of 10.  When the receipt code is made of
    ['0'..'9'], so is the code: it is a valid UPC-A. *)
Theorem build_upc_from_receipt_valid (r upc : str) :
  GrocyClient.build_upc_from_receipt r = Ok upc ->
  Str.length upc = 12%nat /\
  decimal_digits upc = true /\
  spec_weighted_sum true (values_of upc) mod 10 = 0 /\
  (numeric r = true ->
   numeric upc = true /\ spec_weighted_sum true (digits_of upc) mod 10 = 0).
Proof.
  intros H. pose proof (build_length r upc H) as Hlen12.
  destruct (build_shape r upc H) as [Hlen [Hdec ->]].
  set (t := spec_weighted_sum true (values_of ("0" ++ r))).
  destruct (digit_string_digit ((10 - t mod 10) mod 10) (check_digit_range t))
    as [Hd Hdn].
  set (check := digit_string ((10 - t mod 10) mod 10)) in *.
  change ("0" ++ r ++ check) with (("0" ++ r) ++ check) in *.
  assert (decimal_digits ("0" ++ r) = true) as Hdec'
    by (unfold decimal_digits in *; exact Hdec).
  assert (decimal_digits (("0" ++ r) ++ check) = true) as Hall.
  { rewrite decimal_digits_append, Hdec'.
    now rewrite (numeric_decimal_digits check Hdn). }
  assert (spec_weighted_sum true (values_of (("0" ++ r) ++ check)) mod 10 = 0)
    as Hsum.
  { rewrite values_of_append, (numeric_values_of check Hdn), Hd.
    rewrite spec_weighted_sum_app, (values_of_length _ Hdec').
    cbn [Str.length append]. rewrite Hlen.
    cbn [Nat.even negb spec_weighted_sum].
    change (spec_weighted_sum true (values_of (String 48%N r))) with t.
    replace (t + (1 * ((10 - t mod 10) mod 10) + 0))
      with (t + (10 - t mod 10) mod 10) by lia.
    apply check_digit_closes. }
  refine (conj Hlen12 (conj Hall (conj Hsum _))).
  intros Hnum.
  assert (numeric (("0" ++ r) ++ check) = true) as Hnum'.
  { rewrite numeric_append, Hdn, andb_true_r. exact Hnum. }
  split; [exact Hnum' | ].
  now rewrite <- (numeric_values_of _ Hnum').
Qed.

Lemma build_upc_from_receipt_valid_witness :
  Str.length "012345678905" = 12%nat /\
  decimal_digits "012345678905" = true /\
  spec_weighted_sum true (values_of "012345678905") mod 10 = 0 /\
  (numeric "1234567890" = true ->
   numeric "012345678905" = true /\
   spec_weighted_sum true (digits_of "012345678905") mod 10 = 0).
Proof.
  exact (build_upc_from_receipt_valid "1234567890" "012345678905" eq_refl).
Defined.

(** X5. The receipt code can be read back from the derived code: it is the 10
    characters after the first, so two receipt codes with the same derived
    code are equal. *)
Theorem build_upc_from_receipt_recovers (r upc : str) :
  GrocyClient.build_upc_from_receipt r = Ok upc ->
  substring 1 10 upc = r /\
  forall r' : str,
    GrocyClient.build_upc_from_receipt r' = Ok upc -> r' = r.
Proof.
  assert (forall r0 upc0,
             GrocyClient.build_upc_from_receipt r0 = Ok upc0 ->
             substring 1 10 upc0 = r0) as Hsub.
  { intros r0 upc0 H0. destruct (build_shape r0 upc0 H0) as [Hlen [_ ->]].
    cbn [append substring]. now apply substring_head. }
  intros H. split; [now apply Hsub | ].
  intros r' H'. rewrite <- (Hsub r' upc H'). now apply Hsub.
Qed.

Lemma build_upc_from_receipt_recovers_witness :
  substring 1 10 "012345678905" = "1234567890" /\
  forall r' : str,
    GrocyClient.build_upc_from_receipt r' = Ok "012345678905" ->
    r' = "1234567890".
Proof.
  exact (build_upc_from_receipt_recovers "1234567890" "012345678905" eq_refl).
Defined.

(** X6. The check digit detects the substitution of one digit: two strings of
    11 numeric digits that differ in exactly one position have different
    check digits. *)
Theorem check_digit_detects_substitution (a b : str) (c c' : char) :
  numeric a = true -> numeric b = true ->
  is_ascii_digit c = true -> is_ascii_digit c' = true ->
  c <> c' ->
  (Str.length a + Str.length b = 10)%nat ->
  GrocyClient.calculate_upc_check_digit (a ++ String c b)
  <> GrocyClient.calculate_upc_check_digit (a ++ String c' b).
Proof.
  intros Ha Hb Hc Hc' Hneq Hlen.
  assert (forall x, is_ascii_digit x = true ->
                    Str.length (a ++ String x b) = 11%nat
                    /\ numeric (a ++ String x b) = true) as Hwf.
  { intros x Hx. split.
    - rewrite length_append. cbn [Str.length]. lia.
    - rewrite numeric_append, Ha. unfold numeric in *. cbn [string_forallb andb].
      now rewrite Hx, Hb. }
  destruct (Hwf c Hc) as [L1 N1]. destruct (Hwf c' Hc') as [L2 N2].
  rewrite (calculate_on_numeric _ L1 N1), (calculate_on_numeric _ L2 N2).
  rewrite !digits_of_append. cbn [digits_of]. rewrite !spec_weighted_sum_app.
  set (A := spec_weighted_sum true (digits_of a)).
  set (p := if Nat.even (List.length (digits_of a)) then true else negb true).
  cbn [spec_weighted_sum].
  set (B := spec_weighted_sum (negb p) (digits_of b)).
  pose proof (ord_digit_range c Hc) as Rc.
  pose proof (ord_digit_range c' Hc') as Rc'.
  assert (ord c - 48 <> ord c' - 48) as Hd.
  { intros E. apply Hneq, ord_inj. lia. }
  intros E.
  assert (forall t, digits_of (digit_string ((10 - t mod 10) mod 10))
                    = [(10 - t mod 10) mod 10]) as Hds.
  { intros t. apply digit_string_digit, check_digit_range. }
  apply (f_equal (fun r => match r with
                           | Ok x => digits_of x
                           | Raise _ => []
                           end)) in E.
  cbv beta iota in E.
  set (w := if p then 3 else 1) in *.
  assert (w = 3 \/ w = 1) as Hw by (unfold w; destruct p; auto).
  clearbody A B w.
  rewrite (Hds (A + (w * (ord c - 48) + B))) in E.
  rewrite (Hds (A + (w * (ord c' - 48) + B))) in E.
  apply (f_equal (fun l => hd 0 l)) in E. cbn [hd] in E. revert E.
  destruct Hw as [-> | ->]; Z.div_mod_to_equations; lia.
Qed.

Lemma check_digit_detects_substitution_witness :
  GrocyClient.calculate_upc_check_digit ("03600" ++ String 48%N "29145")
  <> GrocyClient.calculate_upc_check_digit ("03600" ++ String 55%N "29145").
Proof.
  apply (check_digit_detects_substitution "03600" "29145" 48%N 55%N);
    try reflexivity.
  discriminate.
Defined.

(** X7. On a string that holds no digit that [int] does not read (no
    superscript digit or the like), [normalize_receipt_barcode] returns the
    12-character code of [build_upc_from_receipt] when the string is 10
    decimal digits, and the string itself otherwise. *)
Theorem normalize_receipt_barcode_on_plain (s : str) :
  plain s = true ->
  (Str.length s = 10%nat /\ decimal_digits s = true ->
   exists upc, GrocyClient.normalize_receipt_barcode s = Ok upc /\
               GrocyClient.build_upc_from_receipt s = Ok upc /\
               Str.length upc = 12%nat) /\
  (~ (Str.length s = 10%nat /\ decimal_digits s = true) ->
   GrocyClient.normalize_receipt_barcode s = Ok s).
Proof. exact (normalize_on_plain s). Qed.

Lemma normalize_receipt_barcode_on_plain_witness :
  (Str.length "ABC123" = 10%nat /\ decimal_digits "ABC123" = true ->
   exists upc, GrocyClient.normalize_receipt_barcode "ABC123" = Ok upc /\
               GrocyClient.build_upc_from_receipt "ABC123" = Ok upc /\
               Str.length upc = 12%nat) /\
  (~ (Str.length "ABC123" = 10%nat /\ decimal_digits "ABC123" = true) ->
   GrocyClient.normalize_receipt_barcode "ABC123" = Ok "ABC123").
Proof.
  exact (normalize_receipt_barcode_on_plain "ABC123" eq_refl).
Defined.

(** ** The reads *)

Section Reads.

Variable R : runtime.
Variable server : remote.
Variable self : client.

Lemma get_json_run (u : str) (st : state) :
  GrocyClient.get_json server self u st
  = (transport_result (server (history st) (get_request self u)),
     {| history := history st ++ [get_request self u]; log := log st |}).
Proof.
  unfold GrocyClient.get_json, GrocyClient.requests_get,
    GrocyClient.raise_for_status, transport_result, get_request, bind, lift, ret.
  cbn [history log].
  destruct (server _ _) as [resp | e]; [ | reflexivity ].
  now destruct ((400 <=? status_code resp) && (status_code resp <? 600)).
Qed.

(** What a guarded read returns and logs, whatever the transport does;
    [post] is what the read does to the decoded body. *)
Lemma guarded_read_value (u prefix : str) (dflt : value)
    (post : value -> value) (st : state) :
  let outcome := transport_result (server (history st) (get_request self u)) in
  try_except
    (bind (GrocyClient.get_json server self u) (fun j => ret (post j)))
    (fun e => bind (logger ERROR (prefix ++ exn_str R e)) (fun _ => ret dflt)) st
  = (Ok match outcome with Ok body => post body | Raise _ => dflt end,
     {| history := history st ++ [get_request self u];
        log := log st
               ++ match outcome with
                  | Ok _ => []
                  | Raise e =>
                      [{| level := ERROR; message := prefix ++ exn_str R e |}]
                  end |}).
Proof.
  intros outcome. unfold try_except, bind at 1. rewrite get_json_run.
  fold outcome. destruct outcome; unfold bind, logger, ret; cbn [history log];
    now rewrite ?app_nil_r.
Qed.

Lemma guarded_read_value' (u prefix : str) (dflt : value) (st : state) :
  let outcome := transport_result (server (history st) (get_request self u)) in
  try_except
    (GrocyClient.get_json server self u)
    (fun e => bind (logger ERROR (prefix ++ exn_str R e)) (fun _ => ret dflt)) st
  = (Ok match outcome with Ok body => body | Raise _ => dflt end,
     {| history := history st ++ [get_request self u];
        log := log st
               ++ match outcome with
                  | Ok _ => []
                  | Raise e =>
                      [{| level := ERROR; message := prefix ++ exn_str R e |}]
                  end |}).
Proof.
  intros outcome. unfold try_except. rewrite get_json_run.
  fold outcome. destruct outcome; unfold bind, logger, ret; cbn [history log];
    now rewrite ?app_nil_r.
Qed.

(** Every read, run with whatever remote system: its value, its one
    request and its log. *)
Lemma run_read_value (op : read_op) (st : state) :
  let outcome :=
    transport_result
      (server (history st) (get_request self (read_url R self op))) in
  run_read R server self op st
  = (Ok match outcome with
        | Ok body => read_success op body
        | Raise _ => documented_sentinel op
        end,
     {| history := history st ++ [get_request self (read_url R self op)];
        log := log st ++ read_info op
               ++ match outcome with
                  | Ok _ => []
                  | Raise e =>
                      [{| level := ERROR;
                          message := read_error_prefix op ++ exn_str R e |}]
                  end |}).
Proof.
  destruct op; cbn [run_read read_url documented_sentinel read_info
                      read_error_prefix read_success app];
    try (exact (guarded_read_value' _ _ _ st)).
  - unfold GrocyClient.find_product_by_barcode, bind at 1, logger at 1.
    match goal with
    | |- try_except _ _ ?s = _ =>
        rewrite (guarded_read_value _ _ _ (fun j => py_or j VNone) s)
    end.
    cbn [history log]. now rewrite <- app_assoc.
  - unfold GrocyClient.products_for_group, bind at 1, logger at 1.
    match goal with
    | |- try_except _ _ ?s = _ =>
        rewrite (guarded_read_value _ _ _ (fun j => py_or j (VList [])) s)
    end.
    cbn [history log]. now rewrite <- app_assoc.
Qed.

End Reads.

(** X8. No read raises: whatever the remote system does, each of the eleven
    reads returns a value after sending exactly one request, the GET of its
    URL with the headers of the client. *)
Theorem read_never_raises (R : runtime) (server : remote) (self : client)
    (op : read_op) (st : state) :
  exists v lg,
    run_read R server self op st
    = (Ok v,
       {| history := history st ++ [get_request self (read_url R self op)];
          log := lg |}).
Proof.
  rewrite run_read_value. eexists. eexists. reflexivity.
Qed.

(** X9. When the transport steps succeed, a read returns the decoded body as
    it is and logs no error; only the lookup by barcode and the products of a
    group replace a falsy body, by [None] and by the empty list. *)
Theorem read_returns_body (R : runtime) (server : remote) (self : client)
    (op : read_op) (st : state) (body : value) :
  transport_result
    (server (history st) (get_request self (read_url R self op))) = Ok body ->
  run_read R server self op st
  = (Ok (read_success op body),
     {| history := history st ++ [get_request self (read_url R self op)];
        log := log st ++ read_info op |}).
Proof.
  intros H. rewrite run_read_value. cbv zeta. rewrite H.
  now rewrite app_nil_r.
Qed.

Lemma read_returns_body_witness :
  run_read example_runtime shop example_client GetAllProducts initial
  = (Ok (VList [butter; milk]),
     {| history :=
          [get_request example_client "http://grocy.local/api/objects/products"];
        log := [] |}).
Proof.
  exact (read_returns_body example_runtime shop example_client GetAllProducts
           initial (VList [butter; milk]) eq_refl).
Defined.

(** X10. [find_product_by_barcode] returns [None] or a truthy value, and
    [products_for_group] the empty list or a truthy value: a falsy body
    ([null], [0], [false], an empty string, list or object) never reaches the
    caller. *)
Theorem lookups_replace_falsy_bodies (R : runtime) (server : remote)
    (self : client) (barcode : str) (product_group_id : Z) (st : state) :
  (exists v,
      fst (GrocyClient.find_product_by_barcode R server self barcode st) = Ok v
      /\ (v = VNone \/ truthy v = true))
  /\
  (exists v,
      fst (GrocyClient.products_for_group R server self product_group_id st)
      = Ok v
      /\ (v = VList [] \/ truthy v = true)).
Proof.
  split.
  - pose proof (run_read_value R server self (FindProductByBarcode barcode) st)
      as H.
    cbn [run_read] in H. rewrite H. cbn [fst]. eexists. split; [reflexivity | ].
    destruct (transport_result _) as [body | e]; [ | now left ].
    cbn [read_success]. unfold py_or.
    destruct (truthy body) eqn:T; [now right | now left].
  - pose proof (run_read_value R server self (ProductsForGroup product_group_id)
                  st) as H.
    cbn [run_read] in H. rewrite H. cbn [fst]. eexists. split; [reflexivity | ].
    destruct (transport_result _) as [body | e]; [ | now left ].
    cbn [read_success]. unfold py_or.
    destruct (truthy body) eqn:T; [now right | now left].
Qed.

(** ** The lookup by name *)

Lemma get_product_by_name_run_value (R : runtime) (server : remote)
    (self : client) (product_name : str) (st : state) :
  let outcome := transport_result (server (history st) (fallback_request self)) in
  let products := match outcome with Ok body => body | Raise _ => VNone end in
  GrocyClient.get_product_by_name R server self product_name st
  = (rbind (iterate products) (GrocyClient.first_named product_name),
     {| history := history st ++ [fallback_request self];
        log := log st
               ++ match outcome with
                  | Ok _ => []
                  | Raise e =>
                      [{| level := ERROR;
                          message := "Error getting all products: "
                                     ++ exn_str R e |}]
                  end |}).
Proof.
  intros outcome products.
  unfold GrocyClient.get_product_by_name, bind at 1,
    GrocyClient.get_all_products.
  rewrite (guarded_read_value' R server self _ _ _ st). cbv zeta.
  fold (fallback_request self). fold outcome. fold products.
  unfold bind, lift. now destruct (iterate products).
Qed.

Lemma first_named_skips (product_name : str) (pre items : list value) :
  forallb is_object pre = true ->
  forallb (fun q => negb (named product_name q)) pre = true ->
  GrocyClient.first_named product_name (pre ++ items)
  = GrocyClient.first_named product_name items.
Proof.
  induction pre as [|q pre IH]; cbn [app forallb]; intros Hobj Hnot;
    [reflexivity | ].
  apply andb_true_iff in Hobj as [Hq Hobj].
  apply andb_true_iff in Hnot as [Hn Hnot].
  destruct q as [ | | | | | | d]; try discriminate Hq.
  cbn [GrocyClient.first_named dict_get]. cbn [named] in Hn.
  destruct (lookup "name" d) as [v | ]; cbn [rbind].
  - apply negb_true_iff in Hn. rewrite Hn. now apply IH.
  - cbn [py_eq_str]. now apply IH.
Qed.

Lemma first_named_hit (product_name : str) (p : value) (rest : list value) :
  named product_name p = true ->
  GrocyClient.first_named product_name (p :: rest) = Ok p.
Proof.
  destruct p as [ | | | | | | d]; try discriminate.
  cbn [named GrocyClient.first_named dict_get].
  destruct (lookup "name" d) as [v | ]; [ | discriminate ].
  cbn [rbind]. now intros ->.
Qed.

(** X11. Given the product list, [get_product_by_name] returns the first
    product whose ['name'] is exactly the name asked for, whatever follows it
    in the list, and [None] when no product has that name. *)
Theorem get_product_by_name_first_match (R : runtime) (server : remote)
    (self : client) (product_name : str) (st : state)
    (items : list value) :
  transport_result (server (history st) (fallback_request self))
  = Ok (VList items) ->
  (forall (pre : list value) (p : value) (rest : list value),
      items = (pre ++ p :: rest)%list ->
      forallb is_object pre = true ->
      forallb (fun q => negb (named product_name q)) pre = true ->
      named product_name p = true ->
      fst (GrocyClient.get_product_by_name R server self product_name st)
      = Ok p)
  /\
  (forallb is_object items = true ->
   forallb (fun q => negb (named product_name q)) items = true ->
   fst (GrocyClient.get_product_by_name R server self product_name st)
   = Ok VNone).
Proof.
  intros Hfetch. rewrite get_product_by_name_run_value. cbv zeta.
  rewrite Hfetch. cbn [fst iterate rbind]. split.
  - intros pre p rest -> Hobj Hnot Hp.
    rewrite (first_named_skips product_name pre (p :: rest) Hobj Hnot).
    now apply first_named_hit.
  - intros Hobj Hnot.
    rewrite <- (app_nil_r items).
    now rewrite (first_named_skips product_name items [] Hobj Hnot).
Qed.

Lemma get_product_by_name_first_match_witness :
  fst (GrocyClient.get_product_by_name example_runtime shop example_client
         "Milk" initial)
  = Ok milk.
Proof.
  exact (proj1 (get_product_by_name_first_match example_runtime shop
                  example_client "Milk" initial [butter; milk] eq_refl)
           [butter] milk [] eq_refl eq_refl eq_refl eq_refl).
Defined.

(** X12. [get_product_by_name] calls [.get] on every item up to the first
    match: when the body iterates to something that is no JSON object before
    any match (a list holding a string or a number, or a JSON object, whose
    keys are strings), it raises [AttributeError]. *)
Theorem get_product_by_name_needs_objects (R : runtime) (server : remote)
    (self : client) (product_name : str) (st : state) (body : value)
    (pre : list value) (q : value) (rest : list value) :
  transport_result (server (history st) (fallback_request self)) = Ok body ->
  iterate body = Ok (pre ++ q :: rest)%list ->
  forallb is_object pre = true ->
  forallb (fun p => negb (named product_name p)) pre = true ->
  is_object q = false ->
  fst (GrocyClient.get_product_by_name R server self product_name st)
  = Raise (AttributeError
             ("'" ++ type_name q ++ "' object has no attribute 'get'")).
Proof.
  intros Hfetch Hiter Hobj Hnot Hq.
  rewrite get_product_by_name_run_value. cbv zeta.
  rewrite Hfetch. cbn [fst]. rewrite Hiter. cbn [rbind].
  rewrite (first_named_skips product_name pre (q :: rest) Hobj Hnot).
  destruct q; try discriminate Hq; reflexivity.
Qed.

Lemma get_product_by_name_needs_objects_witness :
  fst (GrocyClient.get_product_by_name example_runtime
         (fun _ _ => Ok {| status_code := 200; json := Ok milk |})
         example_client "Milk" initial)
  = Raise (AttributeError "'str' object has no attribute 'get'").
Proof.
  exact (get_product_by_name_needs_objects example_runtime
           (fun _ _ => Ok {| status_code := 200; json := Ok milk |})
           example_client "Milk" initial milk [] (VStr "id") [VStr "name"]
           eq_refl eq_refl eq_refl eq_refl eq_refl).
Defined.

(** ** Attaching a barcode *)

Lemma add_barcode_to_product_value (R : runtime) (server : remote)
    (self : client) (product_id : value) (barcode code : str)
    (a : assignments) (st : state) :
  GrocyClient.normalize_receipt_barcode barcode = Ok code ->
  let rq := barcode_request self product_id code a in
  let outcome := transport_result (server (history st) rq) in
  GrocyClient.add_barcode_to_product R server self product_id barcode a st
  = (Ok match outcome with Ok v => v | Raise e => error_object R e end,
     {| history := history st ++ [rq];
        log := log st
               ++ [{| level := INFO;
                      message := "Adding barcode: "
                                 ++ format R
                                      match data rq with
                                      | Some body => body
                                      | None => VNone
                                      end |}]
               ++ match outcome with
                  | Ok _ => []
                  | Raise e =>
                      [{| level := ERROR;
                          message := "Error adding barcode to product: "
                                     ++ exn_str R e |}]
                  end |}).
Proof.
  intros Hcode rq outcome.
  unfold GrocyClient.add_barcode_to_product.
  lift_step Hcode. unfold bind at 1, logger at 1. cbv beta iota.
  unfold try_except. rewrite post_json_run. cbn [history log].
  fold (barcode_request self product_id code a). fold rq. fold outcome.
  destruct outcome as [v | e]; unfold bind, logger, ret, error_object;
    cbn [history log]; rewrite <- ?app_assoc; reflexivity.
Qed.

(** X14. [add_barcode_to_product] never raises once the barcode is normalised:
    it sends one POST to [/objects/product_barcodes] that carries the
    normalised barcode, the product id, and the defaults [''], [''] and [1]
    for an absent shopping location, note and display amount, and returns the
    decoded response, or the error object of what the transport raised. *)
Theorem add_barcode_to_product_posts_normalised (R : runtime)
    (server : remote) (self : client) (product_id : value)
    (barcode code : str) (a : assignments) (st : state) :
  GrocyClient.normalize_receipt_barcode barcode = Ok code ->
  requests_of
    (GrocyClient.add_barcode_to_product R server self product_id barcode a) st
  = [barcode_request self product_id code a]
  /\
  fst (GrocyClient.add_barcode_to_product R server self product_id barcode a st)
  = Ok match transport_result
               (server (history st) (barcode_request self product_id code a))
       with
       | Ok v => v
       | Raise e => error_object R e
       end.
Proof.
  intros Hcode.
  pose proof (add_barcode_to_product_value R server self product_id barcode
                code a st Hcode) as H.
  cbv zeta in H. split.
  - apply requests_of_app. now rewrite H.
  - now rewrite H.
Qed.

Lemma add_barcode_to_product_posts_normalised_witness :
  requests_of
    (GrocyClient.add_barcode_to_product example_runtime shop example_client
       (VInt 7) "1234567890"
       {| as_shopping_location_id := None; as_note := None;
          as_display_amount := None |}) initial
  = [post_request example_client
       "http://grocy.local/api/objects/product_barcodes"
       (VDict [("shopping_location_id", VStr EmptyString);
               ("note", VStr EmptyString);
               ("barcode", VStr "012345678905");
               ("product_id", VInt 7);
               ("amount", VInt 1)])]
  /\
  fst (GrocyClient.add_barcode_to_product example_runtime shop example_client
         (VInt 7) "1234567890"
         {| as_shopping_location_id := None; as_note := None;
            as_display_amount := None |} initial)
  = Ok (VDict [("created_object_id", VInt 12)]).
Proof.
  exact (add_barcode_to_product_posts_normalised example_runtime shop
           example_client (VInt 7) "1234567890" "012345678905"
           {| as_shopping_location_id := None; as_note := None;
              as_display_amount := None |} initial eq_refl).
Defined.

Lemma normalize_raises_iff (s : str) :
  (exists e, GrocyClient.normalize_receipt_barcode s = Raise e)
  <-> Str.length s = 10%nat /\ isdigit s = true /\ decimal_digits s = false.
Proof.
  unfold GrocyClient.normalize_receipt_barcode.
  rewrite (len_length s 10 : (len s =? 10) = _).
  destruct (Nat.eqb_spec (Str.length s) 10) as [Hlen | Hlen]; cbn [andb].
  - destruct (isdigit s) eqn:D.
    + split.
      * intros [e He]. repeat split; try assumption.
        destruct (decimal_digits s) eqn:Hnum; [ | reflexivity ].
        rewrite (build_on_decimal s Hlen Hnum) in He. discriminate He.
      * intros [_ [_ Hnum]].
        destruct (result_cases (GrocyClient.build_upc_from_receipt s))
          as [Hok | Hraise]; [ | exact Hraise ].
        apply build_ok_iff in Hok as [_ Hok]. congruence.
    + split; [intros [e He]; discriminate He | intros [_ [H _]]; discriminate H].
  - split; [intros [e He]; discriminate He | intros [H _]; contradiction].
Qed.

(** X15. [add_barcode_to_product] raises exactly on a barcode of 10 characters
    that [str.isdigit] accepts and that are not all decimal digits, that is,
    not all read by [int]; it then raises a [ValueError] before it logs or
    sends anything. *)
Theorem add_barcode_to_product_raises_iff (R : runtime) (server : remote)
    (self : client) (product_id : value) (barcode : str) (a : assignments)
    (st : state) :
  ((exists e,
       fst (GrocyClient.add_barcode_to_product R server self product_id
              barcode a st) = Raise e)
   <-> Str.length barcode = 10%nat /\ isdigit barcode = true
       /\ decimal_digits barcode = false)
  /\
  (forall e,
      fst (GrocyClient.add_barcode_to_product R server self product_id
             barcode a st) = Raise e ->
      (exists msg, e = ValueError msg)
      /\ snd (GrocyClient.add_barcode_to_product R server self product_id
                barcode a st) = st).
Proof.
  destruct (GrocyClient.normalize_receipt_barcode barcode) as [code | e0] eqn:N.
  - pose proof (add_barcode_to_product_value R server self product_id barcode
                  code a st N) as H.
    cbv zeta in H. rewrite H. cbn [fst]. split.
    + split; [intros [e He]; discriminate He | ].
      intros Hbad. apply normalize_raises_iff in Hbad as [e He]. congruence.
    + intros e He. discriminate He.
  - assert (GrocyClient.add_barcode_to_product R server self product_id
              barcode a st = (Raise e0, st)) as H.
    { unfold GrocyClient.add_barcode_to_product, bind at 1, lift at 1.
      now rewrite N. }
    rewrite H. cbn [fst snd]. split.
    + split; [ | intros _; now exists e0 ].
      intros _. apply normalize_raises_iff. now exists e0.
    + intros e [= <-]. split; [ | reflexivity ].
      unfold GrocyClient.normalize_receipt_barcode in N.
      destruct ((len barcode =? 10) && isdigit barcode); [ | discriminate N ].
      now apply build_raises_value_error in N.
Qed.

(** X16. A receipt code of 10 numeric digits is stored as its 12-digit UPC-A,
    and a barcode of any other length is stored as it is. *)
Theorem add_barcode_to_product_stores_upca (R : runtime) (server : remote)
    (self : client) (product_id : value) (barcode : str) (a : assignments)
    (st : state) :
  (Str.length barcode = 10%nat -> numeric barcode = true ->
   exists upc,
     GrocyClient.build_upc_from_receipt barcode = Ok upc /\
     requests_of
       (GrocyClient.add_barcode_to_product R server self product_id barcode a)
       st
     = [barcode_request self product_id upc a])
  /\
  (Str.length barcode <> 10%nat ->
   requests_of
     (GrocyClient.add_barcode_to_product R server self product_id barcode a) st
   = [barcode_request self product_id barcode a]).
Proof.
  split.
  - intros Hlen Hnum.
    pose proof (build_on_numeric barcode Hlen Hnum) as Hbuild.
    set (upc := "0" ++ barcode
                ++ digit_string
                     ((10 - spec_weighted_sum true (digits_of ("0" ++ barcode))
                            mod 10) mod 10)) in *.
    exists upc. split; [exact Hbuild | ].
    apply requests_of_app.
    rewrite (add_barcode_to_product_value R server self product_id barcode upc
               a st); [reflexivity | ].
    unfold GrocyClient.normalize_receipt_barcode.
    rewrite (len_length barcode 10 : (len barcode =? 10) = _), Hlen.
    rewrite numeric_isdigit;
      [ exact Hbuild | destruct barcode; [discriminate | congruence] | exact Hnum ].
  - intros Hlen. apply requests_of_app.
    rewrite (add_barcode_to_product_value R server self product_id barcode
               barcode a st); [reflexivity | ].
    unfold GrocyClient.normalize_receipt_barcode.
    rewrite (len_length barcode 10 : (len barcode =? 10) = _).
    apply Nat.eqb_neq in Hlen. now rewrite Hlen.
Qed.

Lemma add_barcode_to_product_stores_upca_witness :
  exists upc,
    GrocyClient.build_upc_from_receipt "1234567890" = Ok upc /\
    requests_of
      (GrocyClient.add_barcode_to_product example_runtime shop example_client
         (VInt 7) "1234567890"
         {| as_shopping_location_id := None; as_note := None;
            as_display_amount := None |}) initial
    = [barcode_request example_client (VInt 7) upc
         {| as_shopping_location_id := None; as_note := None;
            as_display_amount := None |}].
Proof.
  apply (proj1 (add_barcode_to_product_stores_upca example_runtime shop
                  example_client (VInt 7) "1234567890"
                  {| as_shopping_location_id := None; as_note := None;
                     as_display_amount := None |} initial));
    reflexivity.
Defined.

(** ** Creating a product *)

Section CreateMore.

Variable R : runtime.
Variable server : remote.
Variable self : client.

(** When the [try] statement raises, it hands over to its handler with the
    POST sent and nothing logged yet. *)
Lemma create_product_try_raised (product_data : product_data) (st : state)
    (e : exn) :
  create_failure (server (history st) (create_request self product_data))
  = Some e ->
  GrocyClient.create_product_try R server self product_data st
  = bind (logger ERROR ("Error creating product, trying to find by name: "
                        ++ exn_str R e))
      (fun _ =>
         bind (GrocyClient.get_product_by_name R server self
                 (pd_name product_data))
           (fun product => ret (Continue product)))
      {| history := history st ++ [create_request self product_data];
         log := log st |}.
Proof.
  intros Hfail.
  unfold GrocyClient.create_product_try, try_except at 1, bind at 1,
    GrocyClient.requests_post at 1.
  unfold create_failure, create_request, post_request in Hfail.
  destruct (server _ _) as [resp | e0]; cbv beta iota.
  - destruct (status_code resp =? 400);
      unfold bind at 1, lift at 1; cbv beta iota;
      (destruct (json resp) as [body | e0]; cbv beta iota;
       [ unfold bind at 1, lift at 1;
         destruct body; try discriminate Hfail;
         cbn [dict_get type_name] in *; injection Hfail as <-; reflexivity
       | injection Hfail as <-; reflexivity ]).
  - injection Hfail as <-. reflexivity.
Qed.

(** The handler of the [try] statement: the lookup by name, with the
    product it finds or the exception it raises. *)
Lemma create_product_try_fallback (product_data : product_data) (st : state)
    (e : exn) :
  create_failure (server (history st) (create_request self product_data))
  = Some e ->
  let outcome :=
    transport_result
      (server (history st ++ [create_request self product_data])%list
         (fallback_request self)) in
  let products := match outcome with Ok body => body | Raise _ => VNone end in
  exists lg,
    GrocyClient.create_product_try R server self product_data st
    = (match rbind (iterate products)
               (GrocyClient.first_named (pd_name product_data)) with
       | Ok product => Ok (Continue product)
       | Raise e' => Raise e'
       end,
       {| history := history st
                     ++ [create_request self product_data;
                         fallback_request self];
          log := lg |}).
Proof.
  intros Hfail outcome products.
  rewrite (create_product_try_raised product_data st e Hfail).
  unfold bind at 1, logger at 1. cbv beta iota. unfold bind at 1.
  rewrite get_product_by_name_run_value. cbv zeta. cbn [history log].
  fold outcome. fold products. rewrite <- app_assoc. cbn [app].
  destruct (rbind (iterate products) _); unfold ret; eexists; reflexivity.
Qed.

(** When the POST is answered with a status other than 400 and a JSON
    object, the [try] statement goes on with what [get_product] returns for
    the created id. *)
Lemma create_product_try_created (product_data : product_data) (st : state)
    (resp : response) (d : list (str * value)) :
  server (history st) (create_request self product_data) = Ok resp ->
  (status_code resp =? 400) = false ->
  json resp = Ok (VDict d) ->
  let product_id :=
    match lookup "created_object_id" d with Some x => x | None => VNone end in
  let fetch :=
    get_request self (api_url self ++ "/objects/products/"
                      ++ format R product_id) in
  let product :=
    match transport_result
            (server (history st ++ [create_request self product_data])%list
               fetch)
    with
    | Ok body => body
    | Raise _ => VNone
    end in
  exists lg,
    GrocyClient.create_product_try R server self product_data st
    = (Ok (Continue product),
       {| history := history st ++ [create_request self product_data; fetch];
          log := lg |}).
Proof.
  intros Hserver Hstatus Hjson product_id fetch product.
  unfold GrocyClient.create_product_try, try_except at 1, bind at 1,
    GrocyClient.requests_post at 1.
  unfold create_request, post_request in Hserver.
  rewrite Hserver. cbv beta iota. rewrite Hstatus.
  lift_step Hjson. unfold bind at 1, lift at 1. cbn [dict_get].
  assert (match lookup "created_object_id" d with
          | Some x => Ok x
          | None => Ok VNone
          end = Ok product_id) as ->
    by (unfold product_id; now destruct (lookup "created_object_id" d)).
  cbv beta iota. unfold bind at 1. unfold GrocyClient.get_product.
  rewrite (guarded_read_value' R server self _ _ _ _). cbv zeta.
  cbn [history log]. fold fetch.
  fold (post_request self (api_url self ++ "/objects/products")
          (VDict
             [("name", VStr (pd_name product_data));
              ("description",
               match pd_description product_data with
               | Some d0 => VStr d0
               | None => VStr EmptyString
               end);
              ("product_group_id", opt_int (pd_product_group_id product_data));
              ("location_id", opt_int (pd_location_id product_data));
              ("qu_id_purchase", opt_int (pd_qu_id_purchase product_data));
              ("qu_id_stock", opt_int (pd_qu_id_stock product_data));
              ("treat_opened_as_out_of_stock",
               match pd_out_of_stock_default product_data with
               | Some b => VBool b
               | None => VBool false
               end)])).
  fold (create_request self product_data). fold product.
  unfold ret. rewrite <- app_assoc. eexists. reflexivity.
Qed.

(** [create_product] is its INFO entry, its [try] statement, and the
    statements after it. *)
Lemma create_product_steps (product_data : product_data) (st : state) :
  let st1 := {| history := history st;
                log := log st
                       ++ [{| level := INFO;
                              message := "Creating product with data: "
                                         ++ format R (product_data_dict product_data) |}] |} in
  GrocyClient.create_product R server self product_data st
  = match GrocyClient.create_product_try R server self product_data st1 with
    | (Ok (Return v), st2) => (Ok v, st2)
    | (Ok (Continue product), st2) =>
        GrocyClient.create_product_rest R server self product_data product st2
    | (Raise e, st2) => (Raise e, st2)
    end.
Proof.
  intros st1. unfold GrocyClient.create_product, bind at 1, logger at 1.
  cbv beta iota. fold st1. unfold bind at 1.
  destruct (GrocyClient.create_product_try R server self product_data st1)
    as [[[v | product] | e] st2]; reflexivity.
Qed.

End CreateMore.

(** X17. After a POST answered with a status other than 400 and a JSON object
    (the status is not checked further), [create_product] fetches the product
    under the ['created_object_id'] of the answer ([None] when the member is
    absent) and, when no barcode was given, returns what it fetched, or
    [None] when the fetch failed or gave a falsy body; it sends these two
    requests and no other. *)
Theorem create_product_returns_created (R : runtime) (server : remote)
    (self : client) (product_data : product_data) (st : state)
    (resp : response) (d : list (str * value)) :
  server (history st) (create_request self product_data) = Ok resp ->
  (status_code resp =? 400) = false ->
  json resp = Ok (VDict d) ->
  pd_barcode product_data = None ->
  let product_id :=
    match lookup "created_object_id" d with Some x => x | None => VNone end in
  let fetch :=
    get_request self (api_url self ++ "/objects/products/"
                      ++ format R product_id) in
  let product :=
    match transport_result
            (server (history st ++ [create_request self product_data])%list
               fetch)
    with
    | Ok body => body
    | Raise _ => VNone
    end in
  fst (GrocyClient.create_product R server self product_data st)
  = Ok (py_or product VNone)
  /\ requests_of (GrocyClient.create_product R server self product_data) st
     = [create_request self product_data; fetch].
Proof.
  intros Hserver Hstatus Hjson Hbarcode product_id fetch product.
  assert (exists lg,
             GrocyClient.create_product R server self product_data st
             = (Ok (py_or product VNone),
                {| history := history st
                              ++ [create_request self product_data; fetch];
                   log := lg |})) as [lg Hrun].
  { rewrite create_product_steps. cbv zeta.
    match goal with
    | |- context [GrocyClient.create_product_try R server self product_data ?s] =>
        destruct (create_product_try_created R server self product_data s
                    resp d Hserver Hstatus Hjson) as [lg ->]
    end.
    cbn [history]. fold product_id. fold fetch. fold product.
    unfold GrocyClient.create_product_rest. rewrite Hbarcode.
    destruct (truthy product); unfold ret; eexists; reflexivity. }
  rewrite Hrun. split; [reflexivity | ].
  apply requests_of_app. now rewrite Hrun.
Qed.

Lemma create_product_returns_created_witness :
  fst (GrocyClient.create_product example_runtime shop example_client
         milk_data initial)
  = Ok milk
  /\ requests_of (GrocyClient.create_product example_runtime shop
                    example_client milk_data) initial
     = [create_request example_client milk_data;
        get_request example_client "http://grocy.local/api/objects/products/7"].
Proof.
  exact (create_product_returns_created example_runtime shop example_client
           milk_data initial
           {| status_code := 200;
              json := Ok (VDict [("created_object_id", VInt 7)]) |}
           [("created_object_id", VInt 7)] eq_refl eq_refl eq_refl eq_refl).
Defined.

(** X18. When a barcode was given and the fetched product is a truthy object
    with an ['id'], [create_product] attaches the barcode, normalised, with
    the product name as note, as its third request.  If attaching fails at
    the transport, or the answer holds an ['error'] member, that error is
    returned although the product was created; otherwise the product is
    returned. *)
Theorem create_product_attaches_barcode (R : runtime) (server : remote)
    (self : client) (product_data : product_data) (st : state)
    (resp : response) (d : list (str * value)) (barcode code : str)
    (id : value) :
  server (history st) (create_request self product_data) = Ok resp ->
  (status_code resp =? 400) = false ->
  json resp = Ok (VDict d) ->
  pd_barcode product_data = Some barcode ->
  GrocyClient.normalize_receipt_barcode barcode = Ok code ->
  let product_id :=
    match lookup "created_object_id" d with Some x => x | None => VNone end in
  let fetch :=
    get_request self (api_url self ++ "/objects/products/"
                      ++ format R product_id) in
  let product :=
    match transport_result
            (server (history st ++ [create_request self product_data])%list
               fetch)
    with
    | Ok body => body
    | Raise _ => VNone
    end in
  let attach :=
    barcode_request self id code
      {| as_shopping_location_id := None;
         as_note := Some (pd_name product_data);
         as_display_amount := None |} in
  let attached :=
    transport_result
      (server (history st ++ [create_request self product_data; fetch])%list
         attach) in
  truthy product = true ->
  getitem product "id" = Ok id ->
  requests_of (GrocyClient.create_product R server self product_data) st
  = [create_request self product_data; fetch; attach]
  /\
  (forall e,
      attached = Raise e ->
      fst (GrocyClient.create_product R server self product_data st)
      = Ok (error_object R e))
  /\
  (forall answer : list (str * value),
      attached = Ok (VDict answer) ->
      fst (GrocyClient.create_product R server self product_data st)
      = Ok match lookup "error" answer with
           | Some err => VDict [("error", err)]
           | None => product
           end).
Proof.
  intros Hserver Hstatus Hjson Hbarcode Hcode product_id fetch product attach
    attached Htruthy Hid.
  assert (exists lg,
             GrocyClient.create_product R server self product_data st
             = (match attached with
                | Raise e => Ok (error_object R e)
                | Ok v =>
                    rbind (contains "error" v) (fun has_error =>
                      if has_error
                      then rbind (getitem v "error")
                             (fun err => Ok (VDict [("error", err)]))
                      else Ok product)
                end,
                {| history := history st
                              ++ [create_request self product_data; fetch; attach];
                   log := lg |})) as [lg Hrun].
  { rewrite create_product_steps. cbv zeta.
    match goal with
    | |- context [GrocyClient.create_product_try R server self product_data ?s] =>
        destruct (create_product_try_created R server self product_data s
                    resp d Hserver Hstatus Hjson) as [lg ->]
    end.
    cbn [history]. fold product_id. fold fetch. fold product.
    unfold GrocyClient.create_product_rest. rewrite Hbarcode, Htruthy.
    lift_step Hid. unfold bind at 1.
    rewrite (add_barcode_to_product_value R server self id barcode code _ _
               Hcode).
    cbv zeta. cbn [history log]. fold attach. fold attached.
    rewrite <- app_assoc. cbn [app].
    destruct attached as [v | e].
    - unfold bind at 1, lift at 1.
      destruct (contains "error" v) as [[ | ] | e];
        cbn [rbind]; unfold py_or; rewrite ?Htruthy;
        unfold bind, lift, ret;
        try destruct (getitem v "error"); eexists; reflexivity.
    - unfold error_object, bind, lift, ret. cbn. eexists. reflexivity. }
  split; [ | split ].
  - apply requests_of_app. now rewrite Hrun.
  - intros e He. rewrite Hrun. cbn [fst]. now rewrite He.
  - intros answer Ha. rewrite Hrun. cbn [fst]. rewrite Ha.
    cbn [contains rbind getitem].
    now destruct (lookup "error" answer).
Qed.

Lemma create_product_attaches_barcode_witness :
  requests_of (GrocyClient.create_product example_runtime shop example_client
                 milk_with_barcode) initial
  = [create_request example_client milk_with_barcode;
     get_request example_client "http://grocy.local/api/objects/products/7";
     barcode_request example_client (VInt 7) "012345678905"
       {| as_shopping_location_id := None; as_note := Some "Milk";
          as_display_amount := None |}]
  /\
  fst (GrocyClient.create_product example_runtime shop example_client
         milk_with_barcode initial)
  = Ok milk.
Proof.
  pose proof (create_product_attaches_barcode example_runtime shop
                example_client milk_with_barcode initial
                {| status_code := 200;
                   json := Ok (VDict [("created_object_id", VInt 7)]) |}
                [("created_object_id", VInt 7)] "1234567890" "012345678905"
                (VInt 7) eq_refl eq_refl eq_refl eq_refl eq_refl eq_refl
                eq_refl) as [Hreq [_ Hok]].
  split; [exact Hreq | ].
  exact (Hok [("created_object_id", VInt 12)] eq_refl).
Defined.

Lemma named_truthy (product_name : str) (p : value) :
  named product_name p = true -> py_or p VNone = p.
Proof.
  destruct p as [ | | | | | | d]; try discriminate.
  destruct d as [ | kv d]; [discriminate | reflexivity].
Qed.

(** X19. When the [try] statement raises and the product list can be fetched,
    [create_product] (without barcode) returns the first listed product with
    exactly the name of the new one, and [None] when the list holds objects
    of other names only; it sends the POST and the GET of the list. *)
Theorem create_product_finds_existing (R : runtime) (server : remote)
    (self : client) (product_data : product_data) (st : state) (e : exn)
    (items : list value) :
  create_failure (server (history st) (create_request self product_data))
  = Some e ->
  transport_result
    (server (history st ++ [create_request self product_data])%list
       (fallback_request self))
  = Ok (VList items) ->
  pd_barcode product_data = None ->
  (forall (pre : list value) (p : value) (rest : list value),
      items = (pre ++ p :: rest)%list ->
      forallb is_object pre = true ->
      forallb (fun q => negb (named (pd_name product_data) q)) pre = true ->
      named (pd_name product_data) p = true ->
      fst (GrocyClient.create_product R server self product_data st) = Ok p)
  /\
  (forallb is_object items = true ->
   forallb (fun q => negb (named (pd_name product_data) q)) items = true ->
   fst (GrocyClient.create_product R server self product_data st) = Ok VNone)
  /\
  requests_of (GrocyClient.create_product R server self product_data) st
  = [create_request self product_data; fallback_request self].
Proof.
  intros Hfail Hlist Hbarcode.
  assert (exists lg,
             GrocyClient.create_product R server self product_data st
             = (match GrocyClient.first_named (pd_name product_data) items with
                | Ok product => Ok (py_or product VNone)
                | Raise e' => Raise e'
                end,
                {| history := history st
                              ++ [create_request self product_data;
                                  fallback_request self];
                   log := lg |})) as [lg Hrun].
  { rewrite create_product_steps. cbv zeta.
    match goal with
    | |- context [GrocyClient.create_product_try R server self product_data ?s] =>
        destruct (create_product_try_fallback R server self product_data s e
                    Hfail) as [lg ->]
    end.
    cbn [history]. rewrite Hlist. cbn [iterate rbind].
    destruct (GrocyClient.first_named (pd_name product_data) items)
      as [product | e']; [ | eexists; reflexivity ].
    unfold GrocyClient.create_product_rest. rewrite Hbarcode.
    destruct (truthy product); unfold ret; eexists; reflexivity. }
  rewrite Hrun. cbn [fst]. split; [ | split ].
  - intros pre p rest -> Hobj Hnot Hp.
    rewrite (first_named_skips _ pre (p :: rest) Hobj Hnot).
    rewrite (first_named_hit _ p rest Hp).
    now rewrite (named_truthy _ p Hp).
  - intros Hobj Hnot. rewrite <- (app_nil_r items).
    now rewrite (first_named_skips _ items [] Hobj Hnot).
  - apply requests_of_app. now rewrite Hrun.
Qed.

Lemma create_product_finds_existing_witness :
  fst (GrocyClient.create_product example_runtime read_only example_client
         milk_data initial)
  = Ok milk.
Proof.
  exact (proj1 (create_product_finds_existing example_runtime read_only
                  example_client milk_data initial
                  (RequestException "Read timed out") [butter; milk]
                  eq_refl eq_refl eq_refl)
           [butter] milk [] eq_refl eq_refl eq_refl eq_refl).
Defined.

(** X20. When the [try] statement raises and the fetch of the product list
    fails too, [create_product] raises [TypeError]: the lookup by name
    iterates over the [None] of [get_all_products], outside any [try]. *)
Theorem create_product_raises_when_lookup_fails (R : runtime)
    (server : remote) (self : client) (product_data : product_data)
    (st : state) (e e' : exn) :
  create_failure (server (history st) (create_request self product_data))
  = Some e ->
  transport_result
    (server (history st ++ [create_request self product_data])%list
       (fallback_request self))
  = Raise e' ->
  fst (GrocyClient.create_product R server self product_data st)
  = Raise (TypeError "'NoneType' object is not iterable")
  /\ requests_of (GrocyClient.create_product R server self product_data) st
     = [create_request self product_data; fallback_request self].
Proof.
  intros Hfail Hlist.
  assert (exists lg,
             GrocyClient.create_product R server self product_data st
             = (Raise (TypeError "'NoneType' object is not iterable"),
                {| history := history st
                              ++ [create_request self product_data;
                                  fallback_request self];
                   log := lg |})) as [lg Hrun].
  { rewrite create_product_steps. cbv zeta.
    match goal with
    | |- context [GrocyClient.create_product_try R server self product_data ?s] =>
        destruct (create_product_try_fallback R server self product_data s e
                    Hfail) as [lg ->]
    end.
    cbn [history]. rewrite Hlist. cbn [iterate rbind type_name].
    eexists. reflexivity. }
  rewrite Hrun. split; [reflexivity | ].
  apply requests_of_app. now rewrite Hrun.
Qed.

Lemma create_product_raises_when_lookup_fails_witness :
  fst (GrocyClient.create_product example_runtime unreachable example_client
         milk_data initial)
  = Raise (TypeError "'NoneType' object is not iterable")
  /\ requests_of (GrocyClient.create_product example_runtime unreachable
                    example_client milk_data) initial
     = [create_request example_client milk_data;
        fallback_request example_client].
Proof.
  exact (create_product_raises_when_lookup_fails example_runtime unreachable
           example_client milk_data initial
           (RequestException "Connection refused")
           (RequestException "Connection refused") eq_refl eq_refl).
Defined.

Lemma create_product_try_return_truthy (R : runtime) (server : remote)
    (self : client) (product_data : product_data) (st st' : state)
    (v : value) :
  GrocyClient.create_product_try R server self product_data st
  = (Ok (Return v), st') ->
  truthy v = true.
Proof.
  destruct (create_failure
              (server (history st) (create_request self product_data)))
    as [e | ] eqn:Hfail.
  - destruct (create_product_try_fallback R server self product_data st e Hfail)
      as [lg ->].
    now destruct (rbind _ _).
  - unfold create_failure in Hfail.
    destruct (server (history st) (create_request self product_data))
      as [resp | e] eqn:Hserver; [ | discriminate ].
    destruct (json resp) as [[ | | | | | | d] | e] eqn:Hjson; try discriminate.
    destruct (status_code resp =? 400) eqn:Hstatus.
    + unfold GrocyClient.create_product_try, try_except at 1, bind at 1,
        GrocyClient.requests_post at 1.
      unfold create_request, post_request in Hserver.
      rewrite Hserver. cbv beta iota. rewrite Hstatus.
      lift_step Hjson. unfold bind at 1, lift at 1. cbn [dict_get].
      destruct (lookup "error" d); unfold bind, logger, ret;
        intros [= <- _]; reflexivity.
    + destruct (create_product_try_created R server self product_data st
                  resp d Hserver Hstatus Hjson) as [lg ->].
      discriminate.
Qed.

Lemma create_product_rest_truthy (R : runtime) (server : remote)
    (self : client) (product_data : product_data) (product : value)
    (st : state) (v : value) :
  fst (GrocyClient.create_product_rest R server self product_data product st)
  = Ok v ->
  v = VNone \/ truthy v = true.
Proof.
  assert (forall s : state,
             fst (ret (py_or product VNone) s) = Ok v ->
             v = VNone \/ truthy v = true) as Hor.
  { intros s [= <-]. unfold py_or.
    destruct (truthy product) eqn:T; [now right | now left]. }
  unfold GrocyClient.create_product_rest.
  destruct (truthy product); [ | apply Hor ].
  destruct (pd_barcode product_data) as [barcode | ]; [ | apply Hor ].
  unfold bind at 1, lift at 1.
  destruct (getitem product "id") as [id | e]; [ | discriminate ].
  unfold bind at 1.
  destruct (GrocyClient.add_barcode_to_product R server self id barcode _ st)
    as [[barcode_response | e] st']; [ | discriminate ].
  unfold bind at 1, lift at 1.
  destruct (contains "error" barcode_response) as [[ | ] | e];
    [ | apply Hor | discriminate ].
  unfold bind, lift, ret.
  destruct (getitem barcode_response "error"); [ | discriminate ].
  intros [= <-]. now right.
Qed.

(** X21. What [create_product] returns is [None] or truthy: a product record,
    or an error object; a falsy body of the remote system never reaches the
    caller. *)
Theorem create_product_returns_none_or_truthy (R : runtime) (server : remote)
    (self : client) (product_data : product_data) (st : state) (v : value) :
  fst (GrocyClient.create_product R server self product_data st) = Ok v ->
  v = VNone \/ truthy v = true.
Proof.
  rewrite create_product_steps. cbv zeta.
  destruct (GrocyClient.create_product_try R server self product_data _)
    as [[[v0 | product] | e] st2] eqn:Htry.
  - intros [= <-]. right.
    now apply (create_product_try_return_truthy _ _ _ _ _ _ _ Htry).
  - apply create_product_rest_truthy.
  - discriminate.
Qed.

Lemma create_product_returns_none_or_truthy_witness :
  milk = VNone \/ truthy milk = true.
Proof.
  exact (create_product_returns_none_or_truthy example_runtime shop
           example_client milk_data initial milk eq_refl).
Defined.

(** ** Recording a purchase *)

(** X23. With the stock details fetched and the arithmetic defined,
    [add_purchase] sends the lookup and then one POST to
    [/stock/products/<id>/add] that carries [amount * factor],
    [price / factor] (price 0 when absent), the date [days_out] days from
    today, the transaction type ["purchase"] and the shopping location; it
    returns the decoded response, or the error object of what the POST
    raised, and logs that error. *)
Theorem add_purchase_posts_converted (R : runtime) (server : remote)
    (self : client) (purchase_data : purchase_data) (st : state)
    (resp : response) (product : value) (conversion_factor : value)
    (day : str) (calc_amount calc_price : value) :
  let lookup_request :=
    get_request self (api_url self ++ "/stock/products/"
                      ++ str_of_int (pu_product_id purchase_data)) in
  let add_request :=
    post_request self
      (api_url self ++ "/stock/products/"
       ++ str_of_int (pu_product_id purchase_data) ++ "/add")
      (VDict [("amount", calc_amount);
              ("transaction_type", VStr "purchase");
              ("best_before_date", VStr day);
              ("price", calc_price);
              ("shopping_location_id",
               VInt (pu_shopping_location_id purchase_data))]) in
  server (history st) lookup_request = Ok resp ->
  (400 <=? status_code resp) && (status_code resp <? 600) = false ->
  json resp = Ok product ->
  getitem product "qu_conversion_factor_purchase_to_stock"
  = Ok conversion_factor ->
  expiration R (pu_days_out purchase_data) = Ok day ->
  py_mul R (pu_amount purchase_data) conversion_factor = Ok calc_amount ->
  py_truediv R
    (match pu_price purchase_data with Some x => x | None => VInt 0 end)
    conversion_factor = Ok calc_price ->
  requests_of (GrocyClient.add_purchase R server self purchase_data) st
  = [lookup_request; add_request]
  /\
  fst (GrocyClient.add_purchase R server self purchase_data st)
  = Ok match transport_result
               (server (history st ++ [lookup_request])%list add_request) with
       | Ok v => v
       | Raise e => error_object R e
       end.
Proof.
  intros lookup_request add_request Hserver Hstatus Hjson Hfactor Hday Hmul Hdiv.
  pose proof (add_purchase_submits R server self purchase_data st resp product
                conversion_factor day calc_amount calc_price Hserver Hstatus
                Hjson Hfactor Hday Hmul Hdiv) as Hrun.
  cbv zeta in Hrun. fold lookup_request in Hrun. fold add_request in Hrun.
  split.
  - apply requests_of_app. now rewrite Hrun.
  - rewrite Hrun. cbn [fst]. now destruct (transport_result _).
Qed.

Lemma add_purchase_posts_converted_witness :
  requests_of (GrocyClient.add_purchase example_runtime stocked example_client
                 milk_purchase) initial
  = [get_request example_client "http://grocy.local/api/stock/products/7";
     post_request example_client "http://grocy.local/api/stock/products/7/add"
       (VDict [("amount", VInt 12);
               ("transaction_type", VStr "purchase");
               ("best_before_date", VStr "2026-11-10");
               ("price", VFloat 0%float);
               ("shopping_location_id", VInt 1)])]
  /\
  fst (GrocyClient.add_purchase example_runtime stocked example_client
         milk_purchase initial)
  = Ok (VList [VDict [("id", VInt 31)]]).
Proof.
  exact (add_purchase_posts_converted example_runtime stocked example_client
           milk_purchase initial _ _ (VInt 6) "2026-11-10" (VInt 12)
           (VFloat 0%float) eq_refl eq_refl eq_refl eq_refl eq_refl eq_refl
           eq_refl).
Defined.

(** X24. What [add_purchase] computes before its [try] is not guarded: when the
    date is out of range, when the stock details hold no conversion factor
    (a missing member, or the [None] of a failed lookup), or when the
    product or the quotient raises (a factor that is no number, a division by
    zero), [add_purchase] raises that exception, having sent the lookup and
    no POST. *)
Theorem add_purchase_raises_before_post (R : runtime) (server : remote)
    (self : client) (purchase_data : purchase_data) (st : state) (e : exn) :
  let lookup_request :=
    get_request self (api_url self ++ "/stock/products/"
                      ++ str_of_int (pu_product_id purchase_data)) in
  let details :=
    match transport_result (server (history st) lookup_request) with
    | Ok body => body
    | Raise _ => VNone
    end in
  let key := "qu_conversion_factor_purchase_to_stock" in
  let price :=
    match pu_price purchase_data with Some x => x | None => VInt 0 end in
  expiration R (pu_days_out purchase_data) = Raise e
  \/ (exists day,
         expiration R (pu_days_out purchase_data) = Ok day
         /\ (getitem details key = Raise e
             \/ exists conversion_factor,
                 getitem details key = Ok conversion_factor
                 /\ (py_mul R (pu_amount purchase_data) conversion_factor
                     = Raise e
                     \/ exists calc_amount,
                         py_mul R (pu_amount purchase_data) conversion_factor
                         = Ok calc_amount
                         /\ py_truediv R price conversion_factor = Raise e))) ->
  fst (GrocyClient.add_purchase R server self purchase_data st) = Raise e
  /\ requests_of (GrocyClient.add_purchase R server self purchase_data) st
     = [lookup_request].
Proof.
  intros lookup_request details key price Hraise.
  assert (exists lg,
             GrocyClient.add_purchase R server self purchase_data st
             = (Raise e,
                {| history := history st ++ [lookup_request]; log := lg |}))
    as [lg Hrun].
  { unfold GrocyClient.add_purchase, bind at 1.
    unfold GrocyClient.get_product_details. cbn [format].
    rewrite (guarded_read_value' R server self _ _ _ st). cbv zeta.
    fold lookup_request. fold details.
    unfold bind at 1, logger at 1. cbv beta iota. cbn [history log].
    destruct Hraise as [Hday | [day [Hday Hrest]]].
    { lift_step Hday. eexists. reflexivity. }
    lift_step Hday.
    destruct Hrest as [Hkey | [conversion_factor [Hkey Hrest]]].
    { fold key. lift_step Hkey. eexists. reflexivity. }
    fold key. lift_step Hkey.
    destruct Hrest as [Hmul | [calc_amount [Hmul Hdiv]]].
    { lift_step Hmul. eexists. reflexivity. }
    lift_step Hmul.
    unfold bind at 1, lift at 1. cbv beta iota.
    fold price. lift_step Hdiv. eexists. reflexivity. }
  rewrite Hrun. split; [reflexivity | ].
  apply requests_of_app. now rewrite Hrun.
Qed.

Lemma add_purchase_raises_before_post_witness :
  fst (GrocyClient.add_purchase example_runtime
         (fun _ _ =>
            Ok {| status_code := 200;
                  json := Ok (VDict [("qu_conversion_factor_purchase_to_stock",
                                      VInt 0)]) |})
         example_client milk_purchase initial)
  = Raise ZeroDivisionError
  /\ requests_of
       (GrocyClient.add_purchase example_runtime
          (fun _ _ =>
             Ok {| status_code := 200;
                   json := Ok (VDict [("qu_conversion_factor_purchase_to_stock",
                                       VInt 0)]) |})
          example_client milk_purchase) initial
     = [get_request example_client "http://grocy.local/api/stock/products/7"].
Proof.
  apply (add_purchase_raises_before_post example_runtime
           (fun _ _ =>
              Ok {| status_code := 200;
                    json := Ok (VDict [("qu_conversion_factor_purchase_to_stock",
                                        VInt 0)]) |})
           example_client milk_purchase initial ZeroDivisionError).
  right. exists "2026-11-10". split; [reflexivity | ].
  right. exists (VInt 0). split; [reflexivity | ].
  right. exists (VInt 0). split; reflexivity.
Defined.

(** ** The unit conversion, whatever the remote system sends *)

Lemma convert_run_value (R : runtime) (server : remote) (self : client)
    (purchase_id stock_id : Z) (amount : value) (st : state) :
  let rq :=
    get_request self (api_url self ++ "/objects/quantity_unit_conversions") in
  let conversions :=
    match transport_result (server (history st) rq) with
    | Ok body => body
    | Raise _ => VList []
    end in
  exists lg,
    GrocyClient.convert_purchase_quantities_to_stock R server self
      purchase_id stock_id amount st
    = (Ok match rbind (iterate conversions)
                  (GrocyClient.scan_conversions R purchase_id stock_id amount)
          with
          | Ok v => v
          | Raise e => error_object R e
          end,
       {| history := history st ++ [rq]; log := lg |}).
Proof.
  intros rq conversions.
  unfold GrocyClient.convert_purchase_quantities_to_stock, bind at 1.
  unfold GrocyClient.get_quantity_unit_conversions.
  rewrite (guarded_read_value' R server self _ _ _ st). cbv zeta.
  fold rq. fold conversions.
  unfold try_except, bind, lift, logger, ret, error_object.
  destruct (iterate conversions) as [items | e]; cbn [rbind history log];
    [ | eexists; reflexivity ].
  destruct (GrocyClient.scan_conversions R purchase_id stock_id amount items);
    eexists; reflexivity.
Qed.

(** X25. [convert_purchase_quantities_to_stock] never raises and sends exactly
    one request, the GET of the conversion table, whatever the remote system
    answers and whatever the arithmetic does. *)
Theorem convert_never_raises (R : runtime) (server : remote) (self : client)
    (purchase_id stock_id : Z) (amount : value) (st : state) :
  (exists v,
      fst (GrocyClient.convert_purchase_quantities_to_stock R server self
             purchase_id stock_id amount st) = Ok v)
  /\
  requests_of
    (GrocyClient.convert_purchase_quantities_to_stock R server self
       purchase_id stock_id amount) st
  = [get_request self (api_url self ++ "/objects/quantity_unit_conversions")].
Proof.
  destruct (convert_run_value R server self purchase_id stock_id amount st)
    as [lg Hrun].
  split.
  - rewrite Hrun. eexists. reflexivity.
  - apply requests_of_app. now rewrite Hrun.
Qed.

(** X26. A table that cannot be scanned gives an error object, not an amount:
    when the fetched body cannot be iterated ([null], a number, a boolean),
    and when a row that is reached (no row before it matches) lacks its
    ['from_qu_id'], the exception is returned as [{'error': str(e)}]. *)
Theorem convert_reports_malformed_table (R : runtime) (server : remote)
    (self : client) (purchase_id stock_id : Z) (amount : value) (st : state)
    (body : value) (e : exn) :
  transport_result
    (server (history st)
       (get_request self (api_url self ++ "/objects/quantity_unit_conversions")))
  = Ok body ->
  iterate body = Raise e
  \/ (exists (pre : list value) (rows : list conversion) (bad : value)
             (rest : list value),
         iterate body = Ok (pre ++ bad :: rest)%list
         /\ Forall2 carries pre rows
         /\ find (matches purchase_id stock_id) rows = None
         /\ getitem bad "from_qu_id" = Raise e) ->
  fst (GrocyClient.convert_purchase_quantities_to_stock R server self
         purchase_id stock_id amount st)
  = Ok (error_object R e).
Proof.
  intros Hfetch Hbad.
  destruct (convert_run_value R server self purchase_id stock_id amount st)
    as [lg Hrun].
  cbv zeta in Hrun. rewrite Hrun, Hfetch. cbn [fst].
  destruct Hbad as [-> | [pre [rows [bad [rest [-> [Hcar [Hfind Hkey]]]]]]]];
    [reflexivity | ].
  cbn [rbind].
  assert (GrocyClient.scan_conversions R purchase_id stock_id amount
            (pre ++ bad :: rest) = Raise e) as ->; [ | reflexivity ].
  clear Hrun Hfetch. revert Hfind.
  induction Hcar as [ | entry c pre rows [Hfrom [Hto Hfactor]] _ IH ].
  - intros _. cbn [app GrocyClient.scan_conversions]. now rewrite Hkey.
  - cbn [find app GrocyClient.scan_conversions]. unfold matches at 1.
    rewrite Hfrom. cbn [rbind py_eq_int].
    destruct (from_qu_id c =? purchase_id); cbn [andb]; [ | exact IH ].
    rewrite Hto. cbn [rbind py_eq_int].
    destruct (to_qu_id c =? stock_id); [discriminate | exact IH].
Qed.

Lemma convert_reports_malformed_table_witness :
  fst (GrocyClient.convert_purchase_quantities_to_stock example_runtime
         (conversions_only
            (VList [VDict [("from_qu_id", VInt 5); ("to_qu_id", VInt 6);
                           ("factor", VInt 2)];
                    VDict [("to_qu_id", VInt 2)]]))
         example_client 1 2 (VInt 4) initial)
  = Ok (error_object example_runtime (KeyError "from_qu_id")).
Proof.
  apply (convert_reports_malformed_table example_runtime
           (conversions_only
              (VList [VDict [("from_qu_id", VInt 5); ("to_qu_id", VInt 6);
                             ("factor", VInt 2)];
                      VDict [("to_qu_id", VInt 2)]]))
           example_client 1 2 (VInt 4) initial
           (VList [VDict [("from_qu_id", VInt 5); ("to_qu_id", VInt 6);
                          ("factor", VInt 2)];
                   VDict [("to_qu_id", VInt 2)]])
           (KeyError "from_qu_id") eq_refl).
  right.
  exists [VDict [("from_qu_id", VInt 5); ("to_qu_id", VInt 6);
                 ("factor", VInt 2)]],
    [{| from_qu_id := 5; to_qu_id := 6; factor := VInt 2 |}],
    (VDict [("to_qu_id", VInt 2)]), [].
  repeat split. repeat constructor.
Defined.

(** ** The logger module *)

Lemma split_dot_cons (s : str) :
  exists part parts, Logger.split_dot s = part :: parts.
Proof.
  induction s as [|c s [part [parts IH]]]; cbn [Logger.split_dot].
  - eexists. eexists. reflexivity.
  - rewrite IH. destruct (N.eqb c dot); eexists; eexists; reflexivity.
Qed.

Lemma split_dot_free (s : str) :
  dot_free s = true -> Logger.split_dot s = [s].
Proof.
  unfold dot_free. induction s as [|c s IH]; cbn [string_forallb Logger.split_dot];
    [reflexivity | ].
  intros H. apply andb_true_iff in H as [Hc Hs]. rewrite (IH Hs).
  apply negb_true_iff in Hc. now rewrite Hc.
Qed.

Lemma last_component_after_dot (p s : str) :
  Logger.last_component (p ++ String dot s) = Logger.last_component s.
Proof.
  unfold Logger.last_component.
  assert (exists part parts,
             Logger.split_dot (p ++ String dot s) = part :: parts
             /\ parts <> []
             /\ List.last (part :: parts) EmptyString
                = List.last (Logger.split_dot s) EmptyString) as [part [parts [-> [_ H]]]];
    [ | exact H ].
  induction p as [|c p [part [parts [IH [Hne Hlast]]]]].
  - destruct (split_dot_cons s) as [part [parts E]].
    cbn [append Logger.split_dot]. rewrite E. cbn [N.eqb Bool.eqb].
    exists EmptyString, (part :: parts).
    split; [reflexivity | split; [discriminate | reflexivity] ].
  - cbn [append Logger.split_dot]. rewrite IH.
    destruct (N.eqb c dot).
    + exists EmptyString, (part :: parts).
      split; [reflexivity | split; [discriminate | ] ].
      rewrite <- Hlast. reflexivity.
    + exists (String c part), parts.
      split; [reflexivity | split; [exact Hne | ] ].
      rewrite <- Hlast. destruct parts; [contradiction | reflexivity].
Qed.

(** X27. The log file is named after the part of the logger name behind its
    last dot: two loggers whose names end in the same component write to the
    same file of [logs_dir]. *)
Theorem log_file_named_by_last_component (logs_dir p s : str) :
  dot_free s = true ->
  Logger.last_component (p ++ "." ++ s) = s
  /\ Logger.log_file_of logs_dir (p ++ "." ++ s)
     = Logger.join logs_dir (s ++ ".log")
  /\ Logger.log_file_of logs_dir s = Logger.join logs_dir (s ++ ".log").
Proof.
  intros Hs.
  assert (Logger.last_component s = s) as Hself.
  { unfold Logger.last_component. now rewrite (split_dot_free s Hs). }
  unfold Logger.log_file_of.
  change (p ++ "." ++ s) with (p ++ String dot s).
  now rewrite last_component_after_dot, Hself.
Qed.

Lemma log_file_named_by_last_component_witness :
  Logger.last_component ("app.grocy" ++ "." ++ "client") = "client"
  /\ Logger.log_file_of "/logs" ("app.grocy" ++ "." ++ "client")
     = Logger.join "/logs" ("client" ++ ".log")
  /\ Logger.log_file_of "/logs" "client" = Logger.join "/logs" ("client" ++ ".log").
Proof.
  exact (log_file_named_by_last_component "/logs" "app.grocy" "client" eq_refl).
Defined.

Section LoggerHandlers.

Variable R : runtime.
Variable environ : str -> option str.
Variable logs_dir : str.
Variable set_level : str -> result Z.
Variable abspath : str -> str.
Variable open_log : str -> result unit.

(** The handlers after a call: those before, a console handler unless
    there was one, a file handler unless there was one for the log file or
    the file could not be opened. *)
Lemma get_logger_handlers (name : str) (logger logger' : Logger.logger_state) :
  Logger.get_logger R environ logs_dir set_level abspath open_log name logger
  = Ok logger' ->
  let with_console :=
    (Logger.handlers logger
     ++ if existsb Logger.is_console (Logger.handlers logger) then []
        else [console_handler])%list in
  Logger.handlers logger'
  = (with_console
     ++ if existsb (Logger.logs_to (Logger.log_file_of logs_dir name))
             with_console
        then []
        else match open_log (Logger.log_file_of logs_dir name) with
             | Ok _ => [file_handler (abspath (Logger.log_file_of logs_dir name))]
             | Raise _ => []
             end)%list
  /\ set_level (match environ "LOG_LEVEL" with Some s => s | None => "INFO" end)
     = Ok (Logger.level logger').
Proof.
  unfold Logger.get_logger.
  destruct (set_level _) as [lvl | e]; cbn [rbind]; [ | discriminate ].
  cbn [Logger.handlers].
  destruct (existsb Logger.is_console (Logger.handlers logger));
    cbn [negb Logger.addHandler Logger.handlers Logger.level Logger.errors];
    rewrite ?app_nil_r;
    (destruct (existsb (Logger.logs_to (Logger.log_file_of logs_dir name)) _);
     cbn [negb];
     [ intros [= <-]; cbn [Logger.handlers Logger.level];
       rewrite ?app_nil_r; now split
     | destruct (open_log (Logger.log_file_of logs_dir name));
       intros [= <-];
       cbn [Logger.addHandler Logger.handlers Logger.level];
       rewrite ?app_nil_r; now split ]).
Qed.

End LoggerHandlers.

Lemma existsb_false_filter {A : Type} (f : A -> bool) (l : list A) :
  existsb f l = false -> filter f l = [].
Proof.
  induction l as [|x l IH]; cbn [existsb filter]; [reflexivity | ].
  intros H. apply orb_false_iff in H as [Hx Hl]. rewrite Hx. now apply IH.
Qed.

Lemma existsb_true_filter {A : Type} (f : A -> bool) (l : list A) :
  existsb f l = true -> (1 <= List.length (filter f l))%nat.
Proof.
  induction l as [|x l IH]; cbn [existsb filter]; [discriminate | ].
  destruct (f x); cbn [orb List.length]; [lia | exact IH].
Qed.

Section LoggerCalls.

Variable R : runtime.
Variable environ : str -> option str.
Variable logs_dir : str.
Variable set_level : str -> result Z.
Variable abspath : str -> str.
Variable open_log : str -> result unit.

Lemma get_logger_returns (name : str) (logger : Logger.logger_state)
    (lvl : Z) :
  set_level (match environ "LOG_LEVEL" with Some s => s | None => "INFO" end)
  = Ok lvl ->
  exists logger',
    Logger.get_logger R environ logs_dir set_level abspath open_log name logger
    = Ok logger'.
Proof.
  intros H. unfold Logger.get_logger. rewrite H. cbn [rbind].
  destruct (negb (existsb (Logger.logs_to _) _)); [ | eexists; reflexivity ].
  destruct (open_log _); eexists; reflexivity.
Qed.

Lemma with_console_has_console (hs : list Logger.handler) :
  existsb Logger.is_console
    (hs ++ if existsb Logger.is_console hs then [] else [console_handler])
  = true.
Proof.
  destruct (existsb Logger.is_console hs) eqn:E.
  - now rewrite app_nil_r.
  - rewrite existsb_app, E. reflexivity.
Qed.

End LoggerCalls.

(** X28. [get_logger] keeps the handlers it finds, in their order, and installs
    the console handler once: after a call the logger has one handler on
    [sys.stdout] if it had none, and as many as before otherwise. *)
Theorem get_logger_console_once (R : runtime)
    (environ : str -> option str) (logs_dir : str)
    (set_level : str -> result Z) (abspath : str -> str)
    (open_log : str -> result unit) (name : str)
    (logger logger' : Logger.logger_state) :
  Logger.get_logger R environ logs_dir set_level abspath open_log name logger
  = Ok logger' ->
  (exists added,
      Logger.handlers logger' = (Logger.handlers logger ++ added)%list)
  /\
  List.length (filter Logger.is_console (Logger.handlers logger'))
  = Nat.max 1 (List.length (filter Logger.is_console (Logger.handlers logger))).
Proof.
  intros H.
  destruct (get_logger_handlers R environ logs_dir set_level abspath open_log
              name logger logger' H) as [Hh _].
  cbv zeta in Hh. rewrite Hh. split.
  - rewrite <- app_assoc. eexists. reflexivity.
  - rewrite !filter_app.
    assert (forall hs,
               filter Logger.is_console
                 (if existsb (Logger.logs_to (Logger.log_file_of logs_dir name)) hs
                  then []
                  else match open_log (Logger.log_file_of logs_dir name) with
                       | Ok _ =>
                           [file_handler
                              (abspath (Logger.log_file_of logs_dir name))]
                       | Raise _ => []
                       end) = []) as ->.
    { intros hs. destruct (existsb _ hs); [reflexivity | ].
      now destruct (open_log _). }
    rewrite app_nil_r.
    destruct (existsb Logger.is_console (Logger.handlers logger)) eqn:E.
    + cbn [filter]. rewrite app_nil_r.
      pose proof (existsb_true_filter _ _ E). lia.
    + rewrite (existsb_false_filter _ _ E). reflexivity.
Qed.

Lemma get_logger_console_once_witness :
  (exists added,
      [console_handler; file_handler "/logs/client.log"]
      = (Logger.handlers fresh_logger ++ added)%list)
  /\
  List.length (filter Logger.is_console
                 [console_handler; file_handler "/logs/client.log"])
  = Nat.max 1 (List.length (filter Logger.is_console
                              (Logger.handlers fresh_logger))).
Proof.
  exact (get_logger_console_once example_runtime (fun _ => None) "/logs"
           example_set_level example_abspath (fun _ => Ok tt)
           "app.grocy.client" fresh_logger
           {| Logger.level := 20;
              Logger.handlers :=
                [console_handler; file_handler "/logs/client.log"];
              Logger.errors := [] |} eq_refl).
Defined.

(** X29. When the path of the log file is its own absolute path, a second
    [get_logger] with the same name changes neither the handlers nor the
    level: no handler is installed twice. *)
Theorem get_logger_idempotent (R : runtime)
    (environ : str -> option str) (logs_dir : str)
    (set_level : str -> result Z) (abspath : str -> str)
    (open_log : str -> result unit) (name : str)
    (logger logger' : Logger.logger_state) :
  abspath (Logger.log_file_of logs_dir name) = Logger.log_file_of logs_dir name ->
  Logger.get_logger R environ logs_dir set_level abspath open_log name logger
  = Ok logger' ->
  exists logger'',
    Logger.get_logger R environ logs_dir set_level abspath open_log name logger'
    = Ok logger''
    /\ Logger.handlers logger'' = Logger.handlers logger'
    /\ Logger.level logger'' = Logger.level logger'.
Proof.
  intros Habs H.
  destruct (get_logger_handlers R environ logs_dir set_level abspath open_log
              name logger logger' H) as [Hh Hlvl].
  destruct (get_logger_returns R environ logs_dir set_level abspath open_log
              name logger' _ Hlvl) as [logger'' H2].
  exists logger''. split; [exact H2 | ].
  destruct (get_logger_handlers R environ logs_dir set_level abspath open_log
              name logger' logger'' H2) as [Hh2 Hlvl2].
  split; [ | congruence ].
  cbv zeta in Hh, Hh2.
  set (lf := Logger.log_file_of logs_dir name) in *.
  set (W := (Logger.handlers logger
             ++ if existsb Logger.is_console (Logger.handlers logger)
                then [] else [console_handler])%list) in *.
  assert (existsb Logger.is_console (Logger.handlers logger') = true) as Hc.
  { rewrite Hh, existsb_app. unfold W. now rewrite with_console_has_console. }
  rewrite Hc, app_nil_r in Hh2. rewrite Hh2.
  destruct (existsb (Logger.logs_to lf) W) eqn:EW.
  - rewrite app_nil_r in Hh. rewrite Hh, EW. now rewrite app_nil_r.
  - destruct (open_log lf) as [u | e] eqn:Eo.
    + assert (existsb (Logger.logs_to lf) (Logger.handlers logger') = true) as ->.
      { rewrite Hh, existsb_app, EW. cbn [orb existsb Logger.logs_to file_handler].
        rewrite Habs, str_eqb_refl. reflexivity. }
      now rewrite app_nil_r.
    + rewrite app_nil_r in Hh. rewrite Hh, EW. now rewrite app_nil_r.
Qed.

Lemma get_logger_idempotent_witness :
  exists logger'',
    Logger.get_logger example_runtime (fun _ => None) "/logs" example_set_level
      example_abspath (fun _ => Ok tt) "app.grocy.client"
      {| Logger.level := 20;
         Logger.handlers := [console_handler; file_handler "/logs/client.log"];
         Logger.errors := [] |}
    = Ok logger''
    /\ Logger.handlers logger''
       = [console_handler; file_handler "/logs/client.log"]
    /\ Logger.level logger'' = 20.
Proof.
  exact (get_logger_idempotent example_runtime (fun _ => None) "/logs"
           example_set_level example_abspath (fun _ => Ok tt)
           "app.grocy.client" fresh_logger
           {| Logger.level := 20;
              Logger.handlers :=
                [console_handler; file_handler "/logs/client.log"];
              Logger.errors := [] |} eq_refl eq_refl).
Defined.

(** X30. When the path of the log file is not its own absolute path (a relative
    [LOGS_DIR], say) and the file can be opened, the test for an existing file
    handler never succeeds: a second [get_logger] with the same name installs
    a second file handler on the same file. *)
Theorem get_logger_duplicates_file_handler (R : runtime)
    (environ : str -> option str) (logs_dir : str)
    (set_level : str -> result Z) (abspath : str -> str)
    (open_log : str -> result unit) (name : str)
    (logger logger' : Logger.logger_state) :
  let log_file := Logger.log_file_of logs_dir name in
  abspath log_file <> log_file ->
  existsb (Logger.logs_to log_file) (Logger.handlers logger) = false ->
  open_log log_file = Ok tt ->
  Logger.get_logger R environ logs_dir set_level abspath open_log name logger
  = Ok logger' ->
  In (file_handler (abspath log_file)) (Logger.handlers logger')
  /\
  exists logger'',
    Logger.get_logger R environ logs_dir set_level abspath open_log name logger'
    = Ok logger''
    /\ Logger.handlers logger''
       = (Logger.handlers logger' ++ [file_handler (abspath log_file)])%list.
Proof.
  intros log_file Habs Hnone Hopen H.
  destruct (get_logger_handlers R environ logs_dir set_level abspath open_log
              name logger logger' H) as [Hh Hlvl].
  destruct (get_logger_returns R environ logs_dir set_level abspath open_log
              name logger' _ Hlvl) as [logger'' H2].
  destruct (get_logger_handlers R environ logs_dir set_level abspath open_log
              name logger' logger'' H2) as [Hh2 _].
  cbv zeta in Hh, Hh2. fold log_file in Hh, Hh2.
  set (W := (Logger.handlers logger
             ++ if existsb Logger.is_console (Logger.handlers logger)
                then [] else [console_handler])%list) in *.
  assert (existsb (Logger.logs_to log_file) W = false) as EW.
  { unfold W. rewrite existsb_app, Hnone.
    now destruct (existsb Logger.is_console (Logger.handlers logger)). }
  rewrite EW, Hopen in Hh.
  assert (existsb Logger.is_console (Logger.handlers logger') = true) as Hc.
  { rewrite Hh, existsb_app. unfold W. now rewrite with_console_has_console. }
  assert (existsb (Logger.logs_to log_file) (Logger.handlers logger') = false)
    as Hf.
  { rewrite Hh, existsb_app, EW. cbn [orb existsb Logger.logs_to file_handler].
    apply str_eqb_neq in Habs. now rewrite Habs. }
  rewrite Hc, app_nil_r, Hf, Hopen in Hh2.
  split.
  - rewrite Hh. apply in_or_app. right. now left.
  - exists logger''. split; [exact H2 | exact Hh2].
Qed.

Lemma get_logger_duplicates_file_handler_witness :
  In (file_handler "/srv/app/logs/client.log")
     [console_handler; file_handler "/srv/app/logs/client.log"]
  /\
  exists logger'',
    Logger.get_logger example_runtime (fun _ => None) "logs" example_set_level
      example_abspath (fun _ => Ok tt) "app.grocy.client"
      {| Logger.level := 20;
         Logger.handlers :=
           [console_handler; file_handler "/srv/app/logs/client.log"];
         Logger.errors := [] |}
    = Ok logger''
    /\ Logger.handlers logger''
       = [console_handler; file_handler "/srv/app/logs/client.log";
          file_handler "/srv/app/logs/client.log"].
Proof.
  apply (get_logger_duplicates_file_handler example_runtime (fun _ => None)
           "logs" example_set_level example_abspath (fun _ => Ok tt)
           "app.grocy.client" fresh_logger
           {| Logger.level := 20;
              Logger.handlers :=
                [console_handler; file_handler "/srv/app/logs/client.log"];
              Logger.errors := [] |});
    try reflexivity.
  discriminate.
Defined.

(** ** Two consequences of the lookup by name *)

(** X13. When the fetch of the product list fails, [get_product_by_name] does
    not return [None]: it iterates over the [None] that [get_all_products]
    returned and raises [TypeError]. *)
Theorem get_product_by_name_raises_on_failed_fetch (R : runtime)
    (server : remote) (self : client) (product_name : str) (st : state)
    (e : exn) :
  transport_failure (server (history st) (fallback_request self)) = Some e ->
  fst (GrocyClient.get_product_by_name R server self product_name st)
  = Raise (TypeError "'NoneType' object is not iterable")
  /\ requests_of (GrocyClient.get_product_by_name R server self product_name) st
     = [fallback_request self].
Proof.
  intros H.
  assert (transport_result (server (history st) (fallback_request self))
          = Raise e) as Hres.
  { unfold transport_failure in H. unfold transport_result.
    destruct (server _ _) as [resp | e0]; [ | congruence ].
    destruct ((400 <=? status_code resp) && (status_code resp <? 600));
      [congruence | ].
    destruct (json resp); congruence. }
  pose proof (get_product_by_name_run_value R server self product_name st)
    as Hrun.
  cbv zeta in Hrun. rewrite Hres in Hrun. split.
  - now rewrite Hrun.
  - apply requests_of_app. now rewrite Hrun.
Qed.

Lemma get_product_by_name_raises_on_failed_fetch_witness :
  fst (GrocyClient.get_product_by_name example_runtime unreachable
         example_client "Milk" initial)
  = Raise (TypeError "'NoneType' object is not iterable")
  /\ requests_of (GrocyClient.get_product_by_name example_runtime unreachable
                    example_client "Milk") initial
     = [fallback_request example_client].
Proof.
  exact (get_product_by_name_raises_on_failed_fetch example_runtime unreachable
           example_client "Milk" initial
           (RequestException "Connection refused") eq_refl).
Defined.

(** X22. Whenever the [try] statement of [create_product] raises (the POST
    itself, a body that cannot be decoded, a body that is no JSON object,
    whatever the status), the next request is the GET of the product list
    for the lookup by name. *)
Theorem create_product_looks_up_by_name (R : runtime) (server : remote)
    (self : client) (product_data : product_data) (st : state) (e : exn) :
  create_failure (server (history st) (create_request self product_data))
  = Some e ->
  exists rest,
    requests_of (GrocyClient.create_product R server self product_data) st
    = create_request self product_data :: fallback_request self :: rest.
Proof.
  exact (create_product_falls_back R server self product_data st e).
Qed.

Lemma create_product_looks_up_by_name_witness :
  exists rest,
    requests_of (GrocyClient.create_product example_runtime rejecting_proxy
                   example_client milk_data) initial
    = create_request example_client milk_data
      :: fallback_request example_client :: rest.
Proof.
  exact (create_product_looks_up_by_name example_runtime rejecting_proxy
           example_client milk_data initial JSONDecodeError eq_refl).
Defined.
